(** * DeviceWindow: a CUDA/OpenGL interop window (device_window.cuh)

    A shallow embedding of [draw::DeviceWindow] and of the free functions it
    uses.  The program is a sequence of calls into two external runtimes
    (OpenGL and the CUDA graphics interop API), so the embedding consists of

    - a small executable model of the part of both runtimes the code touches
      (buffer objects, the pixel-unpack binding, interop registrations and
      their mapped flag), together with a log of the calls issued;
    - the functions of the header, written in an error/state monad over that
      model, statement for statement.

    Handles are integers.  A runtime hands out names that are not in use: a
    new one from a counter or, when it recycles names, the one released last
    (a name passed to glDeleteBuffers is unused again and glGenBuffers may
    return it; a freed registration record may be allocated again at the same
    address).  The null handle and the buffer name 0 are the integer 0. *)

From Stdlib Require Import ZArith List String Lia.
From Stdlib Require Import Floats.SpecFloat.
From stdpp Require Import base gmap strings.

Open Scope Z_scope.

(** ** Machine integers *)

Module MachInt.

Definition UINT_MOD : Z := 2 ^ 32.
Definition SIZE_MOD : Z := 2 ^ 64.

(** [unsigned] arithmetic wraps modulo 2^32. *)
Definition umul (a b : Z) : Z := (a * b) mod UINT_MOD.

(** [size_t] arithmetic wraps modulo 2^64. *)
Definition size_mul (a b : Z) : Z := (a * b) mod SIZE_MOD.

Definition sizeof_float : Z := 4.

(** Conversions between [GLuint] and [GLint] (two's complement). *)
Definition GLint_of_GLuint (u : Z) : Z :=
  if u <? 2 ^ 31 then u else u - UINT_MOD.
Definition GLuint_of_GLint (i : Z) : Z := i mod UINT_MOD.

End MachInt.
Export MachInt.

(** ** Colors *)

(** Modelled from the spec: [dg::Color] is declared in colormap.cuh, which is
    not part of the sources at hand; the spec describes the output of the
    colormap as a 3-component color stored as interleaved floats. *)
Record Color : Type := mkColor { red : spec_float; green : spec_float; blue : spec_float }.

Definition sizeof_Color : Z := 3 * sizeof_float.

(** ** The two runtimes *)

Inductive cudaError_t : Type :=
| cudaSuccess
| cudaErrorMemoryAllocation
| cudaErrorInvalidValue
| cudaErrorInvalidResourceHandle
| cudaErrorUnknown.

Definition cudaGetErrorString (e : cudaError_t) : string :=
  match e with
  | cudaSuccess => "no error"
  | cudaErrorMemoryAllocation => "out of memory"
  | cudaErrorInvalidValue => "invalid argument"
  | cudaErrorInvalidResourceHandle => "invalid resource handle"
  | cudaErrorUnknown => "unknown error"
  end.

Definition is_cudaSuccess (e : cudaError_t) : bool :=
  match e with cudaSuccess => true | _ => false end.

(** The data store of a buffer object: its size in bytes and the floats
    written so far, by float index (a store created with a NULL data pointer
    has undefined contents, hence a partial map). *)
Record DataStore : Type := mkStore { ds_bytes : Z; ds_floats : gmap Z spec_float }.

Definition empty_store : DataStore := {| ds_bytes := 0; ds_floats := ∅ |}.

(** An interop registration: the buffer it shares and who owns it now. *)
Record Registration : Type := mkReg { reg_buffer : Z; reg_mapped : bool }.

Definition vertex : Type := ((spec_float * spec_float) * (spec_float * spec_float))%type.

(** The calls that reach the runtimes, in program order. *)
Inductive Event : Type :=
| Print (s : string)
| CudaGlfwInit (width height : Z)
| GlClear
| GlfwSetWindowSizeCallback
| GlfwTerminate
| GlGenBuffers (name : Z)
| GlBindBuffer (name : Z)
| GlBufferData (bytes : Z) (ok : bool)
| GlDeleteBuffers (name : Z)
| GlTexImage2D (width height : Z) (source : Z)
| GlLoadIdentity
| GlQuads (vs : list vertex)
| GlfwSwapBuffers
| CudaRegister (buffer : Z) (result : cudaError_t) (handle : Z)
| CudaUnregister (handle : Z) (result : cudaError_t)
| CudaMap (handle : Z) (result : cudaError_t)
| CudaUnmap (handle : Z) (result : cudaError_t)
| CudaThreadSynchronize
| DeviceWrite (buffer : Z) (index : Z) (c : Color).

Record World : Type := mkWorld {
  (* OpenGL *)
  gl_buffers : gmap Z DataStore;      (* live buffer objects *)
  gl_unpack : Z;                      (* GL_PIXEL_UNPACK_BUFFER binding, 0 = none *)
  gl_next : Z;                        (* next name never handed out *)
  gl_free : list Z;                   (* released names to hand out again first *)
  gl_recycles : bool;                 (* does a deleted name go back to [gl_free] *)
  gl_store_fits : Z -> bool;          (* can a data store of that many bytes be created *)
  (* CUDA graphics interop *)
  cu_resources : gmap Z Registration; (* registered resources *)
  cu_next : Z;                        (* next handle never handed out *)
  cu_free : list Z;                   (* released handles to hand out again first *)
  cu_recycles : bool;                 (* does an unregistered handle go back to [cu_free] *)
  cu_faults : list cudaError_t;       (* results of the coming registration requests *)
  (* observable history *)
  trace : list Event
}.

Definition log (e : Event) (w : World) : World :=
  mkWorld (gl_buffers w) (gl_unpack w) (gl_next w) (gl_free w) (gl_recycles w) (gl_store_fits w)
          (cu_resources w) (cu_next w) (cu_free w) (cu_recycles w) (cu_faults w)
          (trace w ++ [e]).

Definition logs (evs : list Event) (w : World) : World :=
  mkWorld (gl_buffers w) (gl_unpack w) (gl_next w) (gl_free w) (gl_recycles w) (gl_store_fits w)
          (cu_resources w) (cu_next w) (cu_free w) (cu_recycles w) (cu_faults w)
          (trace w ++ evs).

Definition set_gl_buffers (m : gmap Z DataStore) (w : World) : World :=
  mkWorld m (gl_unpack w) (gl_next w) (gl_free w) (gl_recycles w) (gl_store_fits w)
          (cu_resources w) (cu_next w) (cu_free w) (cu_recycles w) (cu_faults w) (trace w).

Definition set_gl_unpack (n : Z) (w : World) : World :=
  mkWorld (gl_buffers w) n (gl_next w) (gl_free w) (gl_recycles w) (gl_store_fits w)
          (cu_resources w) (cu_next w) (cu_free w) (cu_recycles w) (cu_faults w) (trace w).

Definition set_gl_names (next : Z) (free : list Z) (w : World) : World :=
  mkWorld (gl_buffers w) (gl_unpack w) next free (gl_recycles w) (gl_store_fits w)
          (cu_resources w) (cu_next w) (cu_free w) (cu_recycles w) (cu_faults w) (trace w).

Definition set_cu_resources (m : gmap Z Registration) (w : World) : World :=
  mkWorld (gl_buffers w) (gl_unpack w) (gl_next w) (gl_free w) (gl_recycles w) (gl_store_fits w)
          m (cu_next w) (cu_free w) (cu_recycles w) (cu_faults w) (trace w).

Definition set_cu_names (next : Z) (free : list Z) (w : World) : World :=
  mkWorld (gl_buffers w) (gl_unpack w) (gl_next w) (gl_free w) (gl_recycles w) (gl_store_fits w)
          (cu_resources w) next free (cu_recycles w) (cu_faults w) (trace w).

Definition set_cu_faults (l : list cudaError_t) (w : World) : World :=
  mkWorld (gl_buffers w) (gl_unpack w) (gl_next w) (gl_free w) (gl_recycles w) (gl_store_fits w)
          (cu_resources w) (cu_next w) (cu_free w) (cu_recycles w) l (trace w).

(** The name the next [glGenBuffers] hands out, and the handle the next
    successful registration gets. *)
Definition next_buffer_name (w : World) : Z := hd (gl_next w) (gl_free w).
Definition next_handle (w : World) : Z := hd (cu_next w) (cu_free w).

(** The world before any window exists: no buffer object, nothing bound, no
    registration.  The arguments fix how the runtimes will answer: which data
    stores fit, what the coming registration requests return, and whether
    released names are handed out again. *)
Definition boot (recycling : bool) (fits : Z -> bool) (faults : list cudaError_t) : World :=
  mkWorld ∅ 0 1 [] recycling fits ∅ 1 [] recycling faults [].

Definition power_on (fits : Z -> bool) (faults : list cudaError_t) : World :=
  boot false fits faults.

(** ** Computations *)

(** A call either returns, or stops the process in a failed [assert], or has
    undefined behaviour (a write through an indeterminate or out-of-range
    device pointer, a branch on an indeterminate value). *)
Inductive Outcome (A : Type) : Type :=
| Done (a : A) (w : World)
| Aborted (w : World)
| Undefined.
Arguments Done {A} a w.
Arguments Aborted {A} w.
Arguments Undefined {A}.

Definition Op (A : Type) : Type := World -> Outcome A.

Definition ret {A} (a : A) : Op A := fun w => Done a w.

Definition bind {A B} (m : Op A) (k : A -> Op B) : Op B :=
  fun w =>
    match m w with
    | Done a w' => k a w'
    | Aborted w' => Aborted w'
    | Undefined => Undefined
    end.

Notation "'do' x <- m ; k" := (bind m (fun x => k))
  (at level 10, x name, m at level 100, k at level 200).
Notation "m ;; k" := (bind m (fun _ => k))
  (at level 100, k at level 200, right associativity).

Definition emit (e : Event) : Op unit := fun w => Done tt (log e w).

(** The world a call leaves behind, when there is one. *)
Definition final_world {A} (o : Outcome A) : option World :=
  match o with
  | Done _ w => Some w
  | Aborted w => Some w
  | Undefined => None
  end.

(** Reduce the projections of a world built by the setters. *)
Ltac world_simpl :=
  cbn [log logs set_gl_buffers set_gl_unpack set_gl_names set_cu_resources set_cu_names
         set_cu_faults gl_buffers gl_unpack gl_next gl_free gl_recycles gl_store_fits
         cu_resources cu_next cu_free cu_recycles cu_faults trace].

Ltac world_simpl_in H :=
  cbn [log logs set_gl_buffers set_gl_unpack set_gl_names set_cu_resources set_cu_names
         set_cu_faults gl_buffers gl_unpack gl_next gl_free gl_recycles gl_store_fits
         cu_resources cu_next cu_free cu_recycles cu_faults trace] in H.

Lemma world_eq (w1 w2 : World) :
  gl_buffers w1 = gl_buffers w2 -> gl_unpack w1 = gl_unpack w2 ->
  gl_next w1 = gl_next w2 -> gl_free w1 = gl_free w2 ->
  gl_recycles w1 = gl_recycles w2 -> gl_store_fits w1 = gl_store_fits w2 ->
  cu_resources w1 = cu_resources w2 -> cu_next w1 = cu_next w2 ->
  cu_free w1 = cu_free w2 -> cu_recycles w1 = cu_recycles w2 ->
  cu_faults w1 = cu_faults w2 -> trace w1 = trace w2 ->
  w1 = w2.
Proof. destruct w1, w2; simpl; intros; subst; reflexivity. Qed.

(** Two worlds built by the setters are equal when their fields are. *)
Ltac world_ext := apply world_eq; world_simpl; try reflexivity.

(** *** OpenGL calls *)

Definition NULL : Z := 0.

(** [glGenBuffers(1, &name)] *)
Definition glGenBuffers : Op Z := fun w =>
  match gl_free w with
  | name :: rest => Done name (log (GlGenBuffers name) (set_gl_names (gl_next w) rest w))
  | [] =>
      let name := gl_next w in
      Done name (log (GlGenBuffers name) (set_gl_names (name + 1) [] w))
  end.

(** [glBindBuffer(GL_PIXEL_UNPACK_BUFFER, name)]: the first binding of a
    generated name creates the buffer object, with an empty data store. *)
Definition glBindBuffer (name : Z) : Op unit := fun w =>
  let bufs :=
    match gl_buffers w !! name with
    | Some _ => gl_buffers w
    | None => if name =? 0 then gl_buffers w else <[name := empty_store]> (gl_buffers w)
    end in
  Done tt (log (GlBindBuffer name) (set_gl_unpack name (set_gl_buffers bufs w))).

(** [glBufferData(GL_PIXEL_UNPACK_BUFFER, bytes, NULL, GL_DYNAMIC_DRAW)]: a
    new data store of undefined contents for the bound buffer.  The call
    returns nothing; GL_INVALID_OPERATION (nothing bound) and
    GL_OUT_OF_MEMORY leave the buffer as it was and are only visible through
    [glGetError], recorded here as [ok = false]. *)
Definition glBufferData (bytes : Z) : Op unit := fun w =>
  match gl_buffers w !! gl_unpack w with
  | None => Done tt (log (GlBufferData bytes false) w)
  | Some _ =>
      if gl_store_fits w bytes
      then Done tt (log (GlBufferData bytes true)
                      (set_gl_buffers (<[gl_unpack w := mkStore bytes ∅]> (gl_buffers w)) w))
      else Done tt (log (GlBufferData bytes false) w)
  end.

(** [glGetIntegerv(GL_PIXEL_UNPACK_BUFFER_BINDING, &id)] *)
Definition glGetIntegerv_unpack_binding : Op Z := fun w =>
  Done (GLint_of_GLuint (gl_unpack w)) w.

(** [glDeleteBuffers(1, &name)]: 0 and names that are no buffer object are
    silently ignored; deleting the bound buffer resets the binding to 0; the
    name is unused again. *)
Definition glDeleteBuffers (name : Z) : Op unit := fun w =>
  match gl_buffers w !! name with
  | None => Done tt (log (GlDeleteBuffers name) w)
  | Some _ =>
      Done tt (log (GlDeleteBuffers name)
                 (set_gl_names (gl_next w)
                    (if gl_recycles w then name :: gl_free w else gl_free w)
                    (set_gl_unpack (if gl_unpack w =? name then 0 else gl_unpack w)
                       (set_gl_buffers (delete name (gl_buffers w)) w))))
  end.

(** [glTexImage2D(GL_TEXTURE_2D, 0, GL_RGB, width, height, 0, GL_RGB,
    GL_FLOAT, NULL)]: with a buffer bound to GL_PIXEL_UNPACK_BUFFER the image
    is read from that buffer, at offset 0. *)
Definition glTexImage2D (width height : Z) : Op unit := fun w =>
  Done tt (log (GlTexImage2D width height (gl_unpack w)) w).

Definition glLoadIdentity : Op unit := emit GlLoadIdentity.
Definition glfwSwapBuffers : Op unit := emit GlfwSwapBuffers.
Definition glfwTerminate : Op unit := emit GlfwTerminate.

(** *** CUDA calls *)

(** The flags of a registration.  The program registers with one flag only,
    and the registrations of the model are of that kind: the compute runtime
    does not read the buffer, and nothing stored in it before a map is
    preserved. *)
Inductive cudaGraphicsRegisterFlags : Type :=
| cudaGraphicsRegisterFlagsWriteDiscard.

(** [cudaGraphicsGLRegisterBuffer(&resource, buffer, flags)]: the handle is
    written only on success. *)
Definition cudaGraphicsGLRegisterBuffer (buffer : Z) (flags : cudaGraphicsRegisterFlags)
  : Op (cudaError_t * option Z) := fun w =>
  match gl_buffers w !! buffer with
  | None =>
      Done (cudaErrorInvalidValue, None)
           (log (CudaRegister buffer cudaErrorInvalidValue NULL) w)
  | Some _ =>
      let answer := hd cudaSuccess (cu_faults w) in
      let w1 := set_cu_faults (tl (cu_faults w)) w in
      if is_cudaSuccess answer
      then
        let h := next_handle w in
        Done (cudaSuccess, Some h)
             (log (CudaRegister buffer cudaSuccess h)
                (set_cu_names (match cu_free w with [] => cu_next w + 1 | _ :: _ => cu_next w end)
                   (tl (cu_free w))
                   (set_cu_resources (<[h := mkReg buffer false]> (cu_resources w)) w1)))
      else Done (answer, None) (log (CudaRegister buffer answer NULL) w1)
  end.

(** [cudaGraphicsUnregisterResource(resource)] *)
Definition cudaGraphicsUnregisterResource (resource : Z) : Op cudaError_t := fun w =>
  match cu_resources w !! resource with
  | Some _ =>
      Done cudaSuccess
           (log (CudaUnregister resource cudaSuccess)
              (set_cu_names (cu_next w)
                 (if cu_recycles w then resource :: cu_free w else cu_free w)
                 (set_cu_resources (delete resource (cu_resources w)) w)))
  | None =>
      Done cudaErrorInvalidResourceHandle
           (log (CudaUnregister resource cudaErrorInvalidResourceHandle) w)
  end.

Definition set_mapped (resource : Z) (r : Registration) (b : bool) (w : World) : World :=
  set_cu_resources (<[resource := mkReg (reg_buffer r) b]> (cu_resources w)) w.

(** [cudaGraphicsMapResources(1, &resource, 0)]: the buffer goes over to the
    compute runtime.  The registration being write-discard, what the data
    store held is not preserved: its contents are undefined from here on,
    until they are written. *)
Definition cudaGraphicsMapResources (resource : Z) : Op cudaError_t := fun w =>
  match cu_resources w !! resource with
  | None =>
      Done cudaErrorInvalidResourceHandle
           (log (CudaMap resource cudaErrorInvalidResourceHandle) w)
  | Some r =>
      match gl_buffers w !! reg_buffer r, reg_mapped r with
      | Some ds, false =>
          Done cudaSuccess
               (log (CudaMap resource cudaSuccess)
                  (set_mapped resource r true
                     (set_gl_buffers (<[reg_buffer r := mkStore (ds_bytes ds) ∅]> (gl_buffers w)) w)))
      | _, _ => Done cudaErrorUnknown (log (CudaMap resource cudaErrorUnknown) w)
      end
  end.

(** [cudaGraphicsResourceGetMappedPointer(&ptr, &size, resource)]: on failure
    both outputs keep their indeterminate initial value ([None]).  A device
    pointer is the name of the buffer whose data store it addresses. *)
Definition cudaGraphicsResourceGetMappedPointer (resource : Z)
  : Op (cudaError_t * option Z * option Z) := fun w =>
  match cu_resources w !! resource with
  | None => Done (cudaErrorInvalidResourceHandle, None, None) w
  | Some r =>
      match gl_buffers w !! reg_buffer r, reg_mapped r with
      | Some ds, true => Done (cudaSuccess, Some (reg_buffer r), Some (ds_bytes ds)) w
      | _, _ => Done (cudaErrorUnknown, None, None) w
      end
  end.

(** [cudaGraphicsUnmapResources(1, &resource, 0)] *)
Definition cudaGraphicsUnmapResources (resource : Z) : Op cudaError_t := fun w =>
  match cu_resources w !! resource with
  | None =>
      Done cudaErrorInvalidResourceHandle
           (log (CudaUnmap resource cudaErrorInvalidResourceHandle) w)
  | Some r =>
      if reg_mapped r
      then Done cudaSuccess (log (CudaUnmap resource cudaSuccess) (set_mapped resource r false w))
      else Done cudaErrorUnknown (log (CudaUnmap resource cudaErrorUnknown) w)
  end.

Definition cudaThreadSynchronize : Op unit := emit CudaThreadSynchronize.

(** *** Device code *)

(** One element of the output range: [d_buffer[i] = c], three floats at
    float offsets 3i, 3i+1, 3i+2.  Outside the data store the write is
    undefined. *)
Definition store_color (buffer : Z) (i : Z) (c : Color) : Op unit := fun w =>
  match gl_buffers w !! buffer with
  | None => Undefined
  | Some ds =>
      if sizeof_Color * (i + 1) <=? ds_bytes ds
      then
        let fl := <[3 * i + 2 := blue c]> (<[3 * i + 1 := green c]> (<[3 * i := red c]> (ds_floats ds))) in
        Done tt (log (DeviceWrite buffer i c)
                   (set_gl_buffers (<[buffer := mkStore (ds_bytes ds) fl]> (gl_buffers w)) w))
      else Undefined
  end.

Fixpoint transform_from {T} (map : T -> Color) (xs : list T) (i : Z) (buffer : Z) : Op unit :=
  match xs with
  | [] => ret tt
  | v :: rest => store_color buffer i (map v) ;; transform_from map rest (i + 1) buffer
  end.

(** [thrust::transform(x.begin(), x.end(), thrust::device_pointer_cast(d_buffer), map)].
    An empty input range touches no memory; otherwise the output pointer has
    to be a valid one. *)
Definition thrust_transform {T} (map : T -> Color) (x : list T) (d_buffer : option Z) : Op unit :=
  match x, d_buffer with
  | [], _ => ret tt
  | _ :: _, Some buffer => transform_from map x 0 buffer
  | _ :: _, None => fun _ => Undefined
  end.

(** [assert(c)], on a condition that may be indeterminate. *)
Definition assert (c : option bool) : Op unit := fun w =>
  match c with
  | Some true => Done tt w
  | Some false => Aborted w
  | None => Undefined
  end.

(** ** The program *)

(** The output stream: [std::cout << s]. *)
Definition cout (s : string) : Op unit := emit (Print s).

Definition newline : string := String (Ascii.ascii_of_nat 10) EmptyString.

(** Window and context creation belong to the windowing collaborator; only the
    call is recorded. *)
Definition cudaGlfwInit (width height : Z) : Op unit := emit (CudaGlfwInit width height).

Definition allocateGlBuffer (N : Z) : Op Z :=
  do bufferID <- glGenBuffers;
  glBindBuffer bufferID ;;
  (* the buffer shall contain a texture *)
  glBufferData (size_mul N sizeof_float) ;;
  ret bufferID.

(** N should be 3*Nx*Ny *)
Definition allocateCudaGlBuffer (N : Z) : Op Z :=
  do bufferID <- allocateGlBuffer N;
  (* register the resource i.e. tell CUDA and OpenGL that buffer is used by both *)
  do reply <- cudaGraphicsGLRegisterBuffer bufferID cudaGraphicsRegisterFlagsWriteDiscard;
  let error := fst reply in
  if negb (is_cudaSuccess error)
  then cout (cudaGetErrorString error) ;; ret NULL
  else match snd reply with
       | Some resource => ret resource
       | None => fun _ => Undefined
       end.

Definition freeCudaGlBuffer (resource : Z) : Op unit :=
  cudaGraphicsUnregisterResource resource ;; ret tt.

Definition size_of {T} (x : list T) : Z := Z.of_nat (length x).

Definition mapColors {T} (DG_DEBUG : bool) (map : T -> Color) (x : list T) (resource : Z) : Op unit :=
  (* Map resource into CUDA memory space *)
  cudaGraphicsMapResources resource ;;
  (* get a pointer to the mapped resource *)
  do got <- cudaGraphicsResourceGetMappedPointer resource;
  let d_buffer := snd (fst got) in
  let size := snd got in
  (if DG_DEBUG
   then assert (option_map (fun sz => size_of x =? sz / 3 / sizeof_float) size)
   else ret tt) ;;
  thrust_transform map x d_buffer ;;
  cudaThreadSynchronize ;;
  (* unmap the resource before OpenGL uses it *)
  cudaGraphicsUnmapResources resource ;;
  ret tt.

Definition f_zero : spec_float := S754_zero false.
Definition f_one : spec_float := S754_finite false 1 0.
Definition f_minus_one : spec_float := S754_finite true 1 0.

Record DeviceWindow : Type := mkWindow {
  bufferID : Z;
  resource : Z;
  Nx_ : Z;
  Ny_ : Z
}.

Definition DeviceWindow_new (width height : Z) : Op DeviceWindow :=
  let this := mkWindow 0 NULL 0 0 in
  cudaGlfwInit width height ;;
  emit GlClear ;;
  emit GlfwSetWindowSizeCallback ;;
  ret this.

Definition DeviceWindow_delete (this : DeviceWindow) : Op unit :=
  (if negb (resource this =? NULL)
   then cudaGraphicsUnregisterResource (resource this) ;;
        (* free the opengl buffer *)
        glDeleteBuffers (bufferID this)
   else ret tt) ;;
  (* terminate glfw *)
  glfwTerminate.

(** Lines 179-192 of [draw]: the dimension check and the reallocation. *)
Definition draw_resize (Nx Ny : Z) (this : DeviceWindow) : Op DeviceWindow :=
  if negb (Nx =? Nx_ this) || negb (Ny =? Ny_ this)
  then
    let this := mkWindow (bufferID this) (resource this) Nx Ny in
    cudaGraphicsUnregisterResource (resource this) ;;
    cout ("Allocate resources for drawing!" ++ newline) ;;
    (* free opengl buffer *)
    do id <- glGetIntegerv_unpack_binding;
    let this := mkWindow (GLuint_of_GLint id) (resource this) (Nx_ this) (Ny_ this) in
    glDeleteBuffers (bufferID this) ;;
    (* allocate new buffer *)
    do r <- allocateCudaGlBuffer (umul (umul 3 Nx) Ny);
    let this := mkWindow (bufferID this) r (Nx_ this) (Ny_ this) in
    do id <- glGetIntegerv_unpack_binding;
    ret (mkWindow (GLuint_of_GLint id) (resource this) (Nx_ this) (Ny_ this))
  else ret this.

Definition quad_vertices : list vertex :=
  let x0 := f_minus_one in let x1 := f_one in
  let y0 := f_minus_one in let y1 := f_one in
  [ ((f_zero, f_zero), (x0, y0));
    ((f_one, f_zero), (x1, y0));
    ((f_one, f_one), (x1, y1));
    ((f_zero, f_one), (x0, y1)) ].

(** Lines 195-204 of [draw]: texture upload, textured quad, buffer swap. *)
Definition draw_present (Nx Ny : Z) : Op unit :=
  glTexImage2D (GLint_of_GLuint Nx) (GLint_of_GLuint Ny) ;;
  glLoadIdentity ;;
  emit (GlQuads quad_vertices) ;;
  glfwSwapBuffers.

Definition draw {T} (DG_DEBUG : bool) (x : list T) (Nx Ny : Z) (map : T -> Color)
    (this : DeviceWindow) : Op DeviceWindow :=
  do this <- draw_resize Nx Ny this;
  mapColors DG_DEBUG map x (resource this) ;;
  draw_present Nx Ny ;;
  ret this.

(** ** What the transform writes *)

(** The floats of a data store after the colors of [xs] were stored from
    color index [i] on, and the writes this takes. *)
Fixpoint fill {T} (map : T -> Color) (xs : list T) (i : Z) (fl : gmap Z spec_float)
  : gmap Z spec_float :=
  match xs with
  | [] => fl
  | v :: rest =>
      fill map rest (i + 1)
        (<[3 * i + 2 := blue (map v)]> (<[3 * i + 1 := green (map v)]> (<[3 * i := red (map v)]> fl)))
  end.

Fixpoint writes {T} (map : T -> Color) (xs : list T) (i : Z) (buffer : Z) : list Event :=
  match xs with
  | [] => []
  | v :: rest => DeviceWrite buffer i (map v) :: writes map rest (i + 1) buffer
  end.

(** Reading the buffer back through the graphics runtime: the color at
    interleaved position [i]. *)
Definition color_at (ds : DataStore) (i : Z) : option Color :=
  match ds_floats ds !! (3 * i), ds_floats ds !! (3 * i + 1), ds_floats ds !! (3 * i + 2) with
  | Some r, Some g, Some b => Some (mkColor r g b)
  | _, _, _ => None
  end.

(** ** Ownership of the shared buffer *)

Inductive Owner : Type := Graphics | Compute.

(** The hand-off protocol for the buffer [buffer] registered as [res], checked
    along a sequence of calls: a successful map moves the buffer from the
    graphics runtime to the compute runtime, a successful unmap moves it back,
    device writes need it on the compute side, the texture upload and the quad
    need it on the graphics side.  [None] is a violation. *)
Definition handoff_step (res buffer : Z) (o : Owner) (e : Event) : option Owner :=
  match e with
  | CudaMap h cudaSuccess =>
      match o with
      | Graphics => if h =? res then Some Compute else None
      | Compute => None
      end
  | CudaUnmap h cudaSuccess =>
      match o with
      | Compute => if h =? res then Some Graphics else None
      | Graphics => None
      end
  | DeviceWrite b _ _ =>
      match o with
      | Compute => if b =? buffer then Some Compute else None
      | Graphics => None
      end
  | GlTexImage2D _ _ _ | GlQuads _ =>
      match o with
      | Graphics => Some Graphics
      | Compute => None
      end
  | _ => Some o
  end.

Fixpoint handoff (res buffer : Z) (o : Owner) (evs : list Event) : option Owner :=
  match evs with
  | [] => Some o
  | e :: rest =>
      match handoff_step res buffer o e with
      | Some o' => handoff res buffer o' rest
      | None => None
      end
  end.

(** Calls that create or destroy a shared buffer or one of its halves. *)
Definition is_allocation (e : Event) : bool :=
  match e with
  | GlGenBuffers _ | GlBindBuffer _ | GlBufferData _ _ | CudaRegister _ _ _ => true
  | _ => false
  end.

Definition is_release (e : Event) : bool :=
  match e with
  | GlDeleteBuffers _ | CudaUnregister _ _ => true
  | _ => false
  end.

(** ** States of the window *)

(** A shared buffer: a live registration of a live buffer object. *)
Definition shared_buffer (w : World) (res buffer : Z) (mapped : bool) : Prop :=
  cu_resources w !! res = Some (mkReg buffer mapped) /\ is_Some (gl_buffers w !! buffer).

(** The names in use lie below the counters, the counters fit their C types,
    and the names waiting to be handed out again are not in use. *)
Definition names_ok (w : World) : Prop :=
  0 < gl_next w < UINT_MOD /\ 0 < cu_next w /\
  0 <= gl_unpack w < gl_next w /\
  map_Forall (fun n _ => 0 < n < gl_next w) (gl_buffers w) /\
  map_Forall (fun h _ => 0 < h < cu_next w) (cu_resources w) /\
  Forall (fun n => 0 < n < gl_next w /\ gl_buffers w !! n = None) (gl_free w) /\
  Forall (fun h => 0 < h < cu_next w /\ cu_resources w !! h = None) (cu_free w) /\
  NoDup (gl_free w) /\ NoDup (cu_free w).

#[global] Instance names_ok_dec (w : World) : Decision (names_ok w).
Proof. unfold names_ok. apply _. Defined.

(** The state a constructor leaves: no shared buffer, nothing bound. *)
Definition Uninitialized (this : DeviceWindow) (w : World) : Prop :=
  this = mkWindow 0 NULL 0 0 /\ gl_unpack w = 0 /\ names_ok w.

(** The state after a draw of [width] by [height] that got its buffer: the
    window owns a shared buffer, available to the graphics runtime and bound
    as the pixel-unpack source. *)
Definition Bound (width height : Z) (this : DeviceWindow) (w : World) : Prop :=
  Nx_ this = width /\ Ny_ this = height /\
  shared_buffer w (resource this) (bufferID this) false /\
  gl_unpack w = bufferID this /\
  names_ok w.

(** ** Lemmas on the transform *)

Section Transform.

Context {T : Type} (map : T -> Color).

Lemma fill_below (xs : list T) : forall i fl p,
  p < 3 * i -> fill map xs i fl !! p = fl !! p.
Proof.
  induction xs as [|v rest IH]; intros i fl p Hp; simpl; [reflexivity|].
  rewrite IH by lia.
  rewrite !lookup_insert_ne by lia. reflexivity.
Qed.

Lemma fill_lookup (xs : list T) : forall i fl (j : nat) v,
  xs !! j = Some v ->
  fill map xs i fl !! (3 * (i + Z.of_nat j)) = Some (red (map v)) /\
  fill map xs i fl !! (3 * (i + Z.of_nat j) + 1) = Some (green (map v)) /\
  fill map xs i fl !! (3 * (i + Z.of_nat j) + 2) = Some (blue (map v)).
Proof.
  induction xs as [|u rest IH]; intros i fl j v Hj; [discriminate|].
  destruct j as [|j]; cbn [fill].
  - injection Hj as ->.
    change (Z.of_nat 0) with 0. rewrite Z.add_0_r.
    split; [|split]; rewrite fill_below by lia;
      rewrite ?lookup_insert_ne by lia; apply lookup_insert_eq.
  - replace (i + Z.of_nat (S j)) with ((i + 1) + Z.of_nat j) by lia.
    apply IH. exact Hj.
Qed.

Lemma color_at_fill (xs : list T) (bytes : Z) (fl : gmap Z spec_float) (j : nat) (v : T) :
  xs !! j = Some v ->
  color_at (mkStore bytes (fill map xs 0 fl)) (Z.of_nat j) = Some (map v).
Proof.
  intros Hj. unfold color_at; simpl.
  destruct (fill_lookup xs 0 fl j v Hj) as (Hr & Hg & Hb).
  rewrite Z.add_0_l in Hr, Hg, Hb. rewrite Hr, Hg, Hb.
  destruct (map v); reflexivity.
Qed.

Lemma writes_length (xs : list T) : forall i b, length (writes map xs i b) = length xs.
Proof. induction xs; intros; simpl; auto. Qed.

(** The world after the colors of [xs] went into the store [ds] of [b]. *)
Definition filled (xs : list T) (i b : Z) (ds : DataStore) (w : World) : World :=
  logs (writes map xs i b)
    (set_gl_buffers (<[b := mkStore (ds_bytes ds) (fill map xs i (ds_floats ds))]> (gl_buffers w)) w).

Lemma transform_from_fits (xs : list T) : forall i b ds w,
  gl_buffers w !! b = Some ds ->
  0 <= i ->
  sizeof_Color * (i + size_of xs) <= ds_bytes ds ->
  transform_from map xs i b w = Done tt (filled xs i b ds w).
Proof.
  induction xs as [|v rest IH]; intros i b ds w Hb Hi Hfit.
- simpl. unfold ret, filled, logs, set_gl_buffers. simpl. f_equal.
  destruct w, ds; simpl in *. rewrite insert_id by assumption.
  rewrite app_nil_r. reflexivity.
  - unfold size_of in *. simpl length in Hfit. rewrite Nat2Z.inj_succ in Hfit.
    cbn [transform_from]. unfold bind at 1. unfold store_color. rewrite Hb.
    unfold sizeof_Color, sizeof_float in *.
    destruct (Z.leb_spec (3 * 4 * (i + 1)) (ds_bytes ds)) as [_|Hlt]; [|lia].
    erewrite IH; cycle 1.
    + simpl. apply lookup_insert_eq.
    + lia.
    + simpl. lia.
  + unfold filled, logs, set_gl_buffers, log; simpl. f_equal.
    rewrite insert_insert_eq. rewrite <- app_assoc. reflexivity.
Qed.

(** A transform that returns had room for every element. *)
Lemma transform_from_done (xs : list T) : forall i b w w',
  0 <= i -> xs <> [] ->
  transform_from map xs i b w = Done tt w' ->
  exists ds, gl_buffers w !! b = Some ds /\
             sizeof_Color * (i + size_of xs) <= ds_bytes ds.
Proof.
  induction xs as [|v rest IH]; intros i b w w' Hi Hne Hrun; [congruence|].
  cbn [transform_from] in Hrun. unfold bind at 1 in Hrun. unfold store_color in Hrun.
  destruct (gl_buffers w !! b) as [ds|] eqn:Hb; [|discriminate].
  exists ds. split; [reflexivity|].
  destruct (Z.leb_spec (sizeof_Color * (i + 1)) (ds_bytes ds)) as [Hle|Hlt]; [|discriminate].
  destruct rest as [|u rest'].
  - unfold size_of; simpl. lia.
  - apply IH in Hrun; [|lia|discriminate].
    destruct Hrun as (ds' & Hb' & Hfit). simpl in Hb'.
    rewrite lookup_insert_eq in Hb'. injection Hb' as <-. simpl in Hfit.
    unfold size_of in *. simpl length in *. lia.
Qed.

Lemma transform_from_never_aborts (xs : list T) : forall i b w w',
  transform_from map xs i b w <> Aborted w'.
Proof.
  induction xs as [|v rest IH]; intros i b w w'; [discriminate|].
  cbn [transform_from]. unfold bind at 1, store_color.
  destruct (gl_buffers w !! b); [|discriminate].
  destruct (_ <=? _); [apply IH | discriminate].
Qed.

End Transform.

(** ** A small program logic: relations between the worlds of a call *)

Definition steps {A} (R : World -> World -> Prop) (m : Op A) : Prop :=
  forall w w', final_world (m w) = Some w' -> R w w'.

Lemma steps_ret {A} (R : World -> World -> Prop) (a : A) :
  (forall w, R w w) -> steps R (ret a).
Proof. intros Hrefl w w' H. injection H as <-. apply Hrefl. Qed.

Lemma steps_bind {A B} (R : World -> World -> Prop) (m : Op A) (k : A -> Op B) :
  (forall w1 w2 w3, R w1 w2 -> R w2 w3 -> R w1 w3) ->
  steps R m -> (forall a, steps R (k a)) -> steps R (bind m k).
Proof.
  intros Htrans Hm Hk w w' H. unfold bind in H.
  destruct (m w) as [a w1|w1|] eqn:Hmw.
  - eapply Htrans; [apply Hm; rewrite Hmw; reflexivity | eapply Hk; exact H].
  - injection H as <-. apply Hm. rewrite Hmw. reflexivity.
  - discriminate.
Qed.

(** A call that creates and destroys nothing: it only appends calls that are
    neither allocations nor releases, and leaves names, bindings and the sets
    of live objects alone. *)
Definition no_realloc_event (e : Event) : Prop :=
  is_allocation e = false /\ is_release e = false.

Record quiet (w w' : World) : Prop := mkQuiet {
  quiet_trace : exists evs, trace w' = trace w ++ evs /\ Forall no_realloc_event evs;
  quiet_gl_next : gl_next w' = gl_next w;
  quiet_gl_free : gl_free w' = gl_free w;
  quiet_gl_recycles : gl_recycles w' = gl_recycles w;
  quiet_cu_next : cu_next w' = cu_next w;
  quiet_cu_free : cu_free w' = cu_free w;
  quiet_cu_recycles : cu_recycles w' = cu_recycles w;
  quiet_unpack : gl_unpack w' = gl_unpack w;
  quiet_faults : cu_faults w' = cu_faults w;
  quiet_fits : gl_store_fits w' = gl_store_fits w;
  quiet_buffers : forall n, ds_bytes <$> gl_buffers w' !! n = ds_bytes <$> gl_buffers w !! n;
  quiet_resources : forall h, reg_buffer <$> cu_resources w' !! h = reg_buffer <$> cu_resources w !! h
}.

Lemma quiet_refl w : quiet w w.
Proof. split; try reflexivity. exists []. rewrite app_nil_r. auto. Qed.

Lemma quiet_trans w1 w2 w3 : quiet w1 w2 -> quiet w2 w3 -> quiet w1 w3.
Proof.
  intros [[e1 [T1 F1]] ? ? ? ? ? ? ? ? ? Hb1 Hr1] [[e2 [T2 F2]] ? ? ? ? ? ? ? ? ? Hb2 Hr2].
  split; [ | congruence | congruence | congruence | congruence | congruence
           | congruence | congruence | congruence | congruence | | ].
  - exists (e1 ++ e2). split.
    + rewrite T2, T1, app_assoc. reflexivity.
    + apply Forall_app; auto.
  - intros n. rewrite Hb2. apply Hb1.
  - intros h. rewrite Hr2. apply Hr1.
Qed.

Lemma quiet_log e w : no_realloc_event e -> quiet w (log e w).
Proof. intros He. split; try reflexivity. exists [e]. split; auto. Qed.

Lemma steps_emit e : no_realloc_event e -> steps quiet (emit e).
Proof. intros He w w' H. injection H as <-. apply quiet_log, He. Qed.

Ltac quiet_event := split; reflexivity.

Lemma remap_keeps_buffer (m : gmap Z Registration) r reg b h :
  m !! r = Some reg ->
  reg_buffer <$> <[r := mkReg (reg_buffer reg) b]> m !! h = reg_buffer <$> m !! h.
Proof.
  intros Hr. destruct (decide (r = h)) as [->|Hne].
  - rewrite lookup_insert_eq, Hr. reflexivity.
  - rewrite lookup_insert_ne by exact Hne. reflexivity.
Qed.

Lemma cudaGraphicsMapResources_quiet r : steps quiet (cudaGraphicsMapResources r).
Proof.
  intros w w' H. unfold cudaGraphicsMapResources in H.
  destruct (cu_resources w !! r) as [reg|] eqn:Hr.
  - destruct (gl_buffers w !! reg_buffer reg) as [ds|] eqn:Hb, (reg_mapped reg);
      injection H as <-; try (apply quiet_log; quiet_event).
    split; simpl; try reflexivity.
    + exists [CudaMap r cudaSuccess]. split; [reflexivity|].
      repeat constructor.
    + intros n. destruct (decide (reg_buffer reg = n)) as [<-|Hne].
      * rewrite lookup_insert_eq, Hb. reflexivity.
      * rewrite lookup_insert_ne by exact Hne. reflexivity.
    + intros h. apply remap_keeps_buffer, Hr.
  - injection H as <-. apply quiet_log. quiet_event.
Qed.

Lemma cudaGraphicsUnmapResources_quiet r : steps quiet (cudaGraphicsUnmapResources r).
Proof.
  intros w w' H. unfold cudaGraphicsUnmapResources in H.
  destruct (cu_resources w !! r) as [reg|] eqn:Hr.
  - destruct (reg_mapped reg); injection H as <-; try (apply quiet_log; quiet_event).
    split; simpl; try reflexivity.
    + exists [CudaUnmap r cudaSuccess]. split; [reflexivity|].
      repeat constructor.
    + intros h. apply remap_keeps_buffer, Hr.
  - injection H as <-. apply quiet_log. quiet_event.
Qed.

Lemma cudaGraphicsResourceGetMappedPointer_quiet r :
  steps quiet (cudaGraphicsResourceGetMappedPointer r).
Proof.
  intros w w' H. unfold cudaGraphicsResourceGetMappedPointer in H.
  destruct (cu_resources w !! r) as [reg|].
  - destruct (gl_buffers w !! reg_buffer reg), (reg_mapped reg);
      injection H as <-; apply quiet_refl.
  - injection H as <-. apply quiet_refl.
Qed.

Lemma assert_quiet c : steps quiet (assert c).
Proof.
  intros w w' H. unfold assert in H.
  destruct c as [[|]|]; simpl in H; try discriminate; injection H as <-; apply quiet_refl.
Qed.

Lemma store_color_quiet b i c : steps quiet (store_color b i c).
Proof.
  intros w w' H. unfold store_color in H.
  destruct (gl_buffers w !! b) as [ds|] eqn:Hb; [|discriminate].
  destruct (_ <=? _); [|discriminate].
  injection H as <-. split; simpl; try reflexivity.
  - exists [DeviceWrite b i c]. split; [reflexivity|]. repeat constructor.
  - intros n. destruct (decide (b = n)) as [->|Hne].
    + rewrite lookup_insert_eq, Hb. reflexivity.
    + rewrite lookup_insert_ne by exact Hne. reflexivity.
Qed.

Lemma transform_from_quiet {T} (map : T -> Color) (xs : list T) :
  forall i b, steps quiet (transform_from map xs i b).
Proof.
  induction xs as [|v rest IH]; intros i b; cbn [transform_from].
  - apply steps_ret, quiet_refl.
  - apply steps_bind; [apply quiet_trans | apply store_color_quiet | intros _; apply IH].
Qed.

Lemma thrust_transform_quiet {T} (map : T -> Color) (x : list T) p :
  steps quiet (thrust_transform map x p).
Proof.
  destruct x as [|v rest]; [apply steps_ret, quiet_refl|].
  destruct p as [b|]; [apply transform_from_quiet|].
  intros w w' H. discriminate.
Qed.

Ltac quiet_bind := apply steps_bind; [apply quiet_trans | | intros ?].

Lemma mapColors_quiet {T} dbg (map : T -> Color) (x : list T) r :
  steps quiet (mapColors dbg map x r).
Proof.
  unfold mapColors.
  quiet_bind; [apply cudaGraphicsMapResources_quiet|].
  quiet_bind; [apply cudaGraphicsResourceGetMappedPointer_quiet|].
  quiet_bind; [destruct dbg; [apply assert_quiet | apply steps_ret, quiet_refl]|].
  quiet_bind; [apply thrust_transform_quiet|].
  quiet_bind; [apply steps_emit; quiet_event|].
  quiet_bind; [apply cudaGraphicsUnmapResources_quiet|].
  apply steps_ret, quiet_refl.
Qed.

Lemma draw_present_quiet Nx Ny : steps quiet (draw_present Nx Ny).
Proof.
  unfold draw_present.
  quiet_bind.
  { intros w w' H. injection H as <-. apply quiet_log. quiet_event. }
  quiet_bind; [apply steps_emit; quiet_event|].
  quiet_bind; [apply steps_emit; quiet_event|].
  apply steps_emit; quiet_event.
Qed.

(** ** The transform stage on a registered buffer *)

Section MapColors.

Context {T : Type} (map : T -> Color).

(** The world right after the map request for [r], registered for [b],
    whose store is [ds]. *)
Definition after_map (r b : Z) (mapped : bool) (ds : DataStore) (w : World) : World :=
  if mapped
  then log (CudaMap r cudaErrorUnknown) w
  else log (CudaMap r cudaSuccess)
         (set_mapped r (mkReg b false) true
            (set_gl_buffers (<[b := mkStore (ds_bytes ds) ∅]> (gl_buffers w)) w)).

(** The contents the transform writes into: what the store held when the
    buffer was mapped already, nothing after a fresh map. *)
Definition mapped_floats (mapped : bool) (ds : DataStore) : gmap Z spec_float :=
  if mapped then ds_floats ds else ∅.

(** The world after a complete transform stage. *)
Definition colored (x : list T) (r b : Z) (mapped : bool) (ds : DataStore) (w : World) : World :=
  logs (CudaMap r (if mapped then cudaErrorUnknown else cudaSuccess)
          :: writes map x 0 b
          ++ [CudaThreadSynchronize; CudaUnmap r cudaSuccess])
    (set_cu_resources (<[r := mkReg b false]> (cu_resources w))
       (set_gl_buffers
          (<[b := mkStore (ds_bytes ds) (fill map x 0 (mapped_floats mapped ds))]> (gl_buffers w))
          w)).

Definition has_room (x : list T) (ds : DataStore) : bool :=
  match x with
  | [] => true
  | _ :: _ => sizeof_Color * size_of x <=? ds_bytes ds
  end.

Definition size_matches (x : list T) (ds : DataStore) : bool :=
  size_of x =? ds_bytes ds / 3 / sizeof_float.

Lemma after_map_lookup r b m w ds :
  cu_resources w !! r = Some (mkReg b m) ->
  gl_buffers w !! b = Some ds ->
  cu_resources (after_map r b m ds w) !! r = Some (mkReg b true) /\
  gl_buffers (after_map r b m ds w) !! b = Some (mkStore (ds_bytes ds) (mapped_floats m ds)).
Proof.
  intros Hr Hb. unfold after_map, mapped_floats. destruct m; simpl.
  - split; [exact Hr|]. rewrite Hb. destruct ds; reflexivity.
  - split; apply lookup_insert_eq.
Qed.

Lemma cudaGraphicsMapResources_registered r b m w ds :
  cu_resources w !! r = Some (mkReg b m) ->
  gl_buffers w !! b = Some ds ->
  exists e, cudaGraphicsMapResources r w = Done e (after_map r b m ds w).
Proof.
  intros Hr Hb. unfold cudaGraphicsMapResources, after_map.
  rewrite Hr. simpl. rewrite Hb. destruct m; eauto.
Qed.

(** Every run of the transform stage on a registered, live buffer. *)
Lemma mapColors_registered dbg (x : list T) r b m w ds :
  cu_resources w !! r = Some (mkReg b m) ->
  gl_buffers w !! b = Some ds ->
  mapColors dbg map x r w =
    if dbg && negb (size_matches x ds) then Aborted (after_map r b m ds w)
    else if has_room x ds then Done tt (colored x r b m ds w)
    else Undefined.
Proof.
  intros Hr Hb.
  destruct (cudaGraphicsMapResources_registered r b m w ds Hr Hb) as [e Hmap].
  destruct (after_map_lookup r b m w ds Hr Hb) as [Hr1 Hb1].
  unfold mapColors. unfold bind at 1. rewrite Hmap.
  unfold bind at 1. unfold cudaGraphicsResourceGetMappedPointer.
  rewrite Hr1. cbn [reg_buffer reg_mapped]. rewrite Hb1. cbn [fst snd ds_bytes].
  assert (Hrest :
    (thrust_transform map x (Some b) ;; cudaThreadSynchronize ;;
     cudaGraphicsUnmapResources r ;; ret tt) (after_map r b m ds w)
    = if has_room x ds then Done tt (colored x r b m ds w) else Undefined).
  { unfold bind at 1.
    destruct x as [|v rest].
    - cbn [thrust_transform has_room]. unfold ret at 1.
      unfold bind at 1. unfold cudaThreadSynchronize, emit.
      unfold bind at 1. unfold cudaGraphicsUnmapResources.
      cbn [log cu_resources]. rewrite Hr1. cbn [reg_mapped reg_buffer].
      unfold ret, colored. f_equal.
      destruct ds; destruct m; unfold after_map, set_mapped, mapped_floats; world_ext;
        cbn [ds_bytes ds_floats fill writes app];
        rewrite ?insert_insert_eq, <- ?app_assoc, ?(insert_id _ _ _ Hb); reflexivity.
    - cbn [thrust_transform has_room].
      destruct (Z.leb_spec (sizeof_Color * size_of (v :: rest)) (ds_bytes ds)) as [Hfit|Hno].
      + erewrite transform_from_fits; [| exact Hb1 | lia | cbn [ds_bytes]; lia ].
        unfold bind at 1. unfold cudaThreadSynchronize, emit.
        unfold bind at 1. unfold cudaGraphicsUnmapResources.
        cbn [log logs filled set_gl_buffers cu_resources]. rewrite Hr1.
        cbn [reg_mapped reg_buffer].
        unfold ret, colored. f_equal.
        destruct m; unfold after_map, filled, set_mapped, mapped_floats; world_ext;
          cbn [ds_bytes ds_floats];
          rewrite ?insert_insert_eq, <- ?app_assoc; reflexivity.
      + destruct (transform_from map (v :: rest) 0 b (after_map r b m ds w))
          as [[] w2|w2|] eqn:Hrun.
        * apply transform_from_done in Hrun; [|lia|discriminate].
          destruct Hrun as (ds' & Hb' & Hfit). rewrite Hb1 in Hb'.
          injection Hb' as <-. cbn [ds_bytes] in Hfit. lia.
        * exfalso. eapply transform_from_never_aborts. exact Hrun.
        * reflexivity. }
  destruct dbg; cbn [andb].
  - unfold bind at 1. unfold assert. cbn [option_map].
    fold (size_matches x ds). destruct (size_matches x ds); cbn [negb]; [exact Hrest|reflexivity].
  - unfold bind at 1. unfold ret at 1. exact Hrest.
Qed.

(** The transform stage returns on an available buffer with room for the
    field (and, in a debug build, of the size the assertion expects). *)
Lemma mapColors_returns dbg (x : list T) r b w ds :
  cu_resources w !! r = Some (mkReg b false) ->
  gl_buffers w !! b = Some ds ->
  has_room x ds = true ->
  (dbg = true -> size_matches x ds = true) ->
  mapColors dbg map x r w = Done tt (colored x r b false ds w).
Proof.
  intros Hr Hb Hroom Hsize.
  rewrite (mapColors_registered dbg x r b false w ds Hr Hb), Hroom.
  destruct dbg; [rewrite Hsize by reflexivity|]; reflexivity.
Qed.

End MapColors.

(** ** Concrete runs *)

(** A colormap with known output, a runtime that grants every request, and the
    window opened there. *)
Definition tint (v : Z) : Color := mkColor (S754_finite false (Z.to_pos v) 0) f_zero f_one.

Definition granting : Z -> bool := fun _ => true.
Definition refusing : Z -> bool := fun _ => false.

Definition world_of {A} (o : Outcome A) : World :=
  match o with
  | Done _ w => w
  | Aborted w => w
  | Undefined => power_on granting []
  end.

Definition window_of (o : Outcome DeviceWindow) : DeviceWindow :=
  match o with
  | Done this _ => this
  | _ => mkWindow 0 NULL 0 0
  end.

Definition opened (fits : Z -> bool) (faults : list cudaError_t) : Outcome DeviceWindow :=
  DeviceWindow_new 800 600 (power_on fits faults).

(** One release-build frame of a 1 by 1 field. *)
Definition first_frame : Outcome DeviceWindow :=
  draw false [5] 1 1 tint (window_of (opened granting [])) (world_of (opened granting [])).

(** The calls of the first frame, from the construction of the window on. *)
Example first_frame_calls :
  first_frame = Done (mkWindow 1 1 1 1) (world_of first_frame) /\
  trace (world_of first_frame)
  = [CudaGlfwInit 800 600; GlClear; GlfwSetWindowSizeCallback;
     CudaUnregister 0 cudaErrorInvalidResourceHandle;
     Print ("Allocate resources for drawing!" ++ newline);
     GlDeleteBuffers 0;
     GlGenBuffers 1; GlBindBuffer 1; GlBufferData 12 true;
     CudaRegister 1 cudaSuccess 1;
     CudaMap 1 cudaSuccess; DeviceWrite 1 0 (tint 5); CudaThreadSynchronize;
     CudaUnmap 1 cudaSuccess;
     GlTexImage2D 1 1 1; GlLoadIdentity; GlQuads quad_vertices; GlfwSwapBuffers].
Proof. split; vm_compute; reflexivity. Qed.

(** Destroying the window after its first frame releases both halves of the
    buffer. *)
Example teardown_after_first_frame :
  exists w',
    DeviceWindow_delete (window_of first_frame) (world_of first_frame) = Done tt w' /\
    gl_buffers w' = ∅ /\ cu_resources w' = ∅ /\
    trace w' = trace (world_of first_frame)
                 ++ [CudaUnregister 1 cudaSuccess; GlDeleteBuffers 1; GlfwTerminate].
Proof.
  eexists. split; [vm_compute; reflexivity|].
  split; [vm_compute; reflexivity|]. split; vm_compute; reflexivity.
Qed.

(** A field larger than the buffer: undefined in a release build, stopped by
    the assertion in a debug build. *)
Example oversized_field :
  draw false [5; 6] 1 1 tint (window_of (opened granting [])) (world_of (opened granting []))
  = Undefined /\
  exists w',
    draw true [5; 6] 1 1 tint (window_of (opened granting [])) (world_of (opened granting []))
    = Aborted w'.
Proof. split; [vm_compute; reflexivity | eexists; vm_compute; reflexivity]. Qed.

(** ** The transform stage *)

(** C1.  Whenever [mapColors] returns for a field [x] and a colormap [map] on
    a registered, live buffer, reading that buffer back gives [map v] at
    interleaved position [i] for every element [v] at index [i] of [x], and
    the registration is unmapped again. *)
Theorem mapColors_round_trip {T} (DG_DEBUG : bool) (map : T -> Color) (x : list T)
    (res : Z) (reg : Registration) (ds : DataStore) (w w' : World) :
  cu_resources w !! res = Some reg ->
  gl_buffers w !! reg_buffer reg = Some ds ->
  mapColors DG_DEBUG map x res w = Done tt w' ->
  (exists ds', gl_buffers w' !! reg_buffer reg = Some ds' /\
               forall (i : nat) (v : T), x !! i = Some v ->
                 color_at ds' (Z.of_nat i) = Some (map v)) /\
  cu_resources w' !! res = Some (mkReg (reg_buffer reg) false).
Proof.
  intros Hr Hb Hrun. destruct reg as [b m]. cbn [reg_buffer] in *.
  rewrite (mapColors_registered map DG_DEBUG x res b m w ds Hr Hb) in Hrun.
  destruct (DG_DEBUG && negb (size_matches x ds)); [discriminate|].
  destruct (has_room x ds); [|discriminate].
  injection Hrun as <-.
  unfold colored, logs, set_cu_resources, set_gl_buffers; cbn [gl_buffers cu_resources]. split.
  - eexists. split; [apply lookup_insert_eq|].
    intros i v Hi. apply color_at_fill. exact Hi.
  - apply lookup_insert_eq.
Qed.

Lemma mapColors_round_trip_witness :
  (exists ds', gl_buffers (world_of (mapColors true tint [5; 7] 1 (world_of (allocateCudaGlBuffer 6 (power_on granting [])))))
                 !! 1 = Some ds' /\
               forall (i : nat) (v : Z), [5; 7] !! i = Some v ->
                 color_at ds' (Z.of_nat i) = Some (tint v)) /\
  cu_resources (world_of (mapColors true tint [5; 7] 1 (world_of (allocateCudaGlBuffer 6 (power_on granting [])))))
    !! 1 = Some (mkReg 1 false).
Proof.
  apply (mapColors_round_trip true tint [5; 7] 1 (mkReg 1 false) (mkStore 24 ∅)
           (world_of (allocateCudaGlBuffer 6 (power_on granting [])))).
  - vm_compute. reflexivity.
  - vm_compute. reflexivity.
  - vm_compute. reflexivity.
Defined.

(** ** Allocation and release, step by step *)

(** The next registration request will be granted. *)
Definition registration_granted (w : World) : bool :=
  is_cudaSuccess (hd cudaSuccess (cu_faults w)).

(** The store the new buffer object ends up with. *)
Definition new_store (bytes : Z) (w : World) : DataStore :=
  if gl_store_fits w bytes then mkStore bytes ∅ else empty_store.

(** The handle [allocateCudaGlBuffer] hands back. *)
Definition new_resource (w : World) : Z :=
  if registration_granted w then next_handle w else NULL.

(** The world after [allocateGlBuffer N]. *)
Definition buffer_created (N : Z) (w : World) : World :=
  let n := next_buffer_name w in
  let bytes := size_mul N sizeof_float in
  logs [GlGenBuffers n; GlBindBuffer n; GlBufferData bytes (gl_store_fits w bytes)]
    (set_gl_buffers (<[n := new_store bytes w]> (gl_buffers w))
       (set_gl_unpack n
          (set_gl_names (match gl_free w with [] => gl_next w + 1 | _ :: _ => gl_next w end)
             (tl (gl_free w)) w))).

(** The world after the registration request for buffer [n]. *)
Definition registration_answered (n : Z) (w : World) : World :=
  let answer := hd cudaSuccess (cu_faults w) in
  if registration_granted w
  then logs [CudaRegister n answer (next_handle w)]
         (set_cu_names (match cu_free w with [] => cu_next w + 1 | _ :: _ => cu_next w end)
            (tl (cu_free w))
            (set_cu_resources (<[next_handle w := mkReg n false]> (cu_resources w))
               (set_cu_faults (tl (cu_faults w)) w)))
  else logs [CudaRegister n answer NULL; Print (cudaGetErrorString answer)]
         (set_cu_faults (tl (cu_faults w)) w).

(** The world [allocateCudaGlBuffer N] leaves. *)
Definition allocated (N : Z) (w : World) : World :=
  registration_answered (next_buffer_name w) (buffer_created N w).

(** The world after the release sequence of [draw]: unregister [r], announce
    the allocation, delete the buffer bound as pixel-unpack source. *)
Definition released (r : Z) (w : World) : World :=
  let old := gl_unpack w in
  logs [CudaUnregister r (match cu_resources w !! r with
                          | Some _ => cudaSuccess
                          | None => cudaErrorInvalidResourceHandle
                          end);
        Print ("Allocate resources for drawing!" ++ newline);
        GlDeleteBuffers old]
    (set_gl_names (gl_next w)
       (match gl_buffers w !! old with
        | Some _ => if gl_recycles w then old :: gl_free w else gl_free w
        | None => gl_free w
        end)
       (set_gl_unpack (match gl_buffers w !! old with Some _ => 0 | None => old end)
          (set_gl_buffers (delete old (gl_buffers w))
             (set_cu_names (cu_next w)
                (match cu_resources w !! r with
                 | Some _ => if cu_recycles w then r :: cu_free w else cu_free w
                 | None => cu_free w
                 end)
                (set_cu_resources (delete r (cu_resources w)) w))))).

Definition dimensions_change (Nx Ny : Z) (this : DeviceWindow) : bool :=
  negb (Nx =? Nx_ this) || negb (Ny =? Ny_ this).

(** The buffers and the registrations after a reallocation. *)
Lemma allocated_buffers (N : Z) (w : World) :
  gl_buffers (allocated N w)
  = <[next_buffer_name w := new_store (size_mul N sizeof_float) w]> (gl_buffers w).
Proof.
  unfold allocated, registration_answered, buffer_created.
  destruct (registration_granted _); reflexivity.
Qed.

Lemma allocated_resources (N : Z) (w : World) :
  cu_resources (allocated N w)
  = if registration_granted w
    then <[next_handle w := mkReg (next_buffer_name w) false]> (cu_resources w)
    else cu_resources w.
Proof.
  unfold allocated, registration_answered.
  change (registration_granted (buffer_created N w)) with (registration_granted w).
  destruct (registration_granted w); reflexivity.
Qed.

Lemma GLuint_round_trip (u : Z) : 0 <= u < UINT_MOD -> GLuint_of_GLint (GLint_of_GLuint u) = u.
Proof.
  unfold GLuint_of_GLint, GLint_of_GLuint, UINT_MOD. intros Hu.
  destruct (Z.ltb_spec u (2 ^ 31)).
  - apply Z.mod_small. lia.
  - replace (u - 2 ^ 32) with (u + (-1) * 2 ^ 32) by lia.
    rewrite Z.mod_add by lia. apply Z.mod_small. lia.
Qed.

Lemma allocateGlBuffer_runs (N : Z) (w : World) :
  gl_buffers w !! next_buffer_name w = None ->
  next_buffer_name w <> 0 ->
  allocateGlBuffer N w = Done (next_buffer_name w) (buffer_created N w).
Proof.
  intros Hfresh Hnz.
  unfold allocateGlBuffer, buffer_created, new_store, next_buffer_name in *.
  unfold bind, glGenBuffers, glBindBuffer, glBufferData, ret.
  destruct (gl_free w) as [|n rest] eqn:Hfree; cbn [hd tl] in *; world_simpl;
    rewrite Hfresh;
match goal with
    | |- context [?a =? 0] => destruct (Z.eqb_spec a 0) as [|_]; [contradiction|]
    end;
    world_simpl; rewrite lookup_insert_eq;
    destruct (gl_store_fits w (size_mul N sizeof_float));
    f_equal; world_ext;
    rewrite ?insert_insert_eq, <- ?app_assoc; reflexivity.
Qed.

Lemma cudaGraphicsGLRegisterBuffer_runs (n : Z) (flags : cudaGraphicsRegisterFlags) (w : World) :
  is_Some (gl_buffers w !! n) ->
  exists reply,
    cudaGraphicsGLRegisterBuffer n flags w = Done reply (
      if registration_granted w
      then logs [CudaRegister n (hd cudaSuccess (cu_faults w)) (next_handle w)]
             (set_cu_names (match cu_free w with [] => cu_next w + 1 | _ :: _ => cu_next w end)
                (tl (cu_free w))
                (set_cu_resources (<[next_handle w := mkReg n false]> (cu_resources w))
                   (set_cu_faults (tl (cu_faults w)) w)))
      else logs [CudaRegister n (hd cudaSuccess (cu_faults w)) NULL]
             (set_cu_faults (tl (cu_faults w)) w)) /\
    fst reply = hd cudaSuccess (cu_faults w) /\
    (registration_granted w = true -> snd reply = Some (next_handle w)).
Proof.
  intros [ds Hb]. unfold cudaGraphicsGLRegisterBuffer, registration_granted. rewrite Hb.
  destruct (hd cudaSuccess (cu_faults w)) eqn:Hans; cbn [is_cudaSuccess];
    eexists; (split; [f_equal; world_ext | split; [reflexivity | try discriminate; auto]]).
Qed.

Lemma allocateCudaGlBuffer_runs (N : Z) (w : World) :
  gl_buffers w !! next_buffer_name w = None ->
  next_buffer_name w <> 0 ->
  allocateCudaGlBuffer N w = Done (new_resource w) (allocated N w).
Proof.
  intros Hfresh Hnz.
  unfold allocateCudaGlBuffer. unfold bind at 1.
  rewrite (allocateGlBuffer_runs N w Hfresh Hnz).
  destruct (cudaGraphicsGLRegisterBuffer_runs (next_buffer_name w)
              cudaGraphicsRegisterFlagsWriteDiscard (buffer_created N w))
    as (reply & Hreg & Hfst & Hsnd).
  { unfold buffer_created. world_simpl. rewrite lookup_insert_eq. eauto. }
  unfold bind at 1. rewrite Hreg. rewrite Hfst.
  unfold allocated, registration_answered, new_resource.
  assert (Hg : registration_granted (buffer_created N w) = registration_granted w) by reflexivity.
  assert (Hh : next_handle (buffer_created N w) = next_handle w) by reflexivity.
  rewrite Hg in *. rewrite Hh in *.
  unfold registration_granted in *.
  change (cu_faults (buffer_created N w)) with (cu_faults w) in *.
  destruct (is_cudaSuccess (hd cudaSuccess (cu_faults w))) eqn:Hok; cbn [negb].
  - rewrite (Hsnd eq_refl). reflexivity.
  - unfold bind, cout, emit, ret. f_equal. world_ext.
    rewrite <- app_assoc. reflexivity.
Qed.

Lemma draw_resize_keeps (Nx Ny : Z) (this : DeviceWindow) (w : World) :
  dimensions_change Nx Ny this = false ->
  draw_resize Nx Ny this w = Done this w.
Proof.
  intros Hsame. unfold draw_resize. fold (dimensions_change Nx Ny this).
  rewrite Hsame. reflexivity.
Qed.

Lemma release_runs (r : Z) (w : World) (k : Op DeviceWindow) :
  0 <= gl_unpack w < UINT_MOD ->
  (cudaGraphicsUnregisterResource r ;;
   cout ("Allocate resources for drawing!" ++ newline) ;;
   do id <- glGetIntegerv_unpack_binding;
   glDeleteBuffers (GLuint_of_GLint id) ;;
   k) w = k (released r w).
Proof.
  intros Hun.
  unfold bind, cudaGraphicsUnregisterResource, cout, emit,
    glGetIntegerv_unpack_binding, glDeleteBuffers, released.
  destruct (cu_resources w !! r) eqn:Hr; world_simpl;
    rewrite GLuint_round_trip by exact Hun;
    destruct (gl_buffers w !! gl_unpack w) eqn:Hb;
    f_equal; world_ext;
    rewrite ?Z.eqb_refl, <- ?app_assoc, ?(delete_id _ _ Hr), ?(delete_id _ _ Hb);
    reflexivity.
Qed.

(** The name handed out next is not in use, before and after a release. *)
Lemma next_buffer_name_fresh (w : World) :
  names_ok w ->
  gl_buffers w !! next_buffer_name w = None /\ 0 < next_buffer_name w < UINT_MOD.
Proof.
  intros (Hgl & _ & _ & Hbufs & _ & Hfree & _). unfold next_buffer_name.
  destruct (gl_free w) as [|n rest]; cbn [hd].
  - split; [|lia].
    destruct (gl_buffers w !! gl_next w) eqn:Hn; [|reflexivity].
    pose proof (Hbufs _ _ Hn) as Hb. simpl in Hb. lia.
  - apply Forall_cons in Hfree. destruct Hfree as [[Hn Hnone] _]. split; [exact Hnone | lia].
Qed.

Lemma next_handle_fresh (w : World) :
  names_ok w ->
  cu_resources w !! next_handle w = None /\ 0 < next_handle w.
Proof.
  intros (_ & Hcu & _ & _ & Hres & _ & Hfree & _). unfold next_handle.
  destruct (cu_free w) as [|h rest]; cbn [hd].
  - split; [|lia].
    destruct (cu_resources w !! cu_next w) eqn:Hn; [|reflexivity].
    pose proof (Hres _ _ Hn) as Hb. simpl in Hb. lia.
  - apply Forall_cons in Hfree. destruct Hfree as [[Hn Hnone] _]. split; [exact Hnone | lia].
Qed.

Lemma released_names_ok (r : Z) (w : World) : names_ok w -> names_ok (released r w).
Proof.
  intros (Hgl & Hcu & Hun & Hbufs & Hres & Hgfree & Hcfree & Hgdup & Hcdup).
  unfold names_ok, released. world_simpl.
  split; [exact Hgl|]. split; [exact Hcu|].
  split; [destruct (gl_buffers w !! gl_unpack w); lia|].
  split; [apply map_Forall_delete, Hbufs|].
  split; [apply map_Forall_delete, Hres|].
  assert (Hgnew : forall ds, gl_buffers w !! gl_unpack w = Some ds -> gl_unpack w ∉ gl_free w).
  { intros ds Hb Hin. rewrite Forall_forall in Hgfree. destruct (Hgfree _ Hin). congruence. }
  assert (Hcnew : forall reg, cu_resources w !! r = Some reg -> r ∉ cu_free w).
  { intros reg Hb Hin. rewrite Forall_forall in Hcfree. destruct (Hcfree _ Hin). congruence. }
  split; [|split; [|split]]; cycle 2.
  { destruct (gl_buffers w !! gl_unpack w) eqn:Hb; [|exact Hgdup].
    destruct (gl_recycles w); [|exact Hgdup].
    apply NoDup_cons. split; [eapply Hgnew; reflexivity | exact Hgdup]. }
  { destruct (cu_resources w !! r) eqn:Hb; [|exact Hcdup].
    destruct (cu_recycles w); [|exact Hcdup].
    apply NoDup_cons. split; [eapply Hcnew; reflexivity | exact Hcdup]. }
  - assert (Hkeep : Forall (fun n => 0 < n < gl_next w /\
                                     delete (gl_unpack w) (gl_buffers w) !! n = None) (gl_free w)).
    { eapply Forall_impl; [exact Hgfree|]. intros n [Hn Hnone]. split; [exact Hn|].
      apply lookup_delete_None. auto. }
    destruct (gl_buffers w !! gl_unpack w) eqn:Hb; [|exact Hkeep].
    destruct (gl_recycles w); [|exact Hkeep].
    apply Forall_cons. split; [|exact Hkeep].
    pose proof (Hbufs _ _ Hb) as Hr. simpl in Hr. split; [exact Hr | apply lookup_delete_eq].
  - assert (Hkeep : Forall (fun h => 0 < h < cu_next w /\
                                     delete r (cu_resources w) !! h = None) (cu_free w)).
    { eapply Forall_impl; [exact Hcfree|]. intros h [Hh Hnone]. split; [exact Hh|].
      apply lookup_delete_None. auto. }
    destruct (cu_resources w !! r) eqn:Hb; [|exact Hkeep].
    destruct (cu_recycles w); [|exact Hkeep].
    apply Forall_cons. split; [|exact Hkeep].
    pose proof (Hres _ _ Hb) as Hr. simpl in Hr. split; [exact Hr | apply lookup_delete_eq].
Qed.

Lemma allocated_names_ok (N : Z) (w : World) :
  names_ok w ->
  (gl_free w = [] -> gl_next w + 1 < UINT_MOD) ->
  names_ok (allocated N w).
Proof.
  intros Hok Hroom.
  destruct (next_buffer_name_fresh _ Hok) as [Hnfresh Hnrange].
  destruct (next_handle_fresh _ Hok) as [Hhfresh Hhpos].
  destruct Hok as (Hgl & Hcu & Hun & Hbufs & Hres & Hgfree & Hcfree & Hgdup & Hcdup).
  assert (Hgl' : gl_next w <= match gl_free w with [] => gl_next w + 1 | _ :: _ => gl_next w end)
    by (destruct (gl_free w); lia).
  assert (Hcu' : cu_next w <= match cu_free w with [] => cu_next w + 1 | _ :: _ => cu_next w end)
    by (destruct (cu_free w); lia).
  assert (Hn : next_buffer_name w < match gl_free w with [] => gl_next w + 1 | _ :: _ => gl_next w end).
  { unfold next_buffer_name. destruct (gl_free w) as [|n rest]; cbn [hd]; [lia|].
    apply Forall_cons in Hgfree. lia. }
  assert (Hh : next_handle w < match cu_free w with [] => cu_next w + 1 | _ :: _ => cu_next w end).
  { unfold next_handle. destruct (cu_free w) as [|h rest]; cbn [hd]; [lia|].
    apply Forall_cons in Hcfree. lia. }
  assert (Hgtl : Forall (fun n => 0 < n < gl_next w /\ gl_buffers w !! n = None /\
                                  n <> next_buffer_name w) (tl (gl_free w))).
  { unfold next_buffer_name. destruct (gl_free w) as [|n rest]; cbn [hd tl]; [constructor|].
    apply Forall_cons in Hgfree. destruct Hgfree as [_ Hrest].
    apply NoDup_cons in Hgdup. destruct Hgdup as [Hnin _].
    rewrite Forall_forall in Hrest. apply Forall_forall. intros m Hm.
    destruct (Hrest m Hm) as [Hm1 Hm2].
    split; [exact Hm1|]. split; [exact Hm2|]. intros ->. contradiction. }
  assert (Hctl : Forall (fun h => 0 < h < cu_next w /\ cu_resources w !! h = None /\
                                  h <> next_handle w) (tl (cu_free w))).
  { unfold next_handle. destruct (cu_free w) as [|h rest]; cbn [hd tl]; [constructor|].
    apply Forall_cons in Hcfree. destruct Hcfree as [_ Hrest].
    apply NoDup_cons in Hcdup. destruct Hcdup as [Hnin _].
    rewrite Forall_forall in Hrest. apply Forall_forall. intros m Hm.
    destruct (Hrest m Hm) as [Hm1 Hm2].
    split; [exact Hm1|]. split; [exact Hm2|]. intros ->. contradiction. }
  assert (Hgdup' : NoDup (tl (gl_free w)))
    by (destruct (gl_free w); [constructor | apply NoDup_cons in Hgdup; tauto]).
  assert (Hcdup' : NoDup (tl (cu_free w)))
    by (destruct (cu_free w); [constructor | apply NoDup_cons in Hcdup; tauto]).
  unfold names_ok. rewrite allocated_buffers, allocated_resources.
  unfold allocated, registration_answered.
  change (registration_granted (buffer_created N w)) with (registration_granted w).
  change (next_handle (buffer_created N w)) with (next_handle w).
  assert (Hroom' : match gl_free w with [] => gl_next w + 1 | _ :: _ => gl_next w end < UINT_MOD)
    by (destruct (gl_free w); [apply Hroom; reflexivity | lia]).
  destruct (registration_granted w); unfold buffer_created; world_simpl;
    set (g' := match gl_free w with [] => gl_next w + 1 | _ :: _ => gl_next w end) in *;
    set (c' := match cu_free w with [] => cu_next w + 1 | _ :: _ => cu_next w end) in *;
    clearbody g' c'.
  - split; [lia|]. split; [lia|]. split; [lia|].
    split; [apply map_Forall_insert_2; [lia|];
            eapply map_Forall_impl; [exact Hbufs|]; simpl; intros; lia|].
    split; [apply map_Forall_insert_2; [lia|];
            eapply map_Forall_impl; [exact Hres|]; simpl; intros; lia|].
    split; [eapply Forall_impl; [exact Hgtl|]; simpl; intros m (? & ? & ?);
            split; [lia | rewrite lookup_insert_ne by congruence; assumption]|].
    split; [eapply Forall_impl; [exact Hctl|]; simpl; intros m (? & ? & ?);
            split; [lia | rewrite lookup_insert_ne by congruence; assumption]|].
    split; assumption.
  - split; [lia|]. split; [lia|]. split; [lia|].
    split; [apply map_Forall_insert_2; [lia|];
            eapply map_Forall_impl; [exact Hbufs|]; simpl; intros; lia|].
    split; [exact Hres|].
    split; [eapply Forall_impl; [exact Hgtl|]; simpl; intros m (? & ? & ?);
            split; [lia | rewrite lookup_insert_ne by congruence; assumption]|].
    split; [exact Hcfree|].
    split; assumption.
Qed.

Lemma quiet_names_ok (w w' : World) : quiet w w' -> names_ok w -> names_ok w'.
Proof.
  intros Hq (Hgl & Hcu & Hun & Hbufs & Hres & Hgfree & Hcfree & Hgdup & Hcdup).
  destruct Hq as [_ Hgn Hgf _ Hcn Hcf _ Hu _ _ Hb Hr].
  unfold names_ok. rewrite Hgn, Hgf, Hcn, Hcf, Hu.
  split; [exact Hgl|]. split; [exact Hcu|]. split; [exact Hun|].
  split.
  { intros n ds Hn. assert (Hs : is_Some (gl_buffers w !! n)).
    { apply (fmap_is_Some ds_bytes). rewrite <- Hb, Hn. simpl. eauto. }
    destruct Hs as [ds0 Hn0]. exact (Hbufs _ _ Hn0). }
  split.
  { intros h reg Hh. assert (Hs : is_Some (cu_resources w !! h)).
    { apply (fmap_is_Some reg_buffer). rewrite <- Hr, Hh. simpl. eauto. }
    destruct Hs as [reg0 Hh0]. exact (Hres _ _ Hh0). }
  split.
  { eapply Forall_impl; [exact Hgfree|]. simpl. intros n [Hn Hnone]. split; [exact Hn|].
    apply (fmap_None ds_bytes). rewrite Hb, Hnone. reflexivity. }
  split.
  { eapply Forall_impl; [exact Hcfree|]. simpl. intros h [Hh Hnone]. split; [exact Hh|].
    apply (fmap_None reg_buffer). rewrite Hr, Hnone. reflexivity. }
  split; assumption.
Qed.

Lemma draw_resize_reallocates (Nx Ny : Z) (this : DeviceWindow) (w : World) :
  dimensions_change Nx Ny this = true ->
  names_ok w ->
  draw_resize Nx Ny this w =
    Done (mkWindow (next_buffer_name (released (resource this) w))
                   (new_resource (released (resource this) w)) Nx Ny)
         (allocated (umul (umul 3 Nx) Ny) (released (resource this) w)).
Proof.
  intros Hchange Hok.
  pose proof (released_names_ok (resource this) w Hok) as Hok'.
  destruct (next_buffer_name_fresh _ Hok') as [Hfresh Hrange].
  destruct Hok as (Hgl & Hcu & Hun & _).
  unfold draw_resize. fold (dimensions_change Nx Ny this). rewrite Hchange.
  cbn [resource bufferID Nx_ Ny_].
  rewrite release_runs by (unfold UINT_MOD in *; lia).
  unfold bind at 1. rewrite allocateCudaGlBuffer_runs by (auto; lia).
  unfold bind, glGetIntegerv_unpack_binding, ret.
  assert (Hbound : gl_unpack (allocated (umul (umul 3 Nx) Ny) (released (resource this) w))
                   = next_buffer_name (released (resource this) w)).
  { unfold allocated, registration_answered, buffer_created.
    destruct (registration_granted _); reflexivity. }
rewrite Hbound, GLuint_round_trip by lia. reflexivity.
Qed.

(** ** The shape of a draw call *)

Definition returns {A} (P : A -> Prop) (m : Op A) : Prop :=
  forall w a w', m w = Done a w' -> P a.

Lemma returns_ret {A} (P : A -> Prop) (a : A) : P a -> returns P (ret a).
Proof. intros Ha w a' w' H. injection H as <- _. exact Ha. Qed.

Lemma returns_bind {A B} (P : B -> Prop) (m : Op A) (k : A -> Op B) :
  (forall a, returns P (k a)) -> returns P (bind m k).
Proof.
  intros Hk w b w' H. unfold bind in H.
  destruct (m w) as [a w1| |]; try discriminate. eapply Hk, H.
Qed.

Lemma dimensions_change_false (Nx Ny : Z) (this : DeviceWindow) :
  dimensions_change Nx Ny this = false <-> Nx_ this = Nx /\ Ny_ this = Ny.
Proof.
  unfold dimensions_change.
  destruct (Z.eqb_spec Nx (Nx_ this)), (Z.eqb_spec Ny (Ny_ this)); simpl;
    split; intros; try discriminate; intuition congruence.
Qed.

Lemma dimensions_change_true (Nx Ny : Z) (this : DeviceWindow) :
  (Nx, Ny) <> (Nx_ this, Ny_ this) -> dimensions_change Nx Ny this = true.
Proof.
  intros Hne. destruct (dimensions_change Nx Ny this) eqn:Hc; [reflexivity|].
  apply dimensions_change_false in Hc. destruct Hc as [H1 H2].
  exfalso. apply Hne. congruence.
Qed.

Lemma draw_resize_dimensions (Nx Ny : Z) (this : DeviceWindow) :
  returns (fun this' => Nx_ this' = Nx /\ Ny_ this' = Ny) (draw_resize Nx Ny this).
Proof.
  unfold draw_resize. fold (dimensions_change Nx Ny this).
  destruct (dimensions_change Nx Ny this) eqn:Hc.
  - repeat (apply returns_bind; intros ?). apply returns_ret. auto.
  - apply returns_ret. apply dimensions_change_false. exact Hc.
Qed.

(** The two stages after the dimension check. *)
Definition draw_frame {T} (DG_DEBUG : bool) (x : list T) (Nx Ny : Z) (map : T -> Color)
    (this : DeviceWindow) : Op DeviceWindow :=
  mapColors DG_DEBUG map x (resource this) ;;
  draw_present Nx Ny ;;
  ret this.

Lemma draw_frame_quiet {T} dbg (x : list T) Nx Ny map this :
  steps quiet (draw_frame dbg x Nx Ny map this).
Proof.
  unfold draw_frame.
  quiet_bind; [apply mapColors_quiet|].
  quiet_bind; [apply draw_present_quiet|].
  apply steps_ret, quiet_refl.
Qed.

Lemma draw_frame_returns {T} dbg (x : list T) Nx Ny map this :
  returns (fun this' => this' = this) (draw_frame dbg x Nx Ny map this).
Proof.
  unfold draw_frame. repeat (apply returns_bind; intros ?). apply returns_ret. reflexivity.
Qed.

Lemma draw_stages {T} dbg (x : list T) Nx Ny map this w this1 w1 :
  draw_resize Nx Ny this w = Done this1 w1 ->
  draw dbg x Nx Ny map this w = draw_frame dbg x Nx Ny map this1 w1.
Proof. intros H. unfold draw, draw_frame. unfold bind at 1. rewrite H. reflexivity. Qed.

Lemma draw_done {T} dbg (x : list T) Nx Ny map this w this' w' :
  draw dbg x Nx Ny map this w = Done this' w' ->
  exists w1, draw_resize Nx Ny this w = Done this' w1 /\
             draw_frame dbg x Nx Ny map this' w1 = Done this' w'.
Proof.
  intros H. destruct (draw_resize Nx Ny this w) as [this1 w1| |] eqn:Hr.
  - rewrite (draw_stages _ _ _ _ _ _ _ _ _ Hr) in H.
    pose proof (draw_frame_returns _ _ _ _ _ _ _ _ _ H) as ->.
    exists w1. auto.
  - unfold draw, bind in H. rewrite Hr in H. discriminate.
  - unfold draw, bind in H. rewrite Hr in H. discriminate.
Qed.

(** ** Recorded dimensions and reuse of the buffer *)

(** C9.  After [draw(x, Nx, Ny, map)] returns, the recorded dimensions
    [(Nx_, Ny_)] are [(Nx, Ny)], on the reallocating path and on the reusing
    path alike.  Positive dimensions are the claim's range; the proof does not
    need them. *)
Theorem draw_records_dimensions {T} (DG_DEBUG : bool) (x : list T) (Nx Ny : Z)
    (map : T -> Color) (this this' : DeviceWindow) (w w' : World) :
  0 < Nx -> 0 < Ny ->
  draw DG_DEBUG x Nx Ny map this w = Done this' w' ->
  Nx_ this' = Nx /\ Ny_ this' = Ny.
Proof.
  intros _ _ H. apply draw_done in H. destruct H as (w1 & Hr & _).
  exact (draw_resize_dimensions Nx Ny this w this' w1 Hr).
Qed.

Lemma draw_records_dimensions_witness :
  Nx_ (window_of first_frame) = 1 /\ Ny_ (window_of first_frame) = 1.
Proof.
  apply (draw_records_dimensions false [5] 1 1 tint
           (window_of (opened granting [])) (window_of first_frame)
           (world_of (opened granting [])) (world_of first_frame)).
  - lia.
  - lia.
  - vm_compute. reflexivity.
Defined.

(** A second release-build frame of the same size. *)
Definition second_frame : Outcome DeviceWindow :=
  draw false [9] 1 1 tint (window_of first_frame) (world_of first_frame).

(** C4.  Two draws in a row with the same width and height: the second one
    performs no reallocation.  The registration handle and the buffer name of
    the window are the same after both calls, and the second call issues no
    allocation or release call and leaves every buffer and registration in
    place. *)
Theorem draw_same_size_reuses_buffer {T} (DG_DEBUG : bool) (x1 x2 : list T) (Nx Ny : Z)
    (map1 map2 : T -> Color) (this this1 this2 : DeviceWindow) (w w1 w2 : World) :
  draw DG_DEBUG x1 Nx Ny map1 this w = Done this1 w1 ->
  draw DG_DEBUG x2 Nx Ny map2 this1 w1 = Done this2 w2 ->
  resource this2 = resource this1 /\
  bufferID this2 = bufferID this1 /\
  quiet w1 w2.
Proof.
  intros H1 H2.
  apply draw_done in H1. destruct H1 as (w0 & Hr1 & _).
  pose proof (draw_resize_dimensions Nx Ny this w this1 w0 Hr1) as Hdims.
  apply dimensions_change_false in Hdims.
  rewrite (draw_stages _ _ _ _ _ _ _ _ _ (draw_resize_keeps Nx Ny this1 w1 Hdims)) in H2.
  pose proof (draw_frame_returns _ _ _ _ _ _ _ _ _ H2) as ->.
  split; [reflexivity|]. split; [reflexivity|].
  apply (draw_frame_quiet DG_DEBUG x2 Nx Ny map2 this1 w1 w2). rewrite H2. reflexivity.
Qed.

Lemma draw_same_size_reuses_buffer_witness :
  resource (window_of second_frame) = resource (window_of first_frame) /\
  bufferID (window_of second_frame) = bufferID (window_of first_frame) /\
  quiet (world_of first_frame) (world_of second_frame).
Proof.
  apply (draw_same_size_reuses_buffer false [5] [9] 1 1 tint tint
           (window_of (opened granting [])) (window_of first_frame) (window_of second_frame)
           (world_of (opened granting [])) (world_of first_frame) (world_of second_frame)).
  - vm_compute. reflexivity.
  - vm_compute. reflexivity.
Defined.

(** ** The first draw of an empty size *)

(** C10.  On a freshly constructed window the recorded dimensions are (0,0)
    and the registration handle is null; a draw with [Nx = 0] and [Ny = 0]
    does not take the reallocation branch: the call is the transform stage on
    the null handle followed by the presentation, and nothing is allocated or
    released on the way. *)
Theorem fresh_window_zero_draw_skips_allocation {T} (DG_DEBUG : bool) (x : list T)
    (map : T -> Color) (width height : Z) (w : World) :
  exists w0,
    DeviceWindow_new width height w = Done (mkWindow 0 NULL 0 0) w0 /\
    draw DG_DEBUG x 0 0 map (mkWindow 0 NULL 0 0) w0
    = (mapColors DG_DEBUG map x NULL ;; draw_present 0 0 ;; ret (mkWindow 0 NULL 0 0)) w0 /\
    (forall w', final_world (draw DG_DEBUG x 0 0 map (mkWindow 0 NULL 0 0) w0) = Some w' ->
                quiet w0 w').
Proof.
  assert (Hkeep : forall w0, draw_resize 0 0 (mkWindow 0 NULL 0 0) w0 = Done (mkWindow 0 NULL 0 0) w0)
    by (intros; apply draw_resize_keeps; reflexivity).
  eexists. split; [reflexivity|]. split.
  - rewrite (draw_stages _ _ _ _ _ _ _ _ _ (Hkeep _)). reflexivity.
  - intros w' H. rewrite (draw_stages _ _ _ _ _ _ _ _ _ (Hkeep _)) in H.
    eapply draw_frame_quiet. exact H.
Qed.

(** ** Ownership along a draw call *)

Lemma handoff_app res b o (l1 l2 : list Event) :
  handoff res b o (l1 ++ l2) =
    match handoff res b o l1 with
    | Some o' => handoff res b o' l2
    | None => None
    end.
Proof.
  revert o. induction l1 as [|e l1 IH]; intros o; simpl; [reflexivity|].
  destruct (handoff_step res b o e); [apply IH | reflexivity].
Qed.

Lemma handoff_writes {T} (map : T -> Color) (xs : list T) res b :
  forall i, handoff res b Compute (writes map xs i b) = Some Compute.
Proof.
  induction xs as [|v rest IH]; intros i; simpl; [reflexivity|].
  rewrite Z.eqb_refl. apply IH.
Qed.

(** Calls that do not move the buffer between the runtimes and need neither
    side. *)
Definition handoff_neutral (e : Event) : Prop :=
  forall res b o, handoff_step res b o e = Some o.

Lemma handoff_neutral_prefix res b o (l1 l2 : list Event) :
  Forall handoff_neutral l1 ->
  handoff res b o (l1 ++ l2) = handoff res b o l2.
Proof.
  induction 1 as [|e l1 He _ IH]; simpl; [reflexivity|].
  rewrite He. exact IH.
Qed.

(** The buffer of the window, when it has one, is registered for the buffer
    name the window holds, is live, and is on the graphics side. *)
Definition buffer_available (this : DeviceWindow) (w : World) : Prop :=
  match cu_resources w !! resource this with
  | Some reg => reg = mkReg (bufferID this) false /\ is_Some (gl_buffers w !! bufferID this)
  | None => True
  end.

(** What a draw call must have done to the buffer [(res, b)] by the time it
    stops: no violation on the way, the buffer back on the graphics side when
    the call returns, and on the compute side when a failed assertion stops
    the process inside the transform stage. *)
Definition handoff_respected {A} (res b : Z) (w : World) (o : Outcome A) : Prop :=
  match o with
  | Done _ w' => exists evs, trace w' = trace w ++ evs /\
                             handoff res b Graphics evs = Some Graphics
  | Aborted w' => exists evs, trace w' = trace w ++ evs /\
                              handoff res b Graphics evs = Some Compute
  | Undefined => True
  end.

Lemma mapColors_unregistered {T} dbg (map : T -> Color) (x : list T) r w :
  cu_resources w !! r = None ->
  mapColors dbg map x r w =
    if dbg then Undefined
    else match x with
         | [] => Done tt (log (CudaUnmap r cudaErrorInvalidResourceHandle)
                            (log CudaThreadSynchronize
                               (log (CudaMap r cudaErrorInvalidResourceHandle) w)))
         | _ :: _ => Undefined
         end.
Proof.
  intros Hr. unfold mapColors, bind, cudaGraphicsMapResources,
    cudaGraphicsResourceGetMappedPointer, cudaGraphicsUnmapResources,
    cudaThreadSynchronize, emit, ret.
  rewrite Hr. cbn [log cu_resources]. rewrite Hr. cbn [fst snd option_map assert].
  destruct dbg; [reflexivity|]. destruct x; [|reflexivity].
  cbn [thrust_transform ret log cu_resources]. unfold ret. rewrite Hr. reflexivity.
Qed.

(** The world after the presentation stage. *)
Definition presented (Nx Ny : Z) (w : World) : World :=
  logs [GlTexImage2D (GLint_of_GLuint Nx) (GLint_of_GLuint Ny) (gl_unpack w);
        GlLoadIdentity; GlQuads quad_vertices; GlfwSwapBuffers] w.

Lemma draw_present_runs (Nx Ny : Z) (w : World) :
  draw_present Nx Ny w = Done tt (presented Nx Ny w).
Proof.
  unfold draw_present, bind, glTexImage2D, glLoadIdentity, glfwSwapBuffers, emit, presented,
    log, logs.
  simpl. rewrite <- !app_assoc. reflexivity.
Qed.

Lemma draw_frame_handoff {T} dbg (x : list T) Nx Ny (map : T -> Color) this w :
  buffer_available this w ->
  handoff_respected (resource this) (bufferID this) w (draw_frame dbg x Nx Ny map this w).
Proof.
  intros Hav. unfold draw_frame. unfold bind at 1. unfold buffer_available in Hav.
  destruct (cu_resources w !! resource this) as [reg|] eqn:Hr.
  - destruct Hav as [-> [ds Hb]].
    rewrite (mapColors_registered map dbg x _ _ _ w ds Hr Hb).
    destruct (dbg && negb (size_matches x ds)).
    + simpl. exists [CudaMap (resource this) cudaSuccess]. split; [reflexivity|].
      simpl. rewrite Z.eqb_refl. reflexivity.
    + destruct (has_room x ds); [|exact I].
      unfold bind at 1. rewrite draw_present_runs. unfold ret.
      unfold handoff_respected, presented, colored. world_simpl.
      eexists. split.
      * rewrite <- app_assoc. reflexivity.
      * cbn [handoff handoff_step app]. rewrite Z.eqb_refl.
        rewrite <- app_assoc.
        rewrite handoff_app, handoff_writes. simpl. rewrite Z.eqb_refl. reflexivity.
  - rewrite (mapColors_unregistered dbg map x _ w Hr).
    destruct dbg; [exact I|]. destruct x; [|exact I].
    unfold bind at 1. rewrite draw_present_runs. unfold ret.
    unfold handoff_respected, presented. world_simpl.
    eexists. split.
    * rewrite <- !app_assoc. reflexivity.
    * reflexivity.
Qed.

Lemma handoff_respected_prefix {A} res b (w w1 : World) (pre : list Event) (o : Outcome A) :
  trace w1 = trace w ++ pre ->
  Forall handoff_neutral pre ->
  handoff_respected res b w1 o -> handoff_respected res b w o.
Proof.
  intros Ht Hpre. destruct o as [a w'|w'|]; simpl; [| |auto].
  - intros (evs & He & Hh). exists (pre ++ evs). split.
    + rewrite He, Ht, app_assoc. reflexivity.
    + rewrite handoff_neutral_prefix by exact Hpre. exact Hh.
  - intros (evs & He & Hh). exists (pre ++ evs). split.
    + rewrite He, Ht, app_assoc. reflexivity.
    + rewrite handoff_neutral_prefix by exact Hpre. exact Hh.
Qed.

(** The calls of the reallocation, after the trace of [w]. *)
Definition reallocation_calls (N r : Z) (w : World) : list Event :=
  [CudaUnregister r (match cu_resources w !! r with
                     | Some _ => cudaSuccess
                     | None => cudaErrorInvalidResourceHandle
                     end);
   Print ("Allocate resources for drawing!" ++ newline);
   GlDeleteBuffers (gl_unpack w);
   GlGenBuffers (next_buffer_name (released r w));
   GlBindBuffer (next_buffer_name (released r w));
   GlBufferData (size_mul N sizeof_float) (gl_store_fits w (size_mul N sizeof_float));
   CudaRegister (next_buffer_name (released r w)) (hd cudaSuccess (cu_faults w))
                (new_resource (released r w))]
  ++ (if registration_granted w then [] else [Print (cudaGetErrorString (hd cudaSuccess (cu_faults w)))]).

Lemma released_keeps_faults (r : Z) (w : World) :
  registration_granted (released r w) = registration_granted w.
Proof. reflexivity. Qed.

Lemma released_trace (r : Z) (w : World) :
  trace (released r w)
  = trace w ++ [CudaUnregister r (match cu_resources w !! r with
                                  | Some _ => cudaSuccess
                                  | None => cudaErrorInvalidResourceHandle
                                  end);
                Print ("Allocate resources for drawing!" ++ newline);
                GlDeleteBuffers (gl_unpack w)].
Proof. reflexivity. Qed.

Lemma buffer_created_trace (N : Z) (w : World) :
  trace (buffer_created N w)
  = trace w ++ [GlGenBuffers (next_buffer_name w); GlBindBuffer (next_buffer_name w);
                GlBufferData (size_mul N sizeof_float) (gl_store_fits w (size_mul N sizeof_float))].
Proof. reflexivity. Qed.

Lemma registration_answered_trace (n : Z) (w : World) :
  trace (registration_answered n w)
  = trace w ++ CudaRegister n (hd cudaSuccess (cu_faults w)) (new_resource w)
               :: (if registration_granted w then []
                   else [Print (cudaGetErrorString (hd cudaSuccess (cu_faults w)))]).
Proof.
  unfold registration_answered, new_resource.
  destruct (registration_granted w); reflexivity.
Qed.

Lemma reallocation_trace (N r : Z) (w : World) :
  trace (allocated N (released r w)) = trace w ++ reallocation_calls N r w.
Proof.
  unfold allocated. rewrite registration_answered_trace, buffer_created_trace, released_trace.
  unfold reallocation_calls. rewrite <- !app_assoc. reflexivity.
Qed.

Lemma reallocation_calls_neutral (N r : Z) (w : World) :
  Forall handoff_neutral (reallocation_calls N r w).
Proof.
  unfold reallocation_calls. apply Forall_app. split.
  - repeat constructor.
  - destruct (registration_granted w); repeat constructor.
Qed.

Lemma null_unregistered (w : World) : names_ok w -> cu_resources w !! NULL = None.
Proof.
  intros (_ & _ & _ & _ & Hres & _).
  destruct (cu_resources w !! NULL) eqn:H0; [|reflexivity].
  pose proof (Hres _ _ H0) as Hr. simpl in Hr. unfold NULL in Hr. lia.
Qed.

Lemma reallocated_buffer_available (Nx Ny N : Z) (this : DeviceWindow) (w : World) :
  names_ok w ->
  buffer_available (mkWindow (next_buffer_name (released (resource this) w))
                             (new_resource (released (resource this) w)) Nx Ny)
                   (allocated N (released (resource this) w)).
Proof.
  intros Hok. pose proof (released_names_ok (resource this) w Hok) as Hok'.
  unfold buffer_available, new_resource. cbn [resource bufferID].
  rewrite allocated_resources, allocated_buffers.
  destruct (registration_granted (released (resource this) w)).
  - rewrite lookup_insert_eq. split; [reflexivity|].
    rewrite lookup_insert_eq. eauto.
  - rewrite (null_unregistered _ Hok'). exact I.
Qed.

(** The calls of a transform stage that gets its buffer: the map, one device
    write per element of the field, in order, the synchronization and the
    unmap.  And the calls of the presentation, reading from [source]. *)
Definition transform_calls {T} (map : T -> Color) (x : list T) (res b : Z) : list Event :=
  CudaMap res cudaSuccess
    :: writes map x 0 b ++ [CudaThreadSynchronize; CudaUnmap res cudaSuccess].

Definition presentation_calls (Nx Ny source : Z) : list Event :=
  [GlTexImage2D (GLint_of_GLuint Nx) (GLint_of_GLuint Ny) source;
   GlLoadIdentity; GlQuads quad_vertices; GlfwSwapBuffers].

(** The calls of the two stages after the dimension check, in the order they
    are issued, and the side the buffer is on when they end. *)
Definition stages_in_order {T} (map : T -> Color) (x : list T) (Nx Ny : Z)
    (this1 : DeviceWindow) (w1 : World) (o : Outcome DeviceWindow) : Prop :=
  match o with
  | Done this' w' =>
      this' = this1 /\
      match cu_resources w1 !! resource this1 with
      | Some _ =>
          trace w' = trace w1
                       ++ transform_calls map x (resource this1) (bufferID this1)
                       ++ presentation_calls Nx Ny (gl_unpack w1) /\
          cu_resources w' !! resource this1 = Some (mkReg (bufferID this1) false)
      | None =>
          x = [] /\
          trace w' = trace w1
                       ++ [CudaMap (resource this1) cudaErrorInvalidResourceHandle;
                           CudaThreadSynchronize;
                           CudaUnmap (resource this1) cudaErrorInvalidResourceHandle]
                       ++ presentation_calls Nx Ny (gl_unpack w1)
      end
  | Aborted w' =>
      trace w' = trace w1 ++ [CudaMap (resource this1) cudaSuccess] /\
      cu_resources w' !! resource this1 = Some (mkReg (bufferID this1) true)
  | Undefined => True
  end.

Lemma draw_frame_in_order {T} dbg (x : list T) Nx Ny (map : T -> Color) this w :
  buffer_available this w ->
  stages_in_order map x Nx Ny this w (draw_frame dbg x Nx Ny map this w).
Proof.
  intros Hav. unfold stages_in_order, draw_frame. unfold bind at 1.
  unfold buffer_available in Hav.
  destruct (cu_resources w !! resource this) as [reg|] eqn:Hr.
  - destruct Hav as [-> [ds Hb]].
    rewrite (mapColors_registered map dbg x _ _ _ w ds Hr Hb).
    destruct (dbg && negb (size_matches x ds)).
    + unfold after_map, set_mapped. world_simpl.
      split; [reflexivity | apply lookup_insert_eq].
    + destruct (has_room x ds); [|exact I].
      unfold bind at 1. rewrite draw_present_runs. unfold ret.
      split; [reflexivity|].
      unfold presented, colored, transform_calls, presentation_calls. world_simpl.
      split; [rewrite <- app_assoc; reflexivity | apply lookup_insert_eq].
  - rewrite (mapColors_unregistered dbg map x _ w Hr).
    destruct dbg; [exact I|]. destruct x; [|exact I].
    unfold bind at 1. rewrite draw_present_runs. unfold ret.
    split; [reflexivity|]. split; [reflexivity|].
    unfold presented, presentation_calls. world_simpl.
    rewrite <- !app_assoc. reflexivity.
Qed.

(** C2.  Along every draw call that starts with the window's buffer (if it
    has one) on the graphics side, the buffer is on one side at a time and the
    calls come in this order.  The dimension check issues no map, unmap,
    device write, texture upload or quad.  Then, when the window holds a
    registration, the call log continues with the successful map, one device
    write into the window's buffer per element of the field, the
    synchronization and the successful unmap, and only then the texture
    upload, the quad and the buffer swap; the registration is unmapped when
    the call returns.  A call stopped by the debug assertion has issued the
    successful map and nothing after it, and leaves the buffer mapped.  When
    the window holds no registration, no map succeeds and nothing is written.
    The log of the whole call passes the hand-off automaton. *)
Theorem draw_ownership_handoff {T} (DG_DEBUG : bool) (x : list T) (Nx Ny : Z)
    (map : T -> Color) (this : DeviceWindow) (w : World) :
  names_ok w ->
  buffer_available this w ->
  exists this1 w1 pre,
    draw_resize Nx Ny this w = Done this1 w1 /\
    trace w1 = trace w ++ pre /\
    Forall handoff_neutral pre /\
    stages_in_order map x Nx Ny this1 w1 (draw DG_DEBUG x Nx Ny map this w) /\
    handoff_respected (resource this1) (bufferID this1) w (draw DG_DEBUG x Nx Ny map this w).
Proof.
  intros Hok Hav.
  destruct (dimensions_change Nx Ny this) eqn:Hc.
  - pose proof (draw_resize_reallocates Nx Ny this w Hc Hok) as Hr.
    pose proof (reallocated_buffer_available Nx Ny (umul (umul 3 Nx) Ny) this w Hok) as Hav1.
    eexists _, _, _. split; [exact Hr|].
    split; [apply reallocation_trace|].
    split; [apply reallocation_calls_neutral|].
    rewrite (draw_stages _ _ _ _ _ _ _ _ _ Hr).
    split; [apply draw_frame_in_order, Hav1|].
    eapply handoff_respected_prefix.
    + apply reallocation_trace.
    + apply reallocation_calls_neutral.
    + apply (draw_frame_handoff DG_DEBUG x Nx Ny map
               (mkWindow (next_buffer_name (released (resource this) w))
                         (new_resource (released (resource this) w)) Nx Ny)).
      exact Hav1.
  - pose proof (draw_resize_keeps Nx Ny this w Hc) as Hr.
    exists this, w, []. split; [exact Hr|].
    split; [rewrite app_nil_r; reflexivity|].
    split; [constructor|].
    rewrite (draw_stages _ _ _ _ _ _ _ _ _ Hr).
    split; [apply draw_frame_in_order, Hav | apply draw_frame_handoff, Hav].
Qed.

Lemma draw_ownership_handoff_witness :
  exists this1 w1 pre,
    draw_resize 2 1 (window_of first_frame) (world_of first_frame) = Done this1 w1 /\
    trace w1 = trace (world_of first_frame) ++ pre /\
    Forall handoff_neutral pre /\
    stages_in_order tint [3; 4] 2 1 this1 w1
      (draw true [3; 4] 2 1 tint (window_of first_frame) (world_of first_frame)) /\
    handoff_respected (resource this1) (bufferID this1) (world_of first_frame)
      (draw true [3; 4] 2 1 tint (window_of first_frame) (world_of first_frame)).
Proof.
  apply (draw_ownership_handoff true [3; 4] 2 1 tint (window_of first_frame) (world_of first_frame)).
  - apply (bool_decide_unpack _). vm_compute. exact I.
  - vm_compute. split; [reflexivity | eexists; reflexivity].
Defined.

(** ** The states of the window are kept by draw *)

Lemma draw_frame_keeps_Bound {T} dbg (x : list T) Nx Ny (map : T -> Color) w0 h0 this w this' w' :
  Bound w0 h0 this w ->
  draw_frame dbg x Nx Ny map this w = Done this' w' ->
  Bound w0 h0 this' w'.
Proof.
  intros (HNx & HNy & [Hreg [ds Hbuf]] & Hbind & Hok) Hrun.
  pose proof (draw_frame_returns _ _ _ _ _ _ _ _ _ Hrun) as ->.
  assert (Hq : quiet w w') by (eapply draw_frame_quiet; rewrite Hrun; reflexivity).
  unfold draw_frame in Hrun. unfold bind at 1 in Hrun.
  rewrite (mapColors_registered map dbg x _ _ _ w ds Hreg Hbuf) in Hrun.
  destruct (dbg && negb (size_matches x ds)); [discriminate|].
  destruct (has_room x ds); [|discriminate].
  unfold bind at 1 in Hrun. rewrite draw_present_runs in Hrun. injection Hrun as <-.
  split; [exact HNx|]. split; [exact HNy|].
  split; [|split; [exact Hbind | exact (quiet_names_ok _ _ Hq Hok)]].
  unfold shared_buffer, presented, colored. world_simpl.
  rewrite !lookup_insert_eq. eauto.
Qed.

(** A draw with the recorded dimensions keeps the window in [Bound]. *)
Lemma draw_keeps_Bound {T} dbg (x : list T) (map : T -> Color) w0 h0 this w this' w' :
  Bound w0 h0 this w ->
  draw dbg x w0 h0 map this w = Done this' w' ->
  Bound w0 h0 this' w'.
Proof.
  intros HB Hrun. pose proof HB as (HNx & HNy & _).
  assert (Hc : dimensions_change w0 h0 this = false) by (apply dimensions_change_false; auto).
  rewrite (draw_stages _ _ _ _ _ _ _ _ _ (draw_resize_keeps w0 h0 this w Hc)) in Hrun.
  eapply draw_frame_keeps_Bound; eauto.
Qed.

Lemma allocated_unpack (N : Z) (w : World) :
  gl_unpack (allocated N w) = next_buffer_name w.
Proof.
  unfold allocated, registration_answered, buffer_created.
  destruct (registration_granted _); reflexivity.
Qed.

Lemma reallocated_shared_buffer (N r : Z) (w : World) :
  registration_granted w = true ->
  shared_buffer (allocated N (released r w))
    (new_resource (released r w)) (next_buffer_name (released r w)) false.
Proof.
  intros Hgrant. unfold shared_buffer, new_resource.
  rewrite allocated_resources, allocated_buffers.
  rewrite released_keeps_faults, Hgrant. rewrite !lookup_insert_eq. eauto.
Qed.

Lemma reallocated_names_ok (N r : Z) (w : World) :
  names_ok w -> gl_next w + 1 < UINT_MOD -> names_ok (allocated N (released r w)).
Proof.
  intros Hok Hroom. apply allocated_names_ok; [apply released_names_ok, Hok|].
  intros _. exact Hroom.
Qed.

Lemma reallocated_Bound (Nx Ny N : Z) (this : DeviceWindow) (w : World) :
  names_ok w ->
  gl_next w + 1 < UINT_MOD ->
  registration_granted w = true ->
  Bound Nx Ny
        (mkWindow (next_buffer_name (released (resource this) w))
                  (new_resource (released (resource this) w)) Nx Ny)
        (allocated N (released (resource this) w)).
Proof.
  intros Hok Hroom Hgrant. unfold Bound. cbn [Nx_ Ny_ resource bufferID].
  split; [reflexivity|]. split; [reflexivity|].
  split; [apply reallocated_shared_buffer, Hgrant|].
  split; [apply allocated_unpack | apply reallocated_names_ok; assumption].
Qed.

(** A draw with new dimensions whose registration is granted takes the
    window to [Bound] of these dimensions, from any state. *)
Lemma draw_reaches_Bound {T} dbg (x : list T) Nx Ny (map : T -> Color) this w this' w' :
  names_ok w ->
  gl_next w + 1 < UINT_MOD ->
  (Nx, Ny) <> (Nx_ this, Ny_ this) ->
  registration_granted w = true ->
  draw dbg x Nx Ny map this w = Done this' w' ->
  Bound Nx Ny this' w'.
Proof.
  intros Hok Hroom Hne Hgrant Hrun.
  pose proof (draw_resize_reallocates Nx Ny this w (dimensions_change_true _ _ _ Hne) Hok) as Hr.
  rewrite (draw_stages _ _ _ _ _ _ _ _ _ Hr) in Hrun.
  exact (draw_frame_keeps_Bound dbg x Nx Ny map Nx Ny _ _ _ _
           (reallocated_Bound Nx Ny _ this w Hok Hroom Hgrant) Hrun).
Qed.

(** The conditions under which the hand-off is respected hold again after
    every draw that returns, so they hold along the life of a window. *)
Lemma draw_frame_keeps_available {T} dbg (x : list T) Nx Ny (map : T -> Color) this w this' w' :
  buffer_available this w ->
  draw_frame dbg x Nx Ny map this w = Done this' w' ->
  buffer_available this' w'.
Proof.
  intros Hav Hrun.
  pose proof (draw_frame_returns _ _ _ _ _ _ _ _ _ Hrun) as ->.
  unfold draw_frame in Hrun. unfold bind at 1 in Hrun. unfold buffer_available in *.
  destruct (cu_resources w !! resource this) as [reg|] eqn:Hr.
  - destruct Hav as [-> [ds Hb]].
    rewrite (mapColors_registered map dbg x _ _ _ w ds Hr Hb) in Hrun.
    destruct (dbg && negb (size_matches x ds)); [discriminate|].
    destruct (has_room x ds); [|discriminate].
    unfold bind at 1 in Hrun. rewrite draw_present_runs in Hrun. injection Hrun as <-.
    unfold presented, colored. world_simpl. rewrite !lookup_insert_eq. eauto.
  - rewrite (mapColors_unregistered dbg map x _ w Hr) in Hrun.
    destruct dbg; [discriminate|]. destruct x; [|discriminate].
    unfold bind at 1 in Hrun. rewrite draw_present_runs in Hrun. injection Hrun as <-.
    unfold presented. world_simpl. rewrite Hr. exact I.
Qed.

Lemma draw_keeps_available {T} dbg (x : list T) Nx Ny (map : T -> Color) this w this' w' :
  names_ok w ->
  buffer_available this w ->
  gl_next w + 1 < UINT_MOD ->
  draw dbg x Nx Ny map this w = Done this' w' ->
  names_ok w' /\ buffer_available this' w'.
Proof.
  intros Hok Hav Hroom Hrun.
  destruct (dimensions_change Nx Ny this) eqn:Hc.
  - pose proof (draw_resize_reallocates Nx Ny this w Hc Hok) as Hr.
    rewrite (draw_stages _ _ _ _ _ _ _ _ _ Hr) in Hrun. split.
    + eapply quiet_names_ok; [eapply draw_frame_quiet; rewrite Hrun; reflexivity|].
      apply reallocated_names_ok; assumption.
    + eapply draw_frame_keeps_available; [|exact Hrun].
      apply reallocated_buffer_available, Hok.
  - pose proof (draw_resize_keeps Nx Ny this w Hc) as Hr.
    rewrite (draw_stages _ _ _ _ _ _ _ _ _ Hr) in Hrun. split.
    + eapply quiet_names_ok; [eapply draw_frame_quiet; rewrite Hrun; reflexivity | exact Hok].
    + eapply draw_frame_keeps_available; eauto.
Qed.

(** They hold for the window a constructor leaves on a world in order. *)
Lemma new_window_available (width height : Z) (w : World) :
  names_ok w ->
  exists w0,
    DeviceWindow_new width height w = Done (mkWindow 0 NULL 0 0) w0 /\
    names_ok w0 /\ buffer_available (mkWindow 0 NULL 0 0) w0.
Proof.
  intros Hok. eexists. split; [reflexivity|]. split; [exact Hok|].
  unfold buffer_available. world_simpl. cbn [resource].
  rewrite (null_unregistered w Hok). exact I.
Qed.

(** ** Reallocation on a change of dimensions *)

Lemma quiet_keeps_released_buffer (w w' : World) (b : Z) :
  quiet w w' -> gl_buffers w !! b = None -> gl_buffers w' !! b = None.
Proof.
  intros Hq Hb. pose proof (quiet_buffers _ _ Hq b) as H.
  rewrite Hb in H. apply fmap_None in H. exact H.
Qed.

Lemma quiet_keeps_released_resource (w w' : World) (r : Z) :
  quiet w w' -> cu_resources w !! r = None -> cu_resources w' !! r = None.
Proof.
  intros Hq Hr. pose proof (quiet_resources _ _ Hq r) as H.
  rewrite Hr in H. apply fmap_None in H. exact H.
Qed.

Lemma draw_after_resize {T} dbg (x : list T) Nx Ny map this w this1 w1 :
  draw_resize Nx Ny this w = Done this1 w1 ->
  (forall w', final_world (draw dbg x Nx Ny map this w) = Some w' -> quiet w1 w') /\
  (forall this' w', draw dbg x Nx Ny map this w = Done this' w' -> this' = this1).
Proof.
  intros Hr. rewrite (draw_stages _ _ _ _ _ _ _ _ _ Hr). split.
  - intros w' H. eapply draw_frame_quiet. exact H.
  - intros this' w' H. eapply draw_frame_returns. exact H.
Qed.

Lemma quiet_live_buffer (w w' : World) (n : Z) :
  quiet w w' -> is_Some (gl_buffers w' !! n) -> is_Some (gl_buffers w !! n).
Proof.
  intros Hq Hn. pose proof (quiet_buffers _ _ Hq n) as H.
  apply (fmap_is_Some ds_bytes). rewrite <- H. apply fmap_is_Some. exact Hn.
Qed.

Lemma quiet_live_resource (w w' : World) (h : Z) :
  quiet w w' -> is_Some (cu_resources w' !! h) -> is_Some (cu_resources w !! h).
Proof.
  intros Hq Hh. pose proof (quiet_resources _ _ Hq h) as H.
  apply (fmap_is_Some reg_buffer). rewrite <- H. apply fmap_is_Some. exact Hh.
Qed.

(** A window on runtimes that recycle released names, after its first frame
    of 1 by 1, and the next frame, of 2 by 1. *)
Definition recycling_first_frame : Outcome DeviceWindow :=
  draw false [5] 1 1 tint
       (window_of (DeviceWindow_new 800 600 (boot true granting [])))
       (world_of (DeviceWindow_new 800 600 (boot true granting []))).

Definition recycling_resized_frame : Outcome DeviceWindow :=
  draw false [3; 4] 2 1 tint (window_of recycling_first_frame) (world_of recycling_first_frame).

(** Counterexample to C3 as stated: the runtimes hand out released names
    again.  The window is in [Bound(1,1)] with buffer 1 registered as handle
    1; the draw of 2 by 1 unregisters and deletes them, and the buffer it then
    generates and registers again carries the name 1 and the handle 1: the
    new handles are the old ones. *)
Lemma recycled_handles_are_not_distinct :
  window_of recycling_first_frame = mkWindow 1 1 1 1 /\
  Bound 1 1 (window_of recycling_first_frame) (world_of recycling_first_frame) /\
  (exists w2,
     recycling_resized_frame = Done (mkWindow 1 1 2 1) w2 /\
     trace w2 = trace (world_of recycling_first_frame)
                  ++ [CudaUnregister 1 cudaSuccess;
                      Print ("Allocate resources for drawing!" ++ newline);
                      GlDeleteBuffers 1;
                      GlGenBuffers 1; GlBindBuffer 1; GlBufferData 24 true;
                      CudaRegister 1 cudaSuccess 1;
                      CudaMap 1 cudaSuccess;
                      DeviceWrite 1 0 (tint 3); DeviceWrite 1 1 (tint 4);
                      CudaThreadSynchronize; CudaUnmap 1 cudaSuccess;
                      GlTexImage2D 2 1 1; GlLoadIdentity; GlQuads quad_vertices;
                      GlfwSwapBuffers]).
Proof.
  split; [vm_compute; reflexivity|]. split.
  - split; [vm_compute; reflexivity|].
    split; [vm_compute; reflexivity|].
    split; [split; [vm_compute; reflexivity | vm_compute; eexists; reflexivity]|].
    split; [vm_compute; reflexivity|].
    apply (bool_decide_unpack _). vm_compute. exact I.
  - eexists. split; vm_compute; reflexivity.
Qed.

(** C3 (amended).  From a state [Bound(w0,h0)], that is: the window records
    (w0,h0) and holds an unmapped registration of a live buffer object, that
    buffer object is the pixel-unpack binding, and the names of the runtimes
    are in order, a draw with other dimensions first unregisters the old
    registration and deletes the old graphics buffer and only then generates
    the new buffer.  The handles the window holds afterwards are in use by no
    other live buffer or registration, and differ from the old ones when the
    runtime does not recycle released names.  The old buffer is not leaked,
    with the new registration granted or refused: once the reallocation is
    done, which it is on every path, every buffer and registration that is
    live either was live before and is not the old one, or is the one the
    window now holds; when the registration is refused the window holds the
    null handle and the registrations are the former ones without the old.
    The rest of the call, returning or stopped by a failed assertion, creates
    and releases nothing. *)
Theorem draw_resize_releases_old_buffer {T} (DG_DEBUG : bool) (x : list T) (Nx Ny : Z)
    (map : T -> Color) (w0 h0 : Z) (this : DeviceWindow) (w : World) :
  Bound w0 h0 this w ->
  (Nx, Ny) <> (w0, h0) ->
  exists this1 w1 rest,
    draw_resize Nx Ny this w = Done this1 w1 /\
    trace w1 = trace w
                 ++ [CudaUnregister (resource this) cudaSuccess;
                     Print ("Allocate resources for drawing!" ++ newline);
                     GlDeleteBuffers (bufferID this);
                     GlGenBuffers (bufferID this1)]
                 ++ rest /\
    (forall n, n <> bufferID this -> is_Some (gl_buffers w !! n) -> bufferID this1 <> n) /\
    (forall h, h <> resource this -> is_Some (cu_resources w !! h) -> resource this1 <> h) /\
    (gl_recycles w = false -> bufferID this1 <> bufferID this) /\
    (cu_recycles w = false -> resource this1 <> resource this) /\
    (forall n, is_Some (gl_buffers w1 !! n) ->
               n = bufferID this1 \/ (n <> bufferID this /\ is_Some (gl_buffers w !! n))) /\
    (forall h, is_Some (cu_resources w1 !! h) ->
               h = resource this1 \/ (h <> resource this /\ is_Some (cu_resources w !! h))) /\
    is_Some (gl_buffers w1 !! bufferID this1) /\
    (if registration_granted w
     then cu_resources w1 !! resource this1 = Some (mkReg (bufferID this1) false)
     else resource this1 = NULL /\
          cu_resources w1 = delete (resource this) (cu_resources w)) /\
    (forall w', final_world (draw DG_DEBUG x Nx Ny map this w) = Some w' ->
       quiet w1 w' /\
       (forall n, is_Some (gl_buffers w' !! n) ->
                  n = bufferID this1 \/ (n <> bufferID this /\ is_Some (gl_buffers w !! n))) /\
       (forall h, is_Some (cu_resources w' !! h) ->
                  h = resource this1 \/ (h <> resource this /\ is_Some (cu_resources w !! h)))) /\
    (forall this' w', draw DG_DEBUG x Nx Ny map this w = Done this' w' -> this' = this1).
Proof.
  intros (HNx & HNy & [Hreg [ds Hbuf]] & Hbind & Hok) Hne.
  assert (Hc : dimensions_change Nx Ny this = true)
    by (apply dimensions_change_true; congruence).
  pose proof (draw_resize_reallocates Nx Ny this w Hc Hok) as Hr.
  pose proof (released_names_ok (resource this) w Hok) as Hok'.
  destruct (next_buffer_name_fresh _ Hok') as [Hnfresh Hnrange].
  destruct (next_handle_fresh _ Hok') as [Hhfresh Hhpos].
  destruct (next_buffer_name_fresh _ Hok) as [Hnfresh0 _].
  destruct (next_handle_fresh _ Hok) as [Hhfresh0 _].
  pose proof (null_unregistered _ Hok) as Hnull.
  destruct (draw_after_resize DG_DEBUG x Nx Ny map this w _ _ Hr) as [Hquiet Hsame].
  assert (Hbufs1 : gl_buffers (released (resource this) w) = delete (bufferID this) (gl_buffers w))
    by (unfold released; world_simpl; rewrite Hbind; reflexivity).
  assert (Hres1 : cu_resources (released (resource this) w) = delete (resource this) (cu_resources w))
    by reflexivity.
  rewrite Hbufs1 in Hnfresh. rewrite Hres1 in Hhfresh.
  eexists _, _, _. split; [exact Hr|].
  cbn [resource bufferID].
  split.
  { rewrite reallocation_trace. unfold reallocation_calls.
    rewrite Hreg, Hbind. reflexivity. }
  split.
  { intros n Hn [dn Hlive] Heq. rewrite Heq, lookup_delete_ne in Hnfresh by congruence.
    congruence. }
  split.
  { intros h Hh [rh Hlive]. unfold new_resource.
    destruct (registration_granted _).
    - intros Heq. rewrite Heq, lookup_delete_ne in Hhfresh by congruence. congruence.
    - intros Heq. rewrite <- Heq in Hlive. congruence. }
  split.
  { intros Hnr Heq. unfold next_buffer_name, released in Heq. world_simpl_in Heq.
    rewrite Hbind, Hbuf, Hnr in Heq. unfold next_buffer_name in Hnfresh0. congruence. }
  split.
  { intros Hnr. unfold new_resource. destruct (registration_granted _).
    - intros Heq. unfold next_handle, released in Heq. world_simpl_in Heq.
      rewrite Hreg, Hnr in Heq. unfold next_handle in Hhfresh0. congruence.
    - intros Heq. rewrite <- Heq in Hreg. congruence. }
  assert (Hlive1 : forall n,
            is_Some (gl_buffers (allocated (umul (umul 3 Nx) Ny) (released (resource this) w)) !! n) ->
            n = next_buffer_name (released (resource this) w) \/
            (n <> bufferID this /\ is_Some (gl_buffers w !! n))).
  { intros n Hn. rewrite allocated_buffers, Hbufs1 in Hn.
    apply lookup_insert_is_Some in Hn. destruct Hn as [Hn|[_ Hn]]; [left; congruence|].
    right. apply lookup_delete_is_Some in Hn. destruct Hn as [? ?]. split; congruence. }
  assert (Hlive2 : forall h,
            is_Some (cu_resources (allocated (umul (umul 3 Nx) Ny) (released (resource this) w)) !! h) ->
            h = new_resource (released (resource this) w) \/
            (h <> resource this /\ is_Some (cu_resources w !! h))).
  { intros h Hh. rewrite allocated_resources, Hres1 in Hh. unfold new_resource.
    destruct (registration_granted (released (resource this) w)).
    + apply lookup_insert_is_Some in Hh. destruct Hh as [Hh|[_ Hh]]; [left; congruence|].
      right. apply lookup_delete_is_Some in Hh. destruct Hh as [? ?]. split; congruence.
    + right. apply lookup_delete_is_Some in Hh. destruct Hh as [? ?]. split; congruence. }
  split; [exact Hlive1|]. split; [exact Hlive2|].
  split; [rewrite allocated_buffers, lookup_insert_eq; eauto|].
  split.
  { rewrite allocated_resources. unfold new_resource. rewrite released_keeps_faults.
    destruct (registration_granted w).
    - apply lookup_insert_eq.
    - split; [reflexivity | exact Hres1]. }
  split; [|exact Hsame].
  intros w' Hw'. apply Hquiet in Hw'. split; [exact Hw'|]. split.
  - intros n Hn. apply Hlive1. exact (quiet_live_buffer _ _ _ Hw' Hn).
  - intros h Hh. apply Hlive2. exact (quiet_live_resource _ _ _ Hw' Hh).
Qed.

(** After its first frame the window is in [Bound(1,1)]. *)
Lemma first_frame_Bound : Bound 1 1 (window_of first_frame) (world_of first_frame).
Proof.
  split; [vm_compute; reflexivity|].
  split; [vm_compute; reflexivity|].
  split; [split; [vm_compute; reflexivity | vm_compute; eexists; reflexivity]|].
  split; [vm_compute; reflexivity|].
  apply (bool_decide_unpack _). vm_compute. exact I.
Defined.

Lemma draw_resize_releases_old_buffer_witness :
  exists this1 w1 rest,
    draw_resize 2 1 (window_of first_frame) (world_of first_frame) = Done this1 w1 /\
    trace w1 = trace (world_of first_frame)
                 ++ [CudaUnregister (resource (window_of first_frame)) cudaSuccess;
                     Print ("Allocate resources for drawing!" ++ newline);
                     GlDeleteBuffers (bufferID (window_of first_frame));
                     GlGenBuffers (bufferID this1)]
                 ++ rest /\
    (forall n, n <> bufferID (window_of first_frame) ->
               is_Some (gl_buffers (world_of first_frame) !! n) -> bufferID this1 <> n) /\
    (forall h, h <> resource (window_of first_frame) ->
               is_Some (cu_resources (world_of first_frame) !! h) -> resource this1 <> h) /\
    (gl_recycles (world_of first_frame) = false ->
     bufferID this1 <> bufferID (window_of first_frame)) /\
    (cu_recycles (world_of first_frame) = false ->
     resource this1 <> resource (window_of first_frame)) /\
    (forall n, is_Some (gl_buffers w1 !! n) ->
               n = bufferID this1 \/
               (n <> bufferID (window_of first_frame) /\
                is_Some (gl_buffers (world_of first_frame) !! n))) /\
    (forall h, is_Some (cu_resources w1 !! h) ->
               h = resource this1 \/
               (h <> resource (window_of first_frame) /\
                is_Some (cu_resources (world_of first_frame) !! h))) /\
    is_Some (gl_buffers w1 !! bufferID this1) /\
    (if registration_granted (world_of first_frame)
     then cu_resources w1 !! resource this1 = Some (mkReg (bufferID this1) false)
     else resource this1 = NULL /\
          cu_resources w1 = delete (resource (window_of first_frame))
                              (cu_resources (world_of first_frame))) /\
    (forall w', final_world (draw true [3; 4] 2 1 tint (window_of first_frame) (world_of first_frame))
                  = Some w' ->
       quiet w1 w' /\
       (forall n, is_Some (gl_buffers w' !! n) ->
                  n = bufferID this1 \/
                  (n <> bufferID (window_of first_frame) /\
                   is_Some (gl_buffers (world_of first_frame) !! n))) /\
       (forall h, is_Some (cu_resources w' !! h) ->
                  h = resource this1 \/
                  (h <> resource (window_of first_frame) /\
                   is_Some (cu_resources (world_of first_frame) !! h)))) /\
    (forall this' w', draw true [3; 4] 2 1 tint (window_of first_frame) (world_of first_frame)
                        = Done this' w' -> this' = this1).
Proof.
  apply (draw_resize_releases_old_buffer true [3; 4] 2 1 tint 1 1
           (window_of first_frame) (world_of first_frame)).
  - exact first_frame_Bound.
  - intros H. discriminate H.
Defined.

(** A window whose second registration request will be refused, after its
    first frame of 1 by 1; the reallocation for 2 by 1 leaves the new buffer
    object and no registration: nothing of the old buffer is left. *)
Definition frame_before_refusal : Outcome DeviceWindow :=
  draw false [5] 1 1 tint
       (window_of (opened granting [cudaSuccess; cudaErrorUnknown]))
       (world_of (opened granting [cudaSuccess; cudaErrorUnknown])).

Example refused_resize_leaks_nothing :
  Bound 1 1 (window_of frame_before_refusal) (world_of frame_before_refusal) /\
  exists w1,
    draw_resize 2 1 (window_of frame_before_refusal) (world_of frame_before_refusal)
    = Done (mkWindow 2 NULL 2 1) w1 /\
    cu_resources w1 = ∅ /\
    gl_buffers w1 = {[ 2 := mkStore 24 ∅ ]} /\
    gl_unpack w1 = 2.
Proof.
  split.
  - split; [vm_compute; reflexivity|].
    split; [vm_compute; reflexivity|].
    split; [split; [vm_compute; reflexivity | vm_compute; eexists; reflexivity]|].
    split; [vm_compute; reflexivity|].
    apply (bool_decide_unpack _). vm_compute. exact I.
  - eexists. split; [vm_compute; reflexivity|].
    split; [vm_compute; reflexivity|]. split; vm_compute; reflexivity.
Qed.

(** ** The first draw *)

Lemma buffer_bytes (Nx Ny : Z) :
  size_mul (umul (umul 3 Nx) Ny) sizeof_float = 4 * ((3 * Nx * Ny) mod UINT_MOD).
Proof.
  unfold size_mul, umul, sizeof_float, SIZE_MOD, UINT_MOD.
  rewrite Z.mul_mod_idemp_l by lia.
  pose proof (Z.mod_pos_bound (3 * Nx * Ny) (2 ^ 32)) as Hm.
  rewrite Z.mod_small by lia. lia.
Qed.

(** Counterexample to C5 as stated: the first draw after construction with
    dimensions (0,0) returns without having allocated anything; the window
    still holds the null handle, and no buffer object and no registration
    exist afterwards.  And a first draw of 65536 by 65536 allocates a buffer
    of no float at all, [3*65536*65536] being 0 in unsigned arithmetic. *)
Lemma first_draw_of_empty_size_allocates_nothing :
  (exists w',
     draw false ([] : list Z) 0 0 tint (window_of (opened granting [])) (world_of (opened granting []))
       = Done (mkWindow 0 NULL 0 0) w' /\
     gl_buffers w' = ∅ /\
     cu_resources w' = ∅ /\
     existsb is_allocation (trace w') = false) /\
  (exists w1,
     draw_resize 65536 65536 (window_of (opened granting [])) (world_of (opened granting []))
       = Done (mkWindow 1 1 65536 65536) w1 /\
     gl_buffers w1 !! 1 = Some (mkStore 0 ∅)).
Proof.
  split.
  - eexists. split; [vm_compute; reflexivity|].
    split; [vm_compute; reflexivity|]. split; vm_compute; reflexivity.
  - eexists. split; vm_compute; reflexivity.
Qed.

(** C5 (amended).  The first draw after construction, in the state
    [Uninitialized]: the window is as the constructor left it, nothing is
    bound as pixel-unpack source, and the names of the runtimes are in order.
    With dimensions other than (0,0) the window requests a fresh graphics
    buffer of [3*Nx*Ny mod 2^32] floats and a registration for it, and
    releases nothing: the unregister and delete calls it issues name the null
    handle and buffer 0 and leave every buffer and registration in place.  The
    rest of the call allocates and releases nothing.  With dimensions (0,0)
    the dimension check changes nothing and the whole call allocates and
    releases nothing. *)
Theorem first_draw_allocates_and_releases_nothing {T} (DG_DEBUG : bool) (x : list T)
    (Nx Ny : Z) (map : T -> Color) (this : DeviceWindow) (w : World) :
  Uninitialized this w ->
  (Nx, Ny) <> (0, 0) ->
  exists this1 w1,
    draw_resize Nx Ny this w = Done this1 w1 /\
    trace w1 = trace w
                 ++ [CudaUnregister NULL cudaErrorInvalidResourceHandle;
                     Print ("Allocate resources for drawing!" ++ newline);
                     GlDeleteBuffers 0;
                     GlGenBuffers (bufferID this1);
                     GlBindBuffer (bufferID this1);
                     GlBufferData (4 * ((3 * Nx * Ny) mod UINT_MOD))
                                  (gl_store_fits w (4 * ((3 * Nx * Ny) mod UINT_MOD)));
                     CudaRegister (bufferID this1) (hd cudaSuccess (cu_faults w)) (resource this1)]
                 ++ (if registration_granted w then []
                     else [Print (cudaGetErrorString (hd cudaSuccess (cu_faults w)))]) /\
    gl_buffers w !! bufferID this1 = None /\
    gl_buffers w1 = <[bufferID this1 := new_store (4 * ((3 * Nx * Ny) mod UINT_MOD)) w]> (gl_buffers w) /\
    cu_resources w1 = (if registration_granted w
                       then <[resource this1 := mkReg (bufferID this1) false]> (cu_resources w)
                       else cu_resources w) /\
    (if registration_granted w
     then cu_resources w !! resource this1 = None
     else resource this1 = NULL) /\
    (forall w', final_world (draw DG_DEBUG x Nx Ny map this w) = Some w' -> quiet w1 w') /\
    (forall this' w', draw DG_DEBUG x Nx Ny map this w = Done this' w' -> this' = this1) /\
    draw_resize 0 0 this w = Done this w /\
    (forall w', final_world (draw DG_DEBUG x 0 0 map this w) = Some w' -> quiet w w').
Proof.
  intros (-> & Hun0 & Hok) Hne.
  assert (Hc : dimensions_change Nx Ny (mkWindow 0 NULL 0 0) = true)
    by (apply dimensions_change_true; exact Hne).
  pose proof (draw_resize_reallocates Nx Ny _ w Hc Hok) as Hr.
  pose proof (null_unregistered w Hok) as Hnull.
  destruct (next_buffer_name_fresh _ Hok) as [Hfresh _].
  destruct (next_handle_fresh _ Hok) as [Hnext _].
  assert (Hzero : gl_buffers w !! 0 = None).
  { destruct Hok as (_ & _ & _ & Hbufs & _).
    destruct (gl_buffers w !! 0) eqn:H0; [|reflexivity].
    pose proof (Hbufs _ _ H0) as Hb. simpl in Hb. lia. }
  destruct (draw_after_resize DG_DEBUG x Nx Ny map _ w _ _ Hr) as [Hquiet Hsame].
  cbn [resource] in *.
  assert (Hrel : released NULL w
                 = logs [CudaUnregister NULL cudaErrorInvalidResourceHandle;
                         Print ("Allocate resources for drawing!" ++ newline);
                         GlDeleteBuffers 0] w).
  { unfold released. rewrite Hnull, Hun0, Hzero. world_ext.
    - apply delete_id, Hzero.
    - congruence.
    - apply delete_id, Hnull. }
  assert (Hname : next_buffer_name (released NULL w) = next_buffer_name w)
    by (rewrite Hrel; reflexivity).
  assert (Hhandle : new_resource (released NULL w) = new_resource w)
    by (rewrite Hrel; reflexivity).
  rewrite Hname, Hhandle in Hr, Hsame.
  eexists _, _. split; [exact Hr|].
  cbn [resource bufferID].
  split.
  { rewrite reallocation_trace. unfold reallocation_calls.
    rewrite Hnull, Hun0, buffer_bytes, Hname, Hhandle. reflexivity. }
  split; [exact Hfresh|].
  split.
  { rewrite allocated_buffers, Hname, buffer_bytes, Hrel. reflexivity. }
  split.
  { rewrite allocated_resources, Hname, Hrel. unfold new_resource.
    change (registration_granted (logs _ w)) with (registration_granted w).
    change (next_handle (logs _ w)) with (next_handle w).
    destruct (registration_granted w); reflexivity. }
  split; [unfold new_resource; destruct (registration_granted w); [exact Hnext | reflexivity]|].
  split; [exact Hquiet|]. split; [exact Hsame|].
  assert (Hkeep : draw_resize 0 0 (mkWindow 0 NULL 0 0) w = Done (mkWindow 0 NULL 0 0) w)
    by (apply draw_resize_keeps; reflexivity).
  split; [exact Hkeep|].
  intros w' Hw'. rewrite (draw_stages _ _ _ _ _ _ _ _ _ Hkeep) in Hw'.
  eapply draw_frame_quiet. exact Hw'.
Qed.

Lemma first_draw_allocates_and_releases_nothing_witness :
  exists this1 w1,
    draw_resize 1 1 (window_of (opened granting [])) (world_of (opened granting [])) = Done this1 w1 /\
    trace w1 = trace (world_of (opened granting []))
                 ++ [CudaUnregister NULL cudaErrorInvalidResourceHandle;
                     Print ("Allocate resources for drawing!" ++ newline);
                     GlDeleteBuffers 0;
                     GlGenBuffers (bufferID this1);
                     GlBindBuffer (bufferID this1);
                     GlBufferData (4 * ((3 * 1 * 1) mod UINT_MOD))
                                  (gl_store_fits (world_of (opened granting []))
                                     (4 * ((3 * 1 * 1) mod UINT_MOD)));
                     CudaRegister (bufferID this1)
                                  (hd cudaSuccess (cu_faults (world_of (opened granting []))))
                                  (resource this1)]
                 ++ (if registration_granted (world_of (opened granting [])) then []
                     else [Print (cudaGetErrorString
                                    (hd cudaSuccess (cu_faults (world_of (opened granting [])))))]) /\
    gl_buffers (world_of (opened granting [])) !! bufferID this1 = None /\
    gl_buffers w1 = <[bufferID this1 := new_store (4 * ((3 * 1 * 1) mod UINT_MOD))
                                          (world_of (opened granting []))]>
                      (gl_buffers (world_of (opened granting []))) /\
    cu_resources w1 = (if registration_granted (world_of (opened granting []))
                       then <[resource this1 := mkReg (bufferID this1) false]>
                              (cu_resources (world_of (opened granting [])))
                       else cu_resources (world_of (opened granting []))) /\
    (if registration_granted (world_of (opened granting []))
     then cu_resources (world_of (opened granting [])) !! resource this1 = None
     else resource this1 = NULL) /\
    (forall w', final_world (draw false [5] 1 1 tint (window_of (opened granting []))
                               (world_of (opened granting []))) = Some w' -> quiet w1 w') /\
    (forall this' w', draw false [5] 1 1 tint (window_of (opened granting []))
                        (world_of (opened granting [])) = Done this' w' -> this' = this1) /\
    draw_resize 0 0 (window_of (opened granting [])) (world_of (opened granting []))
    = Done (window_of (opened granting [])) (world_of (opened granting [])) /\
    (forall w', final_world (draw false [5] 0 0 tint (window_of (opened granting []))
                               (world_of (opened granting []))) = Some w' ->
                quiet (world_of (opened granting [])) w').
Proof.
  apply (first_draw_allocates_and_releases_nothing false [5] 1 1 tint
           (window_of (opened granting [])) (world_of (opened granting []))).
  - split; [reflexivity|]. split; [reflexivity|].
    apply (bool_decide_unpack _). vm_compute. exact I.
  - intros H. discriminate H.
Defined.

(** ** Failures of the allocator *)

(** Counterexample to C6 as stated: the graphics runtime cannot create the
    data store (the [glBufferData] call fails), and [allocateGlBuffer] returns
    the buffer name and [allocateCudaGlBuffer] a registration handle as if
    nothing had happened; the buffer object has no storage. *)
Lemma allocator_ignores_failed_buffer_creation :
  (exists w1,
     allocateGlBuffer 3 (power_on refusing []) = Done 1 w1 /\
     trace w1 = [GlGenBuffers 1; GlBindBuffer 1; GlBufferData 12 false]) /\
  (exists w2,
     allocateCudaGlBuffer 3 (power_on refusing []) = Done 1 w2 /\
     trace w2 = [GlGenBuffers 1; GlBindBuffer 1; GlBufferData 12 false; CudaRegister 1 cudaSuccess 1] /\
     gl_buffers w2 !! 1 = Some empty_store /\
     cu_resources w2 !! 1 = Some (mkReg 1 false)).
Proof.
  split.
  - eexists. split; vm_compute; reflexivity.
  - eexists. split; [vm_compute; reflexivity|].
    split; [vm_compute; reflexivity|]. split; vm_compute; reflexivity.
Qed.

(** C6 (amended).  With the names of the runtimes in order,
    [allocateCudaGlBuffer] reports a failure, by returning the null handle
    after printing the error string of the registration request, exactly when
    the cross-runtime registration fails; the outcome of the graphics buffer
    creation is not looked at: the calls issued are the generation, the
    binding and the data store request of the buffer, the registration
    request, and, when that one fails, the print.  When the registration fails the graphics buffer created for it
    is still there and is the pixel-unpack binding, so the caller can get hold
    of it and delete it, which leaves the buffer objects as they were before
    the call.  When the registration succeeds the handle returned is a
    registration of that buffer, not mapped. *)
Theorem allocateCudaGlBuffer_fails_with_registration (N : Z) (w : World) :
  names_ok w ->
  exists r w',
    allocateCudaGlBuffer N w = Done r w' /\
    (r = NULL <-> registration_granted w = false) /\
    trace w' = trace w
                 ++ [GlGenBuffers (gl_unpack w'); GlBindBuffer (gl_unpack w');
                     GlBufferData (size_mul N sizeof_float)
                                  (gl_store_fits w (size_mul N sizeof_float));
                     CudaRegister (gl_unpack w') (hd cudaSuccess (cu_faults w)) r]
                 ++ (if registration_granted w then []
                     else [Print (cudaGetErrorString (hd cudaSuccess (cu_faults w)))]) /\
    gl_buffers w !! gl_unpack w' = None /\
    is_Some (gl_buffers w' !! gl_unpack w') /\
    (if registration_granted w
     then cu_resources w' !! r = Some (mkReg (gl_unpack w') false)
     else cu_resources w' = cu_resources w /\
          exists w'', (do id <- glGetIntegerv_unpack_binding;
                       glDeleteBuffers (GLuint_of_GLint id)) w' = Done tt w'' /\
                      gl_buffers w'' = gl_buffers w).
Proof.
  intros Hok.
  destruct (next_buffer_name_fresh _ Hok) as [Hfresh Hrange].
  destruct (next_handle_fresh _ Hok) as [Hhfresh Hhpos].
  exists (new_resource w), (allocated N w).
  split; [apply allocateCudaGlBuffer_runs; [exact Hfresh | lia]|].
  assert (Hbound : gl_unpack (allocated N w) = next_buffer_name w).
  { unfold allocated, registration_answered, buffer_created.
    destruct (registration_granted _); reflexivity. }
  assert (Htrace : trace (allocated N w)
            = trace w
                ++ [GlGenBuffers (next_buffer_name w); GlBindBuffer (next_buffer_name w);
                    GlBufferData (size_mul N sizeof_float)
                                 (gl_store_fits w (size_mul N sizeof_float));
                    CudaRegister (next_buffer_name w) (hd cudaSuccess (cu_faults w))
                                 (new_resource w)]
                ++ (if registration_granted w then []
                    else [Print (cudaGetErrorString (hd cudaSuccess (cu_faults w)))])).
  { unfold allocated. rewrite registration_answered_trace, buffer_created_trace.
    rewrite <- !app_assoc. reflexivity. }
  rewrite Hbound, allocated_buffers, allocated_resources, Htrace. unfold new_resource.
  split; [|split; [reflexivity | split; [exact Hfresh | split; [rewrite lookup_insert_eq; eauto|]]]].
  - destruct (registration_granted w); unfold NULL; split; intros; try discriminate; try lia; auto.
  - destruct (registration_granted w).
    + apply lookup_insert_eq.
    + split; [reflexivity|].
      unfold bind, glGetIntegerv_unpack_binding, glDeleteBuffers.
      rewrite Hbound, GLuint_round_trip by lia.
      rewrite allocated_buffers, lookup_insert_eq. eexists. split; [reflexivity|].
      world_simpl. apply delete_insert_id, Hfresh.
Qed.

Lemma allocateCudaGlBuffer_fails_with_registration_witness :
  exists r w',
    allocateCudaGlBuffer 3 (power_on granting [cudaErrorUnknown]) = Done r w' /\
    (r = NULL <-> registration_granted (power_on granting [cudaErrorUnknown]) = false) /\
    trace w' = trace (power_on granting [cudaErrorUnknown])
                 ++ [GlGenBuffers (gl_unpack w'); GlBindBuffer (gl_unpack w');
                     GlBufferData (size_mul 3 sizeof_float)
                                  (gl_store_fits (power_on granting [cudaErrorUnknown])
                                     (size_mul 3 sizeof_float));
                     CudaRegister (gl_unpack w')
                                  (hd cudaSuccess (cu_faults (power_on granting [cudaErrorUnknown]))) r]
                 ++ (if registration_granted (power_on granting [cudaErrorUnknown]) then []
                     else [Print (cudaGetErrorString
                                    (hd cudaSuccess (cu_faults (power_on granting [cudaErrorUnknown]))))]) /\
    gl_buffers (power_on granting [cudaErrorUnknown]) !! gl_unpack w' = None /\
    is_Some (gl_buffers w' !! gl_unpack w') /\
    (if registration_granted (power_on granting [cudaErrorUnknown])
     then cu_resources w' !! r = Some (mkReg (gl_unpack w') false)
     else cu_resources w' = cu_resources (power_on granting [cudaErrorUnknown]) /\
          exists w'', (do id <- glGetIntegerv_unpack_binding;
                       glDeleteBuffers (GLuint_of_GLint id)) w' = Done tt w'' /\
                      gl_buffers w'' = gl_buffers (power_on granting [cudaErrorUnknown])).
Proof.
  apply (allocateCudaGlBuffer_fails_with_registration 3 (power_on granting [cudaErrorUnknown])).
  apply (bool_decide_unpack _). vm_compute. exact I.
Defined.

(** ** A draw whose registration fails *)

(** A window whose first registration request will be refused, and the frame
    drawn there: an empty field of width 0 and height 1. *)
Definition refused_frame : Outcome DeviceWindow :=
  draw false ([] : list Z) 0 1 tint
       (window_of (opened granting [cudaErrorUnknown]))
       (world_of (opened granting [cudaErrorUnknown])).

Definition retried_frame : Outcome DeviceWindow :=
  draw false ([] : list Z) 0 1 tint (window_of refused_frame) (world_of refused_frame).

(** The refused frame of an empty field in a release build, and the frame
    after it: both are presented, the window still holding the null handle,
    and the second one makes no attempt to allocate. *)
Example failed_registration_frame_is_presented :
  (exists w1,
     refused_frame = Done (mkWindow 1 NULL 0 1) w1 /\
     trace w1 = [CudaGlfwInit 800 600; GlClear; GlfwSetWindowSizeCallback;
                 CudaUnregister 0 cudaErrorInvalidResourceHandle;
                 Print ("Allocate resources for drawing!" ++ newline);
                 GlDeleteBuffers 0; GlGenBuffers 1; GlBindBuffer 1; GlBufferData 0 true;
                 CudaRegister 1 cudaErrorUnknown 0; Print "unknown error";
                 CudaMap 0 cudaErrorInvalidResourceHandle; CudaThreadSynchronize;
                 CudaUnmap 0 cudaErrorInvalidResourceHandle;
                 GlTexImage2D 0 1 1; GlLoadIdentity; GlQuads quad_vertices; GlfwSwapBuffers]) /\
  (exists w2,
     retried_frame = Done (mkWindow 1 NULL 0 1) w2 /\
     trace w2 = trace (world_of refused_frame)
                  ++ [CudaMap 0 cudaErrorInvalidResourceHandle; CudaThreadSynchronize;
                      CudaUnmap 0 cudaErrorInvalidResourceHandle;
                      GlTexImage2D 0 1 1; GlLoadIdentity; GlQuads quad_vertices; GlfwSwapBuffers]).
Proof.
  split; eexists; split; vm_compute; reflexivity.
Qed.

Lemma released_buffers (r : Z) (w : World) :
  gl_buffers (released r w) = delete (gl_unpack w) (gl_buffers w).
Proof. reflexivity. Qed.

Lemma released_resources (r : Z) (w : World) :
  cu_resources (released r w) = delete r (cu_resources w).
Proof. reflexivity. Qed.

(** The window and the world a draw with new dimensions leaves when the
    registration is refused. *)
Lemma refused_reallocation (N r : Z) (w : World) :
  names_ok w ->
  registration_granted w = false ->
  new_resource (released r w) = NULL /\
  cu_resources (allocated N (released r w)) !! NULL = None /\
  is_Some (gl_buffers (allocated N (released r w)) !! next_buffer_name (released r w)).
Proof.
  intros Hok Hfail. split; [|split].
  - unfold new_resource. rewrite released_keeps_faults, Hfail. reflexivity.
  - rewrite allocated_resources, released_keeps_faults, Hfail, released_resources.
    apply lookup_delete_None. right. apply null_unregistered, Hok.
  - rewrite allocated_buffers, lookup_insert_eq. eauto.
Qed.

(** The dimension check of a draw whose registration request is refused. *)
Lemma refused_draw_resize (Nx Ny : Z) (this : DeviceWindow) (w : World) :
  names_ok w ->
  (Nx, Ny) <> (Nx_ this, Ny_ this) ->
  registration_granted w = false ->
  exists b1 w1 before,
    draw_resize Nx Ny this w = Done (mkWindow b1 NULL Nx Ny) w1 /\
    cu_resources w1 !! NULL = None /\
    gl_unpack w1 = b1 /\
    trace w1 = before ++ [CudaRegister b1 (hd cudaSuccess (cu_faults w)) NULL;
                          Print (cudaGetErrorString (hd cudaSuccess (cu_faults w)))].
Proof.
  intros Hok Hne Hfail.
  pose proof (draw_resize_reallocates Nx Ny this w (dimensions_change_true _ _ _ Hne) Hok) as Hr.
  destruct (refused_reallocation (umul (umul 3 Nx) Ny) (resource this) w Hok Hfail)
    as (Hnull & Hnone & _).
  pose proof (reallocation_trace (umul (umul 3 Nx) Ny) (resource this) w) as Htrace.
  unfold reallocation_calls in Htrace. rewrite Hfail, Hnull in Htrace.
  pose proof (allocated_unpack (umul (umul 3 Nx) Ny) (released (resource this) w)) as Hbind.
  rewrite Hnull in Hr.
  set (w1 := allocated (umul (umul 3 Nx) Ny) (released (resource this) w)) in *. clearbody w1.
  set (b1 := next_buffer_name (released (resource this) w)) in *. clearbody b1.
  exists b1, w1. eexists.
  split; [exact Hr|]. split; [exact Hnone|]. split; [exact Hbind|].
  rewrite Htrace.
  rewrite (app_assoc (trace w) _ [Print _]).
  rewrite <- (app_assoc (trace w)).
  change ([?a; ?b; ?c; ?d; ?e; ?f; ?g] ++ [?h]) with ([a; b; c; d; e; f] ++ [g; h]).
  rewrite app_assoc. reflexivity.
Qed.

(** C7 (the code does not do what the claim says).  When the registration
    request of a draw with new dimensions is refused, [allocateCudaGlBuffer]
    prints the error and returns the null handle, and the draw stores it
    without looking at it (the destructor does look: it tests the handle
    before it unregisters).  The frame is not dropped: the window has
    recorded the new dimensions, and the call goes on to the transform stage
    on the null handle and from there to the presentation.  In a debug build,
    and for every non-empty field, this is undefined behaviour; for an empty
    field in a release build the texture is uploaded, the quad drawn and the
    buffers swapped.  And no later draw with these dimensions attempts the
    allocation again: its dimension check changes nothing. *)
Theorem draw_goes_on_after_refused_registration {T} (DG_DEBUG : bool) (x : list T)
    (Nx Ny : Z) (map : T -> Color) (this : DeviceWindow) (w : World) :
  names_ok w ->
  (Nx, Ny) <> (Nx_ this, Ny_ this) ->
  registration_granted w = false ->
  exists this1 w1 before,
    draw_resize Nx Ny this w = Done this1 w1 /\
    resource this1 = NULL /\
    Nx_ this1 = Nx /\ Ny_ this1 = Ny /\
    trace w1 = before ++ [CudaRegister (bufferID this1) (hd cudaSuccess (cu_faults w)) NULL;
                          Print (cudaGetErrorString (hd cudaSuccess (cu_faults w)))] /\
    draw DG_DEBUG x Nx Ny map this w
    = (mapColors DG_DEBUG map x NULL ;; draw_present Nx Ny ;; ret this1) w1 /\
    (if DG_DEBUG
     then draw DG_DEBUG x Nx Ny map this w = Undefined
     else match x with
          | [] =>
              exists w',
                draw DG_DEBUG x Nx Ny map this w = Done this1 w' /\
                trace w' = trace w1
                             ++ [CudaMap NULL cudaErrorInvalidResourceHandle;
                                 CudaThreadSynchronize;
                                 CudaUnmap NULL cudaErrorInvalidResourceHandle]
                             ++ presentation_calls Nx Ny (bufferID this1)
          | _ :: _ => draw DG_DEBUG x Nx Ny map this w = Undefined
          end) /\
    (forall w2, draw_resize Nx Ny this1 w2 = Done this1 w2).
Proof.
  intros Hok Hne Hfail.
  destruct (refused_draw_resize Nx Ny this w Hok Hne Hfail)
    as (b1 & w1 & before & Hr & Hnone & Hbind & Htrace).
  pose proof (draw_stages DG_DEBUG x Nx Ny map _ _ _ _ Hr) as Hdraw.
  unfold draw_frame in Hdraw. cbn [resource] in Hdraw.
  exists (mkWindow b1 NULL Nx Ny), w1, before.
  cbn [resource bufferID Nx_ Ny_].
  split; [exact Hr|]. split; [reflexivity|]. split; [reflexivity|]. split; [reflexivity|].
  split; [exact Htrace|].
  split; [exact Hdraw|].
  split.
  - unfold bind at 1 in Hdraw.
    rewrite (mapColors_unregistered DG_DEBUG map x NULL w1 Hnone) in Hdraw.
    destruct DG_DEBUG; [exact Hdraw|]. destruct x; [|exact Hdraw].
    unfold bind at 1 in Hdraw. rewrite draw_present_runs in Hdraw. unfold ret in Hdraw.
    eexists. split; [exact Hdraw|].
    unfold presented, presentation_calls. world_simpl. rewrite Hbind, <- !app_assoc. reflexivity.
  - intros w2. apply draw_resize_keeps. apply dimensions_change_false. split; reflexivity.
Qed.

Lemma draw_goes_on_after_refused_registration_witness :
  exists this1 w1 before,
    draw_resize 1 1 (window_of (opened granting [cudaErrorUnknown]))
                (world_of (opened granting [cudaErrorUnknown])) = Done this1 w1 /\
    resource this1 = NULL /\
    Nx_ this1 = 1 /\ Ny_ this1 = 1 /\
    trace w1 = before ++ [CudaRegister (bufferID this1)
                            (hd cudaSuccess (cu_faults (world_of (opened granting [cudaErrorUnknown]))))
                            NULL;
                          Print (cudaGetErrorString
                                   (hd cudaSuccess
                                       (cu_faults (world_of (opened granting [cudaErrorUnknown])))))] /\
    draw false [5] 1 1 tint (window_of (opened granting [cudaErrorUnknown]))
         (world_of (opened granting [cudaErrorUnknown]))
    = (mapColors false tint [5] NULL ;; draw_present 1 1 ;; ret this1) w1 /\
    (if false
     then draw false [5] 1 1 tint (window_of (opened granting [cudaErrorUnknown]))
               (world_of (opened granting [cudaErrorUnknown])) = Undefined
     else match [5] with
          | [] =>
              exists w',
                draw false [5] 1 1 tint (window_of (opened granting [cudaErrorUnknown]))
                     (world_of (opened granting [cudaErrorUnknown])) = Done this1 w' /\
                trace w' = trace w1
                             ++ [CudaMap NULL cudaErrorInvalidResourceHandle;
                                 CudaThreadSynchronize;
                                 CudaUnmap NULL cudaErrorInvalidResourceHandle]
                             ++ presentation_calls 1 1 (bufferID this1)
          | _ :: _ => draw false [5] 1 1 tint (window_of (opened granting [cudaErrorUnknown]))
                           (world_of (opened granting [cudaErrorUnknown])) = Undefined
          end) /\
    (forall w2, draw_resize 1 1 this1 w2 = Done this1 w2).
Proof.
  apply (draw_goes_on_after_refused_registration false [5] 1 1 tint
           (window_of (opened granting [cudaErrorUnknown]))
           (world_of (opened granting [cudaErrorUnknown]))).
  - apply (bool_decide_unpack _). vm_compute. exact I.
  - vm_compute. intros H. discriminate H.
  - reflexivity.
Defined.

(** ** The debug-build size check *)

(** Counterexample to C8 as stated, in a debug build on a fresh window drawn
    at 1 by 1 (a buffer of 3 floats): a field of one element, which is not
    3*1*1 elements, passes the check and the call returns; a field of three
    elements, which is 3*1*1, fails the check. *)
Lemma debug_check_is_not_against_three_times_the_size :
  ((size_of [5] =? 3 * 1 * 1) = false /\
   exists this' w',
     draw true [5] 1 1 tint (window_of (opened granting [])) (world_of (opened granting []))
     = Done this' w') /\
  ((size_of [5; 6; 7] =? 3 * 1 * 1) = true /\
   exists w',
     draw true [5; 6; 7] 1 1 tint (window_of (opened granting [])) (world_of (opened granting []))
     = Aborted w').
Proof.
  split; (split; [reflexivity|]).
  - eexists _, _. vm_compute. reflexivity.
  - eexists. vm_compute. reflexivity.
Qed.

Lemma pixel_count_of_bytes (Nx Ny : Z) :
  0 <= Nx -> 0 <= Ny -> 3 * Nx * Ny < UINT_MOD ->
  size_mul (umul (umul 3 Nx) Ny) sizeof_float / 3 / sizeof_float = Nx * Ny.
Proof.
  intros HNx HNy Hsmall. rewrite buffer_bytes. unfold sizeof_float.
  rewrite Z.mod_small by (split; [nia | exact Hsmall]).
  rewrite Z.div_div by lia.
  replace (4 * (3 * Nx * Ny)) with (Nx * Ny * (3 * 4)) by lia.
  apply Z.div_mul. lia.
Qed.

(** C8 (amended).  In a debug build the assertion of the transform stage,
    run on an available shared buffer, fails exactly when the number of field
    elements differs from the mapped size in bytes divided by 3 and by
    [sizeof(float)]; for a buffer allocated by [draw] for [Nx] by [Ny] with
    [3*Nx*Ny < 2^32] that number is [Nx*Ny].  In a release build no check is
    made: the transform stage never stops in an assertion. *)
Theorem debug_check_compares_with_pixel_count {T} (map : T -> Color) (x : list T)
    (res b : Z) (ds : DataStore) (Nx Ny : Z) (w : World) :
  cu_resources w !! res = Some (mkReg b false) ->
  gl_buffers w !! b = Some ds ->
  ds_bytes ds = size_mul (umul (umul 3 Nx) Ny) sizeof_float ->
  0 <= Nx -> 0 <= Ny -> 3 * Nx * Ny < UINT_MOD ->
  ((exists w', mapColors true map x res w = Aborted w') <->
   size_of x <> ds_bytes ds / 3 / sizeof_float) /\
  ds_bytes ds / 3 / sizeof_float = Nx * Ny /\
  (forall w', mapColors false map x res w <> Aborted w').
Proof.
  intros Hr Hb Hbytes HNx HNy Hsmall.
  rewrite !(mapColors_registered map _ x res b false w ds Hr Hb).
  unfold size_matches. cbn [andb].
  split; [|split].
  - destruct (Z.eqb_spec (size_of x) (ds_bytes ds / 3 / sizeof_float)) as [Heq|Hne]; cbn [negb].
    + split; [|contradiction].
      intros [w' H]. destruct (has_room x ds); discriminate.
    + split; [auto|]. intros _. eexists. reflexivity.
  - rewrite Hbytes. apply pixel_count_of_bytes; assumption.
  - intros w'. destruct (has_room x ds); discriminate.
Qed.

Lemma debug_check_compares_with_pixel_count_witness :
  ((exists w', mapColors true tint [5; 6; 7] 1
                 (world_of (allocateCudaGlBuffer 3 (power_on granting []))) = Aborted w') <->
   size_of [5; 6; 7] <> ds_bytes (mkStore 12 ∅) / 3 / sizeof_float) /\
  ds_bytes (mkStore 12 ∅) / 3 / sizeof_float = 1 * 1 /\
  (forall w', mapColors false tint [5; 6; 7] 1
                (world_of (allocateCudaGlBuffer 3 (power_on granting []))) <> Aborted w').
Proof.
  apply (debug_check_compares_with_pixel_count tint [5; 6; 7] 1 1 (mkStore 12 ∅) 1 1
           (world_of (allocateCudaGlBuffer 3 (power_on granting [])))).
  - vm_compute. reflexivity.
  - vm_compute. reflexivity.
  - vm_compute. reflexivity.
  - lia.
  - lia.
  - vm_compute. reflexivity.
Defined.

(** ** The end of a window *)

Lemma quiet_keeps_live_buffer (w w' : World) (n : Z) :
  quiet w w' -> is_Some (gl_buffers w !! n) -> is_Some (gl_buffers w' !! n).
Proof.
  intros Hq Hn. pose proof (quiet_buffers _ _ Hq n) as H.
  apply (fmap_is_Some ds_bytes). rewrite H. apply fmap_is_Some. exact Hn.
Qed.

(** X1.  The destructor of a window that holds a shared buffer gives both
    halves back, the registration first: it unregisters the window's handle,
    deletes the window's buffer object and terminates the windowing library.
    Afterwards that registration and that buffer object are gone, nothing is
    bound as pixel-unpack source, and every other buffer object and
    registration is as before. *)
Theorem destructor_releases_shared_buffer (w0 h0 : Z) (this : DeviceWindow) (w : World) :
  Bound w0 h0 this w ->
  exists w',
    DeviceWindow_delete this w = Done tt w' /\
    trace w' = trace w ++ [CudaUnregister (resource this) cudaSuccess;
                           GlDeleteBuffers (bufferID this); GlfwTerminate] /\
    gl_buffers w' = delete (bufferID this) (gl_buffers w) /\
    cu_resources w' = delete (resource this) (cu_resources w) /\
    gl_unpack w' = 0.
Proof.
  intros (_ & _ & [Hreg [ds Hbuf]] & Hbind & Hok).
  assert (Hnz : (resource this =? NULL) = false).
  { apply Z.eqb_neq. intros Heq. rewrite Heq, (null_unregistered w Hok) in Hreg. discriminate. }
  unfold DeviceWindow_delete. rewrite Hnz. cbn [negb].
  unfold bind, cudaGraphicsUnregisterResource, glDeleteBuffers, glfwTerminate, emit.
  rewrite Hreg. world_simpl. rewrite Hbuf.
  eexists. split; [reflexivity|]. world_simpl.
  split; [rewrite <- !app_assoc; reflexivity|].
  split; [reflexivity|]. split; [reflexivity|].
  rewrite Hbind, Z.eqb_refl. reflexivity.
Qed.

Lemma destructor_releases_shared_buffer_witness :
  exists w',
    DeviceWindow_delete (window_of first_frame) (world_of first_frame) = Done tt w' /\
    trace w' = trace (world_of first_frame)
                 ++ [CudaUnregister (resource (window_of first_frame)) cudaSuccess;
                     GlDeleteBuffers (bufferID (window_of first_frame)); GlfwTerminate] /\
    gl_buffers w' = delete (bufferID (window_of first_frame)) (gl_buffers (world_of first_frame)) /\
    cu_resources w' = delete (resource (window_of first_frame)) (cu_resources (world_of first_frame)) /\
    gl_unpack w' = 0.
Proof.
  apply (destructor_releases_shared_buffer 1 1 (window_of first_frame) (world_of first_frame)).
  exact first_frame_Bound.
Defined.

(** X2.  The destructor releases the buffer object only together with the
    registration.  After a draw whose registration request was refused the
    window holds the null handle and the buffer object created for that
    request, still live and bound; the destructor run in that state issues no
    delete call for it: its one and only call is the termination of the
    windowing library. *)
Theorem destructor_keeps_buffer_of_refused_registration {T} (DG_DEBUG : bool) (x : list T)
    (Nx Ny : Z) (map : T -> Color) (this this' : DeviceWindow) (w w' : World) :
  names_ok w ->
  (Nx, Ny) <> (Nx_ this, Ny_ this) ->
  registration_granted w = false ->
  draw DG_DEBUG x Nx Ny map this w = Done this' w' ->
  resource this' = NULL /\
  is_Some (gl_buffers w' !! bufferID this') /\
  gl_unpack w' = bufferID this' /\
  exists w'',
    DeviceWindow_delete this' w' = Done tt w'' /\
    trace w'' = trace w' ++ [GlfwTerminate].
Proof.
  intros Hok Hne Hfail Hrun.
  pose proof (draw_resize_reallocates Nx Ny this w (dimensions_change_true _ _ _ Hne) Hok) as Hr.
  rewrite (draw_stages _ _ _ _ _ _ _ _ _ Hr) in Hrun.
  pose proof (draw_frame_returns _ _ _ _ _ _ _ _ _ Hrun) as ->.
  assert (Hq : quiet (allocated (umul (umul 3 Nx) Ny) (released (resource this) w)) w')
    by (eapply draw_frame_quiet; rewrite Hrun; reflexivity).
  destruct (refused_reallocation (umul (umul 3 Nx) Ny) (resource this) w Hok Hfail)
    as (Hnull & _ & Hlive).
  cbn [bufferID resource].
  split; [exact Hnull|].
  split; [exact (quiet_keeps_live_buffer _ _ _ Hq Hlive)|].
  split; [rewrite (quiet_unpack _ _ Hq); apply allocated_unpack|].
  unfold DeviceWindow_delete. cbn [resource]. rewrite Hnull.
  eexists. split; reflexivity.
Qed.

Lemma destructor_keeps_buffer_of_refused_registration_witness :
  resource (window_of refused_frame) = NULL /\
  is_Some (gl_buffers (world_of refused_frame) !! bufferID (window_of refused_frame)) /\
  gl_unpack (world_of refused_frame) = bufferID (window_of refused_frame) /\
  exists w'',
    DeviceWindow_delete (window_of refused_frame) (world_of refused_frame) = Done tt w'' /\
    trace w'' = trace (world_of refused_frame) ++ [GlfwTerminate].
Proof.
  apply (destructor_keeps_buffer_of_refused_registration false ([] : list Z) 0 1 tint
           (window_of (opened granting [cudaErrorUnknown])) (window_of refused_frame)
           (world_of (opened granting [cudaErrorUnknown])) (world_of refused_frame)).
  - apply (bool_decide_unpack _). vm_compute. exact I.
  - vm_compute. intros H. discriminate H.
  - reflexivity.
  - vm_compute. reflexivity.
Defined.

(** X3.  Once the registration request of a draw has been refused, the
    transform stage of that draw runs on the null handle: the map request
    fails, the device pointer and the size are never written, and the call
    is undefined as soon as it has to look at them, that is in every debug
    build (the assertion reads the size) and for every non-empty field (the
    transform writes through the pointer). *)
Theorem draw_after_refused_registration_is_undefined {T} (DG_DEBUG : bool) (x : list T)
    (Nx Ny : Z) (map : T -> Color) (this : DeviceWindow) (w : World) :
  names_ok w ->
  (Nx, Ny) <> (Nx_ this, Ny_ this) ->
  registration_granted w = false ->
  DG_DEBUG = true \/ x <> [] ->
  draw DG_DEBUG x Nx Ny map this w = Undefined.
Proof.
  intros Hok Hne Hfail Hlook.
  pose proof (draw_resize_reallocates Nx Ny this w (dimensions_change_true _ _ _ Hne) Hok) as Hr.
  rewrite (draw_stages _ _ _ _ _ _ _ _ _ Hr).
  destruct (refused_reallocation (umul (umul 3 Nx) Ny) (resource this) w Hok Hfail)
    as (Hnull & Hnone & _).
  unfold draw_frame. cbn [resource]. rewrite Hnull. unfold bind at 1.
  rewrite (mapColors_unregistered DG_DEBUG map x NULL _ Hnone).
  destruct DG_DEBUG; [reflexivity|].
  destruct x; [|reflexivity].
  destruct Hlook as [Hd|Hx]; [discriminate | contradiction].
Qed.

Lemma draw_after_refused_registration_is_undefined_witness :
  draw false [5] 1 1 tint (window_of (opened granting [cudaErrorUnknown]))
       (world_of (opened granting [cudaErrorUnknown]))
  = Undefined.
Proof.
  apply (draw_after_refused_registration_is_undefined false [5] 1 1 tint
           (window_of (opened granting [cudaErrorUnknown]))
           (world_of (opened granting [cudaErrorUnknown]))).
  - apply (bool_decide_unpack _). vm_compute. exact I.
  - vm_compute. intros H. discriminate H.
  - reflexivity.
  - right. vm_compute. intros H. discriminate H.
Defined.

(** ** The life of a window *)

(** The frames handed to one window, one [draw] call each: the field, its
    width and height, and the colormap. *)
Definition Frame (T : Type) : Type := (list T * Z * Z * (T -> Color))%type.

Fixpoint draws {T} (DG_DEBUG : bool) (frames : list (Frame T)) (this : DeviceWindow)
  : Op DeviceWindow :=
  match frames with
  | [] => ret this
  | (x, Nx, Ny, map) :: rest =>
      do this <- draw DG_DEBUG x Nx Ny map this;
      draws DG_DEBUG rest this
  end.

(** A window is opened and draws the frames. *)
Definition session {T} (DG_DEBUG : bool) (width height : Z) (frames : list (Frame T))
  : Op DeviceWindow :=
  do this <- DeviceWindow_new width height;
  draws DG_DEBUG frames this.

(** The window is the only client of the two runtimes: the only buffer
    object is the one it holds, which is the pixel-unpack binding, the only
    registration is its own, and its handle is null or registered. *)
Definition sole_client (this : DeviceWindow) (w : World) : Prop :=
  names_ok w /\
  gl_unpack w = bufferID this /\
  (forall n, is_Some (gl_buffers w !! n) -> n = bufferID this) /\
  (forall h, is_Some (cu_resources w !! h) -> h = resource this) /\
  buffer_available this w /\
  (resource this = NULL \/ is_Some (cu_resources w !! resource this)).

Lemma allocated_gl_next (N : Z) (w : World) :
  gl_next (allocated N w) <= gl_next w + 1.
Proof.
  unfold allocated, registration_answered.
  destruct (registration_granted _); unfold buffer_created; world_simpl;
    destruct (gl_free w); lia.
Qed.

Lemma sole_client_reallocated (Nx Ny N : Z) (this : DeviceWindow) (w : World) :
  sole_client this w ->
  gl_next w + 1 < UINT_MOD ->
  sole_client (mkWindow (next_buffer_name (released (resource this) w))
                        (new_resource (released (resource this) w)) Nx Ny)
              (allocated N (released (resource this) w)).
Proof.
  intros (Hok & Hbind & Hbufs & Hres & _ & _) Hroom.
  unfold sole_client. cbn [bufferID resource].
  split; [apply reallocated_names_ok; assumption|].
  split; [apply allocated_unpack|].
  split; [|split; [|split; [apply reallocated_buffer_available, Hok|]]].
  - intros n Hn. rewrite allocated_buffers, released_buffers in Hn.
    apply lookup_insert_is_Some in Hn. destruct Hn as [Hn|[_ Hn]]; [congruence|].
    apply lookup_delete_is_Some in Hn. destruct Hn as [Hne Hn].
    apply Hbufs in Hn. congruence.
  - intros h Hh. rewrite allocated_resources, released_resources in Hh.
    unfold new_resource.
    destruct (registration_granted (released (resource this) w)).
    + apply lookup_insert_is_Some in Hh. destruct Hh as [Hh|[_ Hh]]; [congruence|].
      apply lookup_delete_is_Some in Hh. destruct Hh as [Hne Hh].
      apply Hres in Hh. congruence.
    + apply lookup_delete_is_Some in Hh. destruct Hh as [Hne Hh].
      apply Hres in Hh. congruence.
  - rewrite allocated_resources. unfold new_resource.
    destruct (registration_granted (released (resource this) w)).
    + right. rewrite lookup_insert_eq. eauto.
    + left. reflexivity.
Qed.

Lemma sole_client_frame {T} dbg (x : list T) Nx Ny (map : T -> Color) this w this' w' :
  sole_client this w ->
  draw_frame dbg x Nx Ny map this w = Done this' w' ->
  sole_client this' w' /\ gl_next w' = gl_next w.
Proof.
  intros (Hok & Hbind & Hbufs & Hres & Hav & Hnull) Hrun.
  assert (Hq : quiet w w') by (eapply draw_frame_quiet; rewrite Hrun; reflexivity).
  pose proof (draw_frame_keeps_available _ _ _ _ _ _ _ _ _ Hav Hrun) as Hav'.
  pose proof (draw_frame_returns _ _ _ _ _ _ _ _ _ Hrun) as ->.
  split; [|exact (quiet_gl_next _ _ Hq)].
  split; [exact (quiet_names_ok _ _ Hq Hok)|].
  split; [rewrite (quiet_unpack _ _ Hq); exact Hbind|].
  split; [intros n Hn; apply Hbufs; exact (quiet_live_buffer _ _ _ Hq Hn)|].
  split; [intros h Hh; apply Hres; exact (quiet_live_resource _ _ _ Hq Hh)|].
  split; [exact Hav'|].
  destruct Hnull as [Hnull|Hlive]; [left; exact Hnull|right].
  apply (fmap_is_Some reg_buffer). rewrite (quiet_resources _ _ Hq).
  apply fmap_is_Some. exact Hlive.
Qed.

Lemma sole_client_draw {T} dbg (x : list T) Nx Ny (map : T -> Color) this w this' w' :
  sole_client this w ->
  gl_next w + 1 < UINT_MOD ->
  draw dbg x Nx Ny map this w = Done this' w' ->
  sole_client this' w' /\ gl_next w' <= gl_next w + 1.
Proof.
  intros Hsole Hroom Hrun.
  destruct (dimensions_change Nx Ny this) eqn:Hc.
  - pose proof Hsole as (Hok & _).
    pose proof (draw_resize_reallocates Nx Ny this w Hc Hok) as Hr.
    rewrite (draw_stages _ _ _ _ _ _ _ _ _ Hr) in Hrun.
    destruct (sole_client_frame _ _ _ _ _ _ _ _ _
                (sole_client_reallocated Nx Ny _ this w Hsole Hroom) Hrun) as [Hs Hn].
    split; [exact Hs|]. rewrite Hn.
    etransitivity; [apply allocated_gl_next|]. apply Z.le_refl.
  - pose proof (draw_resize_keeps Nx Ny this w Hc) as Hr.
    rewrite (draw_stages _ _ _ _ _ _ _ _ _ Hr) in Hrun.
    destruct (sole_client_frame _ _ _ _ _ _ _ _ _ Hsole Hrun) as [Hs Hn].
    split; [exact Hs | lia].
Qed.

Lemma sole_client_draws {T} dbg (frames : list (Frame T)) :
  forall this w this' w',
    sole_client this w ->
    gl_next w + Z.of_nat (length frames) < UINT_MOD ->
    draws dbg frames this w = Done this' w' ->
    sole_client this' w'.
Proof.
  induction frames as [|[[[x Nx] Ny] map] rest IH]; intros this w this' w' Hsole Hroom Hrun.
  - injection Hrun as <- <-. exact Hsole.
  - cbn [draws] in Hrun. unfold bind at 1 in Hrun.
    cbn [length] in Hroom. rewrite Nat2Z.inj_succ in Hroom.
    destruct (draw dbg x Nx Ny map this w) as [this1 w1| |] eqn:Hd; try discriminate.
    destruct (sole_client_draw _ _ _ _ _ _ _ _ _ Hsole ltac:(lia) Hd) as [Hs Hn].
    apply (IH this1 w1 this' w' Hs); [lia | exact Hrun].
Qed.

Lemma sole_client_boot (recycling : bool) (fits : Z -> bool) (faults : list cudaError_t)
    (width height : Z) :
  exists w0,
    DeviceWindow_new width height (boot recycling fits faults) = Done (mkWindow 0 NULL 0 0) w0 /\
    sole_client (mkWindow 0 NULL 0 0) w0 /\ gl_next w0 = 1.
Proof.
  eexists. split; [reflexivity|]. split; [|reflexivity].
  assert (Hok : names_ok (boot recycling fits faults)).
  { unfold names_ok, boot. world_simpl. unfold UINT_MOD.
    repeat (split; [first [lia | apply map_Forall_empty | constructor]|]). constructor. }
  split; [exact Hok|]. split; [reflexivity|].
  split; [intros n [ds Hn]; unfold boot in Hn; world_simpl_in Hn;
          rewrite lookup_empty in Hn; discriminate|].
  split; [intros h [reg Hh]; unfold boot in Hh; world_simpl_in Hh;
          rewrite lookup_empty in Hh; discriminate|].
  split; [|left; reflexivity].
  unfold buffer_available, boot. world_simpl. cbn [resource]. rewrite lookup_empty. exact I.
Qed.

Lemma session_sole_client {T} dbg (width height : Z) (frames : list (Frame T))
    recycling fits faults this w :
  Z.of_nat (length frames) + 1 < UINT_MOD ->
  session dbg width height frames (boot recycling fits faults) = Done this w ->
  sole_client this w.
Proof.
  intros Hroom Hrun.
  destruct (sole_client_boot recycling fits faults width height) as (w0 & Hnew & Hsole & Hnext).
  unfold session in Hrun. unfold bind at 1 in Hrun. rewrite Hnew in Hrun.
  apply (sole_client_draws dbg frames _ w0 this w Hsole); [lia | exact Hrun].
Qed.

(** X4.  A window never holds more than one shared buffer.  In a process
    where the window is the only client of the two runtimes, after the
    constructor and any sequence of draws that returned, of whatever sizes
    and with registration requests granted or refused, at most one buffer
    object exists, the one the window records and has left bound, and at most
    one registration, the window's own, which is a registration of that
    buffer and is not mapped. *)
Theorem window_holds_at_most_one_buffer {T} (DG_DEBUG : bool) (width height : Z)
    (frames : list (Frame T)) (recycling : bool) (fits : Z -> bool)
    (faults : list cudaError_t) (this : DeviceWindow) (w : World) :
  Z.of_nat (length frames) + 1 < UINT_MOD ->
  session DG_DEBUG width height frames (boot recycling fits faults) = Done this w ->
  (forall n, is_Some (gl_buffers w !! n) -> n = bufferID this /\ gl_unpack w = n) /\
  (forall h, is_Some (cu_resources w !! h) ->
             h = resource this /\ shared_buffer w h (bufferID this) false).
Proof.
  intros Hroom Hrun.
  destruct (session_sole_client _ _ _ _ _ _ _ _ _ Hroom Hrun)
    as (_ & Hbind & Hbufs & Hres & Hav & _).
  split.
  - intros n Hn. apply Hbufs in Hn. split; congruence.
  - intros h Hh. pose proof (Hres h Hh) as ->. split; [reflexivity|].
    unfold buffer_available in Hav. destruct Hh as [reg Hh]. rewrite Hh in Hav.
    destruct Hav as [-> Hlive]. split; assumption.
Qed.

(** Three frames, of 1 by 1, 2 by 1 and 2 by 1 again. *)
Definition three_frames : list (Frame Z) :=
  [([5], 1, 1, tint); ([3; 4], 2, 1, tint); ([6; 7], 2, 1, tint)].

Definition three_frames_session : Outcome DeviceWindow :=
  session false 800 600 three_frames (boot true granting []).

Lemma window_holds_at_most_one_buffer_witness :
  (forall n, is_Some (gl_buffers (world_of three_frames_session) !! n) ->
             n = bufferID (window_of three_frames_session) /\
             gl_unpack (world_of three_frames_session) = n) /\
  (forall h, is_Some (cu_resources (world_of three_frames_session) !! h) ->
             h = resource (window_of three_frames_session) /\
             shared_buffer (world_of three_frames_session) h
               (bufferID (window_of three_frames_session)) false).
Proof.
  apply (window_holds_at_most_one_buffer false 800 600 three_frames true granting []
           (window_of three_frames_session) (world_of three_frames_session)).
  - vm_compute. reflexivity.
  - vm_compute. reflexivity.
Defined.

(** X5.  Allocation and release balance over the life of a window.  After
    the constructor and any sequence of draws that returned, the destructor
    returns and leaves no registration behind; it leaves no buffer object
    behind either when the window holds a registration.  The one object that
    the calls of the destructor can leave unreleased is the buffer of a
    refused registration, the window holding the null handle. *)
Theorem destructor_balances_the_allocations {T} (DG_DEBUG : bool) (width height : Z)
    (frames : list (Frame T)) (recycling : bool) (fits : Z -> bool)
    (faults : list cudaError_t) (this : DeviceWindow) (w : World) :
  Z.of_nat (length frames) + 1 < UINT_MOD ->
  session DG_DEBUG width height frames (boot recycling fits faults) = Done this w ->
  exists w',
    DeviceWindow_delete this w = Done tt w' /\
    cu_resources w' = ∅ /\
    (resource this <> NULL -> gl_buffers w' = ∅) /\
    (forall n, is_Some (gl_buffers w' !! n) -> resource this = NULL /\ n = bufferID this).
Proof.
  intros Hroom Hrun.
  destruct (session_sole_client _ _ _ _ _ _ _ _ _ Hroom Hrun)
    as (Hok & Hbind & Hbufs & Hres & Hav & Hnull).
  unfold DeviceWindow_delete.
  destruct (Z.eqb_spec (resource this) NULL) as [Heq|Hne]; cbn [negb].
  - eexists. split; [reflexivity|]. world_simpl.
    split; [|split; [contradiction|auto]].
    apply map_empty. intros h.
    destruct (cu_resources w !! h) eqn:Hh; [|reflexivity].
    assert (Hh' : h = resource this) by (apply Hres; eauto).
    rewrite Hh', Heq, (null_unregistered w Hok) in Hh. discriminate.
  - destruct Hnull as [Hnull|[reg Hreg]]; [contradiction|].
    unfold buffer_available in Hav. rewrite Hreg in Hav. destruct Hav as [-> [ds Hbuf]].
    unfold bind, cudaGraphicsUnregisterResource, glDeleteBuffers, glfwTerminate, emit.
    rewrite Hreg. world_simpl. rewrite Hbuf.
    eexists. split; [reflexivity|]. world_simpl.
    assert (Hempty : delete (bufferID this) (gl_buffers w) = ∅).
    { apply map_empty. intros n. apply lookup_delete_None.
      destruct (gl_buffers w !! n) eqn:Hn; [left|right; reflexivity].
      symmetry. apply Hbufs. eauto. }
    split; [|split; [intros _; exact Hempty|]].
    + apply map_empty. intros h. apply lookup_delete_None.
      destruct (cu_resources w !! h) eqn:Hh; [left|right; reflexivity].
      symmetry. apply Hres. eauto.
    + intros n [ds' Hn]. rewrite Hempty, lookup_empty in Hn. discriminate.
Qed.

Lemma destructor_balances_the_allocations_witness :
  exists w',
    DeviceWindow_delete (window_of three_frames_session) (world_of three_frames_session)
      = Done tt w' /\
    cu_resources w' = ∅ /\
    (resource (window_of three_frames_session) <> NULL -> gl_buffers w' = ∅) /\
    (forall n, is_Some (gl_buffers w' !! n) ->
               resource (window_of three_frames_session) = NULL /\
               n = bufferID (window_of three_frames_session)).
Proof.
  apply (destructor_balances_the_allocations false 800 600 three_frames true granting []
           (window_of three_frames_session) (world_of three_frames_session)).
  - vm_compute. reflexivity.
  - vm_compute. reflexivity.
Defined.

(** ** The allocator and its counterpart *)

(** X6.  [allocateGlBuffer N] creates one buffer object and leaves it bound:
    the name it returns was not in use and is not 0, the new object is the
    pixel-unpack binding and has a data store of [4 * N] bytes (no store when
    the runtime cannot create one, which the function does not notice), and
    every other buffer object, the one bound before included, and every
    registration is as before. *)
Theorem allocateGlBuffer_adds_one_bound_buffer (N : Z) (w : World) :
  names_ok w ->
  0 <= N < UINT_MOD ->
  exists n w',
    allocateGlBuffer N w = Done n w' /\
    n <> 0 /\
    gl_buffers w !! n = None /\
    gl_unpack w' = n /\
    gl_buffers w' !! n
    = Some (if gl_store_fits w (4 * N) then mkStore (4 * N) ∅ else empty_store) /\
    (forall m, m <> n -> gl_buffers w' !! m = gl_buffers w !! m) /\
    cu_resources w' = cu_resources w.
Proof.
  intros Hok HN.
  destruct (next_buffer_name_fresh _ Hok) as [Hfresh Hrange].
  exists (next_buffer_name w), (buffer_created N w).
  split; [apply allocateGlBuffer_runs; [exact Hfresh | lia]|].
  split; [lia|]. split; [exact Hfresh|].
  assert (Hbytes : size_mul N sizeof_float = 4 * N).
  { unfold size_mul, sizeof_float, SIZE_MOD, UINT_MOD in *. rewrite Z.mod_small; lia. }
  unfold buffer_created. world_simpl. rewrite Hbytes.
  split; [reflexivity|].
  split; [rewrite lookup_insert_eq; reflexivity|].
  split; [|reflexivity].
  intros m Hm. apply lookup_insert_ne. congruence.
Qed.

Lemma allocateGlBuffer_adds_one_bound_buffer_witness :
  exists n w',
    allocateGlBuffer 6 (world_of first_frame) = Done n w' /\
    n <> 0 /\
    gl_buffers (world_of first_frame) !! n = None /\
    gl_unpack w' = n /\
    gl_buffers w' !! n
    = Some (if gl_store_fits (world_of first_frame) (4 * 6) then mkStore (4 * 6) ∅
            else empty_store) /\
    (forall m, m <> n -> gl_buffers w' !! m = gl_buffers (world_of first_frame) !! m) /\
    cu_resources w' = cu_resources (world_of first_frame).
Proof.
  apply (allocateGlBuffer_adds_one_bound_buffer 6 (world_of first_frame)).
  - apply (bool_decide_unpack _). vm_compute. exact I.
  - unfold UINT_MOD. lia.
Defined.

(** X7.  [freeCudaGlBuffer] is the counterpart of the registration only, not
    of [allocateCudaGlBuffer]: called on the handle a successful
    [allocateCudaGlBuffer] returned, it leaves the registrations exactly as
    they were before the allocation, while the buffer object the allocation
    created is still live and still bound. *)
Theorem freeCudaGlBuffer_keeps_graphics_buffer (N : Z) (w : World) :
  names_ok w ->
  registration_granted w = true ->
  exists r w1 w2,
    allocateCudaGlBuffer N w = Done r w1 /\
    freeCudaGlBuffer r w1 = Done tt w2 /\
    cu_resources w2 = cu_resources w /\
    gl_buffers w2 = gl_buffers w1 /\
    gl_unpack w2 = gl_unpack w1 /\
    gl_buffers w !! gl_unpack w2 = None /\
    is_Some (gl_buffers w2 !! gl_unpack w2).
Proof.
  intros Hok Hgrant.
  destruct (next_buffer_name_fresh _ Hok) as [Hfresh Hrange].
  destruct (next_handle_fresh _ Hok) as [Hhfresh _].
  pose proof (allocated_resources N w) as Hres. rewrite Hgrant in Hres.
  pose proof (allocated_buffers N w) as Hbufs.
  pose proof (allocated_unpack N w) as Hbind.
  assert (Hrun : allocateCudaGlBuffer N w = Done (new_resource w) (allocated N w))
    by (apply allocateCudaGlBuffer_runs; [exact Hfresh | lia]).
  unfold new_resource in Hrun. rewrite Hgrant in Hrun.
  set (w1 := allocated N w) in *. clearbody w1.
  exists (next_handle w), w1.
  unfold freeCudaGlBuffer, bind, cudaGraphicsUnregisterResource, ret.
  rewrite Hres, lookup_insert_eq.
  eexists. split; [exact Hrun|].
  split; [reflexivity|]. world_simpl.
  split; [apply delete_insert_id, Hhfresh|].
  split; [reflexivity|]. split; [reflexivity|].
  rewrite Hbind, Hbufs, lookup_insert_eq. split; [exact Hfresh | eauto].
Qed.

Lemma freeCudaGlBuffer_keeps_graphics_buffer_witness :
  exists r w1 w2,
    allocateCudaGlBuffer 6 (world_of first_frame) = Done r w1 /\
    freeCudaGlBuffer r w1 = Done tt w2 /\
    cu_resources w2 = cu_resources (world_of first_frame) /\
    gl_buffers w2 = gl_buffers w1 /\
    gl_unpack w2 = gl_unpack w1 /\
    gl_buffers (world_of first_frame) !! gl_unpack w2 = None /\
    is_Some (gl_buffers w2 !! gl_unpack w2).
Proof.
  apply (freeCudaGlBuffer_keeps_graphics_buffer 6 (world_of first_frame)).
  - apply (bool_decide_unpack _). vm_compute. exact I.
  - reflexivity.
Defined.

(** ** A draw that gets its buffer *)

(** Every run of a draw with new dimensions whose registration request is
    granted: the window and the world after the reallocation, the store of the
    new buffer, and the outcome of the call. *)
Lemma draw_reallocating {T} dbg (x : list T) Nx Ny (map : T -> Color) this w :
  names_ok w ->
  (Nx, Ny) <> (Nx_ this, Ny_ this) ->
  registration_granted w = true ->
  exists this1 w1 ds,
    draw_resize Nx Ny this w = Done this1 w1 /\
    Nx_ this1 = Nx /\ Ny_ this1 = Ny /\
    ds = new_store (4 * ((3 * Nx * Ny) mod UINT_MOD)) w /\
    cu_resources w1 !! resource this1 = Some (mkReg (bufferID this1) false) /\
    gl_buffers w1 !! bufferID this1 = Some ds /\
    gl_unpack w1 = bufferID this1 /\
    draw dbg x Nx Ny map this w =
      if dbg && negb (size_matches x ds)
      then Aborted (after_map (resource this1) (bufferID this1) false ds w1)
      else if has_room x ds
           then Done this1 (presented Nx Ny
                              (colored map x (resource this1) (bufferID this1) false ds w1))
           else Undefined.
Proof.
  intros Hok Hne Hgrant.
  pose proof (draw_resize_reallocates Nx Ny this w (dimensions_change_true _ _ _ Hne) Hok) as Hr.
  pose proof (draw_stages dbg x Nx Ny map _ _ _ _ Hr) as Hdraw.
  destruct (reallocated_shared_buffer (umul (umul 3 Nx) Ny) (resource this) w Hgrant)
    as [Hreg _].
  pose proof (allocated_buffers (umul (umul 3 Nx) Ny) (released (resource this) w)) as Hbufs.
  pose proof (allocated_unpack (umul (umul 3 Nx) Ny) (released (resource this) w)) as Hbind.
  rewrite buffer_bytes in Hbufs.
  change (new_store ?b (released (resource this) w)) with (new_store b w) in Hbufs.
  set (w1 := allocated (umul (umul 3 Nx) Ny) (released (resource this) w)) in *.
  clearbody w1.
  set (r1 := new_resource (released (resource this) w)) in *. clearbody r1.
  set (b1 := next_buffer_name (released (resource this) w)) in *. clearbody b1.
  exists (mkWindow b1 r1 Nx Ny), w1, (new_store (4 * ((3 * Nx * Ny) mod UINT_MOD)) w).
  cbn [resource bufferID Nx_ Ny_].
  split; [exact Hr|]. split; [reflexivity|]. split; [reflexivity|]. split; [reflexivity|].
  split; [exact Hreg|].
  assert (Hbuf : gl_buffers w1 !! b1
                 = Some (new_store (4 * ((3 * Nx * Ny) mod UINT_MOD)) w))
    by (rewrite Hbufs; apply lookup_insert_eq).
  split; [exact Hbuf|]. split; [exact Hbind|].
  rewrite Hdraw. unfold draw_frame. cbn [resource]. unfold bind at 1.
  rewrite (mapColors_registered map dbg x r1 b1 false w1 _ Hreg Hbuf).
  destruct (dbg && negb (size_matches x _)); [reflexivity|].
  destruct (has_room x _); [|reflexivity].
  unfold bind at 1. rewrite draw_present_runs. reflexivity.
Qed.

Lemma exact_field_fits {T} (x : list T) (Nx Ny : Z) :
  0 <= Nx -> 0 <= Ny -> 3 * Nx * Ny < UINT_MOD ->
  size_of x = Nx * Ny ->
  has_room x (mkStore (4 * ((3 * Nx * Ny) mod UINT_MOD)) ∅) = true /\
  size_matches x (mkStore (4 * ((3 * Nx * Ny) mod UINT_MOD)) ∅) = true.
Proof.
  intros HNx HNy Hsmall Hsize.
  rewrite Z.mod_small by (split; [nia | exact Hsmall]).
  split.
  - unfold has_room. destruct x; [reflexivity|].
    apply Z.leb_le. cbn [ds_bytes]. unfold sizeof_Color, sizeof_float. lia.
  - unfold size_matches. apply Z.eqb_eq. cbn [ds_bytes]. unfold sizeof_float.
    rewrite Hsize, Z.div_div by lia.
    replace (4 * (3 * Nx * Ny)) with (Nx * Ny * (3 * 4)) by lia.
    symmetry. apply Z.div_mul. lia.
Qed.

(** X8.  A draw under its documented use shows the field.  When the
    dimensions are new, [3*Nx*Ny] fits an [unsigned], the field has [Nx*Ny]
    elements and the two runtimes grant the data store and the registration,
    the call returns, in a debug and in a release build, from whatever state
    the window was in; the window then holds a registered buffer of
    [12*Nx*Ny] bytes that reads back as the color of element [i] at
    interleaved position [i], and the call ends with the texture upload from
    that very buffer, the quad and the buffer swap. *)
Theorem draw_shows_the_field {T} (DG_DEBUG : bool) (x : list T) (Nx Ny : Z)
    (map : T -> Color) (this : DeviceWindow) (w : World) :
  names_ok w ->
  (Nx, Ny) <> (Nx_ this, Ny_ this) ->
  registration_granted w = true ->
  0 <= Nx -> 0 <= Ny -> 3 * Nx * Ny < UINT_MOD ->
  gl_store_fits w (4 * (3 * Nx * Ny)) = true ->
  size_of x = Nx * Ny ->
  exists this' w' ds before,
    draw DG_DEBUG x Nx Ny map this w = Done this' w' /\
    Nx_ this' = Nx /\ Ny_ this' = Ny /\
    cu_resources w' !! resource this' = Some (mkReg (bufferID this') false) /\
    gl_buffers w' !! bufferID this' = Some ds /\
    ds_bytes ds = 12 * Nx * Ny /\
    (forall (i : nat) (v : T), x !! i = Some v -> color_at ds (Z.of_nat i) = Some (map v)) /\
    trace w' = before ++ [GlTexImage2D (GLint_of_GLuint Nx) (GLint_of_GLuint Ny) (bufferID this');
                          GlLoadIdentity; GlQuads quad_vertices; GlfwSwapBuffers].
Proof.
  intros Hok Hne Hgrant HNx HNy Hsmall Hfits Hsize.
  destruct (draw_reallocating DG_DEBUG x Nx Ny map this w Hok Hne Hgrant)
    as (this1 & w1 & ds & _ & HNx1 & HNy1 & Hds & Hreg & Hbuf & Hbind & Hdraw).
  destruct (exact_field_fits x Nx Ny HNx HNy Hsmall Hsize) as [Hroom Hmatch].
  assert (Hmod : (3 * Nx * Ny) mod UINT_MOD = 3 * Nx * Ny)
    by (apply Z.mod_small; split; [nia | exact Hsmall]).
  unfold new_store in Hds. rewrite Hmod, Hfits in Hds.
  rewrite Hmod in Hroom, Hmatch. rewrite <- Hds in Hroom, Hmatch.
  rewrite Hmatch, Hroom in Hdraw. rewrite andb_false_r in Hdraw.
  eexists this1, _, _, _. split; [exact Hdraw|].
  split; [exact HNx1|]. split; [exact HNy1|].
  unfold presented, colored. world_simpl.
  split; [apply lookup_insert_eq|].
  split; [apply lookup_insert_eq|].
  split; [rewrite Hds; cbn [ds_bytes]; lia|].
  split; [intros i v Hi; apply color_at_fill; exact Hi|].
  rewrite Hbind. reflexivity.
Qed.

Lemma draw_shows_the_field_witness :
  exists this' w' ds before,
    draw true [3; 4] 2 1 tint (window_of first_frame) (world_of first_frame) = Done this' w' /\
    Nx_ this' = 2 /\ Ny_ this' = 1 /\
    cu_resources w' !! resource this' = Some (mkReg (bufferID this') false) /\
    gl_buffers w' !! bufferID this' = Some ds /\
    ds_bytes ds = 12 * 2 * 1 /\
    (forall (i : nat) (v : Z), [3; 4] !! i = Some v -> color_at ds (Z.of_nat i) = Some (tint v)) /\
    trace w' = before ++ [GlTexImage2D (GLint_of_GLuint 2) (GLint_of_GLuint 1) (bufferID this');
                          GlLoadIdentity; GlQuads quad_vertices; GlfwSwapBuffers].
Proof.
  apply (draw_shows_the_field true [3; 4] 2 1 tint (window_of first_frame) (world_of first_frame)).
  - apply (bool_decide_unpack _). vm_compute. exact I.
  - vm_compute. intros H. discriminate H.
  - reflexivity.
  - lia.
  - lia.
  - unfold UINT_MOD. lia.
  - reflexivity.
  - reflexivity.
Defined.

(** X9.  What a release build accepts.  A draw with new dimensions that gets
    its data store and its registration returns exactly when the field has no
    more elements than the new buffer has room for colors, and is undefined
    (the transform writes past the end of the buffer) exactly when it has
    more.  The room is [3*Nx*Ny] floats computed in [unsigned] arithmetic, so
    a shorter field is accepted silently and dimensions with
    [3*Nx*Ny >= 2^32] give a buffer that is too small for [Nx*Ny] elements. *)
Theorem release_draw_returns_iff_the_field_fits {T} (x : list T) (Nx Ny : Z)
    (map : T -> Color) (this : DeviceWindow) (w : World) :
  names_ok w ->
  (Nx, Ny) <> (Nx_ this, Ny_ this) ->
  registration_granted w = true ->
  gl_store_fits w (4 * ((3 * Nx * Ny) mod UINT_MOD)) = true ->
  ((exists this' w', draw false x Nx Ny map this w = Done this' w') <->
   3 * size_of x <= (3 * Nx * Ny) mod UINT_MOD) /\
  (draw false x Nx Ny map this w = Undefined <->
   (3 * Nx * Ny) mod UINT_MOD < 3 * size_of x).
Proof.
  intros Hok Hne Hgrant Hfits.
  destruct (draw_reallocating false x Nx Ny map this w Hok Hne Hgrant)
    as (this1 & w1 & ds & _ & _ & _ & Hds & _ & _ & _ & Hdraw).
  unfold new_store in Hds. rewrite Hfits in Hds.
  cbn [andb] in Hdraw. rewrite Hdraw.
  pose proof (Z.mod_pos_bound (3 * Nx * Ny) UINT_MOD ltac:(unfold UINT_MOD; lia)) as Hm.
  assert (Hroom : has_room x ds = true <-> 3 * size_of x <= (3 * Nx * Ny) mod UINT_MOD).
  { rewrite Hds. unfold has_room. destruct x as [|v rest].
    - unfold size_of. cbn [length]. split; [lia | reflexivity].
    - rewrite Z.leb_le. cbn [ds_bytes]. unfold sizeof_Color, sizeof_float. lia. }
  destruct (has_room x ds).
  - split; split.
    + intros _. apply Hroom. reflexivity.
    + intros _. eauto.
    + discriminate.
    + intros Hlt. apply proj1 in Hroom. specialize (Hroom eq_refl). lia.
  - split; split.
    + intros (this' & w' & H). discriminate.
    + intros Hle. apply Hroom in Hle. discriminate.
    + intros _. destruct (Z.lt_ge_cases ((3 * Nx * Ny) mod UINT_MOD) (3 * size_of x)) as [Hlt|Hge];
        [exact Hlt|]. apply Hroom in Hge. discriminate.
    + reflexivity.
Qed.

Lemma release_draw_returns_iff_the_field_fits_witness :
  ((exists this' w', draw false [3; 4; 5] 2 1 tint (window_of first_frame) (world_of first_frame)
                     = Done this' w') <->
   3 * size_of [3; 4; 5] <= (3 * 2 * 1) mod UINT_MOD) /\
  (draw false [3; 4; 5] 2 1 tint (window_of first_frame) (world_of first_frame) = Undefined <->
   (3 * 2 * 1) mod UINT_MOD < 3 * size_of [3; 4; 5]).
Proof.
  apply (release_draw_returns_iff_the_field_fits [3; 4; 5] 2 1 tint
           (window_of first_frame) (world_of first_frame)).
  - apply (bool_decide_unpack _). vm_compute. exact I.
  - vm_compute. intros H. discriminate H.
  - reflexivity.
  - reflexivity.
Defined.

(** ** Frame after frame *)

Lemma has_room_length {T} (x1 x2 : list T) (ds1 ds2 : DataStore) :
  length x2 = length x1 -> ds_bytes ds2 = ds_bytes ds1 ->
  has_room x2 ds2 = has_room x1 ds1 /\ size_matches x2 ds2 = size_matches x1 ds1.
Proof.
  intros Hlen Hbytes. unfold size_matches, has_room, size_of.
  destruct x1, x2; try discriminate; rewrite ?Hlen, ?Hbytes; auto.
Qed.

Lemma draw_frame_again {T} dbg (x1 x2 : list T) Nx Ny (map1 map2 : T -> Color) this w this1 w1 :
  buffer_available this w ->
  draw_frame dbg x1 Nx Ny map1 this w = Done this1 w1 ->
  length x2 = length x1 ->
  exists w2, draw_frame dbg x2 Nx Ny map2 this1 w1 = Done this1 w2.
Proof.
  intros Hav Hrun Hlen.
  pose proof (draw_frame_returns _ _ _ _ _ _ _ _ _ Hrun) as ->.
  unfold draw_frame in Hrun. unfold bind at 1 in Hrun. unfold buffer_available in Hav.
  unfold draw_frame. unfold bind at 1.
  destruct (cu_resources w !! resource this) as [reg|] eqn:Hr.
  - destruct Hav as [-> [ds Hb]].
    rewrite (mapColors_registered map1 dbg x1 _ _ _ w ds Hr Hb) in Hrun.
    destruct (dbg && negb (size_matches x1 ds)) eqn:Hcheck; [discriminate|].
    destruct (has_room x1 ds) eqn:Hroom; [|discriminate].
    unfold bind at 1 in Hrun. rewrite draw_present_runs in Hrun. injection Hrun as <-.
    assert (Hr1 : cu_resources (presented Nx Ny (colored map1 x1 (resource this) (bufferID this) false ds w))
                    !! resource this = Some (mkReg (bufferID this) false))
      by (unfold presented, colored; world_simpl; apply lookup_insert_eq).
    assert (Hb1 : gl_buffers (presented Nx Ny (colored map1 x1 (resource this) (bufferID this) false ds w))
                    !! bufferID this
                  = Some (mkStore (ds_bytes ds) (fill map1 x1 0 ∅)))
      by (unfold presented, colored; world_simpl; apply lookup_insert_eq).
    set (w1 := presented Nx Ny _) in *. clearbody w1.
    rewrite (mapColors_registered map2 dbg x2 _ _ _ w1 _ Hr1 Hb1).
    destruct (has_room_length x1 x2 ds (mkStore (ds_bytes ds) (fill map1 x1 0 ∅))
                Hlen eq_refl) as [-> ->].
    rewrite Hcheck, Hroom. unfold bind at 1. rewrite draw_present_runs. eexists. reflexivity.
  - rewrite (mapColors_unregistered dbg map1 x1 _ w Hr) in Hrun.
    destruct dbg; [discriminate|]. destruct x1; [|discriminate].
    destruct x2; [|discriminate].
    unfold bind at 1 in Hrun. rewrite draw_present_runs in Hrun. injection Hrun as <-.
    rewrite (mapColors_unregistered false map2 [] (resource this)).
    + unfold bind at 1. rewrite draw_present_runs. eexists. reflexivity.
    + unfold presented. world_simpl. exact Hr.
Qed.

(** X10.  A window keeps working at a given size.  Once a draw has returned,
    every further draw with the same width and height and a field of the same
    length returns as well, whatever the values of the field and the colormap,
    and leaves the window as it is: the buffer is neither consumed nor shrunk
    by a frame, and the hand-over to the compute runtime can be repeated. *)
Theorem draw_of_the_same_size_returns_again {T} (DG_DEBUG : bool) (x1 x2 : list T) (Nx Ny : Z)
    (map1 map2 : T -> Color) (this this1 : DeviceWindow) (w w1 : World) :
  names_ok w ->
  buffer_available this w ->
  draw DG_DEBUG x1 Nx Ny map1 this w = Done this1 w1 ->
  length x2 = length x1 ->
  exists w2, draw DG_DEBUG x2 Nx Ny map2 this1 w1 = Done this1 w2.
Proof.
  intros Hok Hav Hrun Hlen.
  apply draw_done in Hrun. destruct Hrun as (w0 & Hr & Hframe).
  pose proof (draw_resize_dimensions Nx Ny this w this1 w0 Hr) as Hdims.
  apply dimensions_change_false in Hdims.
  rewrite (draw_stages _ _ _ _ _ _ _ _ _ (draw_resize_keeps Nx Ny this1 w1 Hdims)).
  apply (draw_frame_again DG_DEBUG x1 x2 Nx Ny map1 map2 this1 w0 this1 w1); [|exact Hframe|exact Hlen].
  destruct (dimensions_change Nx Ny this) eqn:Hc.
  - rewrite (draw_resize_reallocates Nx Ny this w Hc Hok) in Hr. injection Hr as <- <-.
    apply reallocated_buffer_available, Hok.
  - rewrite (draw_resize_keeps Nx Ny this w Hc) in Hr. injection Hr as <- <-. exact Hav.
Qed.

Lemma draw_of_the_same_size_returns_again_witness :
  exists w2, draw false [9] 1 1 tint (window_of first_frame) (world_of first_frame)
             = Done (window_of first_frame) w2.
Proof.
  apply (draw_of_the_same_size_returns_again false [5] [9] 1 1 tint tint
           (window_of (opened granting [])) (window_of first_frame)
           (world_of (opened granting [])) (world_of first_frame)).
  - apply (bool_decide_unpack _). vm_compute. exact I.
  - vm_compute. exact I.
  - vm_compute. reflexivity.
  - reflexivity.
Defined.

(** ** What the transform stage writes *)

Lemma size_matches_has_room {T} (x : list T) (ds : DataStore) :
  size_matches x ds = true -> has_room x ds = true.
Proof.
  unfold size_matches, has_room. intros Hm. apply Z.eqb_eq in Hm.
  destruct x; [reflexivity|]. apply Z.leb_le. rewrite Hm.
  unfold sizeof_Color, sizeof_float. rewrite Z.div_div by lia.
  apply (Z.mul_div_le (ds_bytes ds) (3 * 4)). lia.
Qed.

(** X11.  The size check of a debug build is enough to keep the transform
    inside the buffer.  On a registered, live buffer of any size the transform
    stage of a debug build either stops in the assertion or returns; it never
    writes outside the data store.  (A release build does, see
    [oversized_field].) *)
Theorem debug_check_keeps_the_transform_in_bounds {T} (map : T -> Color) (x : list T)
    (res : Z) (reg : Registration) (ds : DataStore) (w : World) :
  cu_resources w !! res = Some reg ->
  gl_buffers w !! reg_buffer reg = Some ds ->
  exists w', mapColors true map x res w = Done tt w' \/ mapColors true map x res w = Aborted w'.
Proof.
  intros Hr Hb. destruct reg as [b m]. cbn [reg_buffer] in Hb.
  rewrite (mapColors_registered map true x res b m w ds Hr Hb). cbn [andb].
  destruct (size_matches x ds) eqn:Hm; cbn [negb].
  - rewrite (size_matches_has_room x ds Hm). eauto.
  - eauto.
Qed.

Lemma debug_check_keeps_the_transform_in_bounds_witness :
  exists w',
    mapColors true tint [5; 6; 7] 1 (world_of (allocateCudaGlBuffer 3 (power_on granting [])))
    = Done tt w' \/
    mapColors true tint [5; 6; 7] 1 (world_of (allocateCudaGlBuffer 3 (power_on granting [])))
    = Aborted w'.
Proof.
  apply (debug_check_keeps_the_transform_in_bounds tint [5; 6; 7] 1 (mkReg 1 false) (mkStore 12 ∅)
           (world_of (allocateCudaGlBuffer 3 (power_on granting [])))).
  - vm_compute. reflexivity.
  - vm_compute. reflexivity.
Defined.

Lemma fill_above {T} (map : T -> Color) (xs : list T) : forall i fl p,
  3 * (i + size_of xs) <= p -> fill map xs i fl !! p = fl !! p.
Proof.
  induction xs as [|v rest IH]; intros i fl p Hp; cbn [fill]; [reflexivity|].
  unfold size_of in *. cbn [length] in Hp. rewrite Nat2Z.inj_succ in Hp.
  rewrite IH by lia. rewrite !lookup_insert_ne by lia. reflexivity.
Qed.

(** X12.  The transform stage leaves in its buffer the colors of the field
    and nothing else.  The buffer is registered write-discard, so what it held
    before the map is not preserved: when [mapColors] returns after a
    successful map of a registered, live buffer, that buffer has the size it
    had, every float of it outside the first [3 * x.size()] is undefined (a
    field shorter than the buffer does not leave the rest of the previous
    image in place), and every other buffer object is untouched. *)
Theorem mapColors_writes_only_the_field {T} (DG_DEBUG : bool) (map : T -> Color) (x : list T)
    (res b : Z) (ds : DataStore) (w w' : World) :
  cu_resources w !! res = Some (mkReg b false) ->
  gl_buffers w !! b = Some ds ->
  mapColors DG_DEBUG map x res w = Done tt w' ->
  (exists ds', gl_buffers w' !! b = Some ds' /\
               ds_bytes ds' = ds_bytes ds /\
               forall p, p < 0 \/ 3 * size_of x <= p -> ds_floats ds' !! p = None) /\
  (forall n, n <> b -> gl_buffers w' !! n = gl_buffers w !! n).
Proof.
  intros Hr Hb Hrun.
  rewrite (mapColors_registered map DG_DEBUG x res b false w ds Hr Hb) in Hrun.
  destruct (DG_DEBUG && negb (size_matches x ds)); [discriminate|].
  destruct (has_room x ds); [|discriminate].
  injection Hrun as <-. unfold colored, mapped_floats. world_simpl. split.
  - eexists. split; [apply lookup_insert_eq|]. cbn [ds_bytes ds_floats].
    split; [reflexivity|].
    intros p [Hp|Hp]; [rewrite fill_below by lia | rewrite fill_above by lia];
      apply lookup_empty.
  - intros n Hn. apply lookup_insert_ne. congruence.
Qed.

Lemma mapColors_writes_only_the_field_witness :
  (exists ds', gl_buffers (world_of (mapColors false tint [9] 1 (world_of recycling_resized_frame)))
                 !! 1 = Some ds' /\
               ds_bytes ds' = ds_bytes (mkStore 24 (fill tint [3; 4] 0 ∅)) /\
               forall p, p < 0 \/ 3 * size_of [9] <= p -> ds_floats ds' !! p = None) /\
  (forall n, n <> 1 ->
     gl_buffers (world_of (mapColors false tint [9] 1 (world_of recycling_resized_frame))) !! n
     = gl_buffers (world_of recycling_resized_frame) !! n).
Proof.
  apply (mapColors_writes_only_the_field false tint [9] 1 1
           (mkStore 24 (fill tint [3; 4] 0 ∅))
           (world_of recycling_resized_frame)
           (world_of (mapColors false tint [9] 1 (world_of recycling_resized_frame)))).
  - vm_compute. reflexivity.
  - vm_compute. reflexivity.
  - vm_compute. reflexivity.
Defined.

(** ** Which buffer a draw releases *)

(** X13.  The buffer a draw deletes before it allocates is the one bound as
    pixel-unpack source at that moment, not the one the window recorded.
    When another buffer has been bound since the last draw (by a call of
    [allocateGlBuffer], say), a draw with new dimensions names that other
    buffer in its delete call, and this call and the unregister call before it
    are the only release calls of the draw; the window's own buffer object is
    not deleted, the window no longer refers to it afterwards, and it is still
    allocated when the call ends. *)
Theorem draw_deletes_the_bound_buffer {T} (DG_DEBUG : bool) (x : list T) (Nx Ny : Z)
    (map : T -> Color) (this : DeviceWindow) (w : World) :
  names_ok w ->
  (Nx, Ny) <> (Nx_ this, Ny_ this) ->
  gl_unpack w <> bufferID this ->
  is_Some (gl_buffers w !! bufferID this) ->
  exists this1 w1 rest,
    draw_resize Nx Ny this w = Done this1 w1 /\
    trace w1 = trace w
                 ++ [CudaUnregister (resource this)
                       (match cu_resources w !! resource this with
                        | Some _ => cudaSuccess
                        | None => cudaErrorInvalidResourceHandle
                        end);
                     Print ("Allocate resources for drawing!" ++ newline);
                     GlDeleteBuffers (gl_unpack w)]
                 ++ rest /\
    Forall (fun e => is_release e = false) rest /\
    bufferID this1 <> bufferID this /\
    gl_buffers w1 !! bufferID this = gl_buffers w !! bufferID this /\
    (forall w', final_world (draw DG_DEBUG x Nx Ny map this w) = Some w' ->
                quiet w1 w' /\ is_Some (gl_buffers w' !! bufferID this)) /\
    (forall this' w', draw DG_DEBUG x Nx Ny map this w = Done this' w' -> this' = this1).
Proof.
  intros Hok Hne Hother Hown.
  pose proof (draw_resize_reallocates Nx Ny this w (dimensions_change_true _ _ _ Hne) Hok) as Hr.
  pose proof (released_names_ok (resource this) w Hok) as Hok'.
  destruct (next_buffer_name_fresh _ Hok') as [Hfresh _].
  rewrite released_buffers in Hfresh.
  destruct (draw_after_resize DG_DEBUG x Nx Ny map this w _ _ Hr) as [Hquiet Hsame].
  assert (Hnew : next_buffer_name (released (resource this) w) <> bufferID this).
  { intros Heq. rewrite Heq, lookup_delete_ne in Hfresh by exact Hother.
    destruct Hown as [ds Hds]. congruence. }
  assert (Hkept : gl_buffers (allocated (umul (umul 3 Nx) Ny) (released (resource this) w))
                    !! bufferID this = gl_buffers w !! bufferID this).
  { rewrite allocated_buffers, released_buffers.
    rewrite lookup_insert_ne by exact Hnew. apply lookup_delete_ne. exact Hother. }
  eexists _, _, _. split; [exact Hr|]. cbn [bufferID].
  split; [rewrite reallocation_trace; unfold reallocation_calls; reflexivity|].
  split.
  { cbn [app]. repeat (apply Forall_cons; split; [reflexivity|]).
    destruct (registration_granted w); repeat constructor. }
  split; [exact Hnew|]. split; [exact Hkept|]. split; [|exact Hsame].
  intros w' Hw'. apply Hquiet in Hw'. split; [exact Hw'|].
  apply (quiet_keeps_live_buffer _ _ _ Hw'). rewrite Hkept. exact Hown.
Qed.

(** The first frame, and then a buffer of the caller's own, left bound. *)
Definition rebound_after_first_frame : World :=
  world_of (allocateGlBuffer 6 (world_of first_frame)).

Lemma draw_deletes_the_bound_buffer_witness :
  exists this1 w1 rest,
    draw_resize 2 1 (window_of first_frame) rebound_after_first_frame = Done this1 w1 /\
    trace w1 = trace rebound_after_first_frame
                 ++ [CudaUnregister (resource (window_of first_frame))
                       (match cu_resources rebound_after_first_frame
                                !! resource (window_of first_frame) with
                        | Some _ => cudaSuccess
                        | None => cudaErrorInvalidResourceHandle
                        end);
                     Print ("Allocate resources for drawing!" ++ newline);
                     GlDeleteBuffers (gl_unpack rebound_after_first_frame)]
                 ++ rest /\
    Forall (fun e => is_release e = false) rest /\
    bufferID this1 <> bufferID (window_of first_frame) /\
    gl_buffers w1 !! bufferID (window_of first_frame)
    = gl_buffers rebound_after_first_frame !! bufferID (window_of first_frame) /\
    (forall w', final_world (draw false [3; 4] 2 1 tint (window_of first_frame)
                               rebound_after_first_frame) = Some w' ->
                quiet w1 w' /\
                is_Some (gl_buffers w' !! bufferID (window_of first_frame))) /\
    (forall this' w', draw false [3; 4] 2 1 tint (window_of first_frame)
                        rebound_after_first_frame = Done this' w' -> this' = this1).
Proof.
  apply (draw_deletes_the_bound_buffer false [3; 4] 2 1 tint (window_of first_frame)
           rebound_after_first_frame).
  - apply (bool_decide_unpack _). vm_compute. exact I.
  - vm_compute. intros H. discriminate H.
  - vm_compute. intros H. discriminate H.
  - vm_compute. eexists. reflexivity.
Defined.

(** ** What a draw leaves alone *)

Lemma draw_frame_touches_its_own {T} dbg (x : list T) Nx Ny (map : T -> Color) this w w' :
  buffer_available this w ->
  final_world (draw_frame dbg x Nx Ny map this w) = Some w' ->
  (forall n, n <> bufferID this -> gl_buffers w' !! n = gl_buffers w !! n) /\
  (forall h, h <> resource this -> cu_resources w' !! h = cu_resources w !! h).
Proof.
  intros Hav Hrun. unfold draw_frame in Hrun. unfold bind at 1 in Hrun.
  unfold buffer_available in Hav.
  destruct (cu_resources w !! resource this) as [reg|] eqn:Hr.
  - destruct Hav as [-> [ds Hb]].
    rewrite (mapColors_registered map dbg x _ _ _ w ds Hr Hb) in Hrun.
    destruct (dbg && negb (size_matches x ds)).
    + injection Hrun as <-. unfold after_map, set_mapped. world_simpl.
      split; intros k Hk; apply lookup_insert_ne; congruence.
    + destruct (has_room x ds); [|discriminate].
      unfold bind at 1 in Hrun. rewrite draw_present_runs in Hrun. injection Hrun as <-.
      unfold presented, colored. world_simpl.
      split; intros k Hk; apply lookup_insert_ne; congruence.
  - rewrite (mapColors_unregistered dbg map x _ w Hr) in Hrun.
    destruct dbg; [discriminate|]. destruct x; [|discriminate].
    unfold bind at 1 in Hrun. rewrite draw_present_runs in Hrun. injection Hrun as <-.
    unfold presented. world_simpl. split; reflexivity.
Qed.

(** X14.  A draw touches no buffer object and no registration but the
    window's.  From a state in which the window's buffer, if it has one, is
    available and bound, whatever way the call ends, every buffer object other
    than the one the window held before and the one it holds after has its
    data store and contents unchanged, and every registration other than the
    window's old and new one is unchanged. *)
Theorem draw_touches_only_its_own_buffer {T} (DG_DEBUG : bool) (x : list T) (Nx Ny : Z)
    (map : T -> Color) (this : DeviceWindow) (w w' : World) :
  names_ok w ->
  buffer_available this w ->
  gl_unpack w = bufferID this ->
  final_world (draw DG_DEBUG x Nx Ny map this w) = Some w' ->
  (forall n, n <> bufferID this ->
             n <> bufferID (window_of (draw_resize Nx Ny this w)) ->
             gl_buffers w' !! n = gl_buffers w !! n) /\
  (forall h, h <> resource this ->
             h <> resource (window_of (draw_resize Nx Ny this w)) ->
             cu_resources w' !! h = cu_resources w !! h).
Proof.
  intros Hok Hav Hbind Hrun.
  destruct (dimensions_change Nx Ny this) eqn:Hc.
  - pose proof (draw_resize_reallocates Nx Ny this w Hc Hok) as Hr.
    rewrite (draw_stages _ _ _ _ _ _ _ _ _ Hr) in Hrun. rewrite Hr. cbn [window_of bufferID resource].
    destruct (draw_frame_touches_its_own _ _ _ _ _ _ _ _
                (reallocated_buffer_available Nx Ny _ this w Hok) Hrun) as [Hb Hh].
    cbn [bufferID resource] in Hb, Hh. split.
    + intros n Hn1 Hn2. rewrite (Hb n Hn2), allocated_buffers, released_buffers.
      rewrite lookup_insert_ne by congruence. apply lookup_delete_ne. congruence.
    + intros h Hh1 Hh2. rewrite (Hh h Hh2), allocated_resources, released_resources.
      unfold new_resource in Hh2.
      destruct (registration_granted (released (resource this) w)).
      * rewrite lookup_insert_ne by congruence. apply lookup_delete_ne. congruence.
      * apply lookup_delete_ne. congruence.
  - pose proof (draw_resize_keeps Nx Ny this w Hc) as Hr.
    rewrite (draw_stages _ _ _ _ _ _ _ _ _ Hr) in Hrun. rewrite Hr. cbn [window_of].
    destruct (draw_frame_touches_its_own _ _ _ _ _ _ _ _ Hav Hrun) as [Hb Hh].
    split; [intros n Hn _; apply Hb, Hn | intros h Hh1 _; apply Hh, Hh1].
Qed.

(** The first frame, a buffer of the caller's own, and the window's buffer
    bound again. *)
Definition shared_with_caller : World :=
  world_of (glBindBuffer 1 rebound_after_first_frame).

Lemma draw_touches_only_its_own_buffer_witness :
  (forall n, n <> bufferID (window_of first_frame) ->
             n <> bufferID (window_of (draw_resize 2 1 (window_of first_frame) shared_with_caller)) ->
             gl_buffers (world_of (draw true [3; 4] 2 1 tint (window_of first_frame)
                                     shared_with_caller)) !! n
             = gl_buffers shared_with_caller !! n) /\
  (forall h, h <> resource (window_of first_frame) ->
             h <> resource (window_of (draw_resize 2 1 (window_of first_frame) shared_with_caller)) ->
             cu_resources (world_of (draw true [3; 4] 2 1 tint (window_of first_frame)
                                       shared_with_caller)) !! h
             = cu_resources shared_with_caller !! h).
Proof.
  apply (draw_touches_only_its_own_buffer true [3; 4] 2 1 tint (window_of first_frame)
           shared_with_caller
           (world_of (draw true [3; 4] 2 1 tint (window_of first_frame) shared_with_caller))).
  - apply (bool_decide_unpack _). vm_compute. exact I.
  - vm_compute. split; [reflexivity | eexists; reflexivity].
  - reflexivity.
  - vm_compute. reflexivity.
Defined.

(** ** From one state of the window to the next *)

(** X15.  Every draw that returns with its allocation granted ends in
    [Bound].  From [Bound(w0,h0)], or from the state the constructor leaves
    when the dimensions asked for are not (0,0), a draw of [Nx] by [Ny] that
    returns leaves the window in [Bound(Nx,Ny)]: with the recorded dimensions
    no request is made at all, and with new ones the registration request has
    to be granted. *)
Theorem draw_ends_in_Bound {T} (DG_DEBUG : bool) (x : list T) (Nx Ny : Z) (map : T -> Color)
    (w0 h0 : Z) (this this' : DeviceWindow) (w w' : World) :
  Bound w0 h0 this w \/ (Uninitialized this w /\ (Nx, Ny) <> (0, 0)) ->
  gl_next w + 1 < UINT_MOD ->
  ((Nx, Ny) <> (Nx_ this, Ny_ this) -> registration_granted w = true) ->
  draw DG_DEBUG x Nx Ny map this w = Done this' w' ->
  Bound Nx Ny this' w'.
Proof.
  intros Hstate Hroom Hgrant Hrun.
  destruct Hstate as [HB|[(-> & _ & Hok) Hne]].
  - destruct (dimensions_change Nx Ny this) eqn:Hc.
    + assert (Hne : (Nx, Ny) <> (Nx_ this, Ny_ this)).
      { intros Heq. injection Heq as -> ->.
        assert (Hf : dimensions_change (Nx_ this) (Ny_ this) this = false)
          by (apply dimensions_change_false; auto).
        congruence. }
      destruct HB as (_ & _ & _ & _ & Hok).
      exact (draw_reaches_Bound DG_DEBUG x Nx Ny map this w this' w' Hok Hroom Hne (Hgrant Hne) Hrun).
    + apply dimensions_change_false in Hc. destruct Hc as [HNx HNy].
      destruct HB as (_ & _ & Hrest).
      assert (HB : Bound Nx Ny this w) by (split; [exact HNx | split; [exact HNy | exact Hrest]]).
      exact (draw_keeps_Bound DG_DEBUG x map Nx Ny this w this' w' HB Hrun).
  - exact (draw_reaches_Bound DG_DEBUG x Nx Ny map (mkWindow 0 NULL 0 0) w this' w'
             Hok Hroom Hne (Hgrant Hne) Hrun).
Qed.

Lemma draw_ends_in_Bound_witness :
  Bound 2 1 (window_of (draw true [3; 4] 2 1 tint (window_of first_frame) (world_of first_frame)))
        (world_of (draw true [3; 4] 2 1 tint (window_of first_frame) (world_of first_frame))).
Proof.
  apply (draw_ends_in_Bound true [3; 4] 2 1 tint 1 1
           (window_of first_frame)
           (window_of (draw true [3; 4] 2 1 tint (window_of first_frame) (world_of first_frame)))
           (world_of first_frame)
           (world_of (draw true [3; 4] 2 1 tint (window_of first_frame) (world_of first_frame)))).
  - left. exact first_frame_Bound.
  - vm_compute. reflexivity.
  - intros _. reflexivity.
  - vm_compute. reflexivity.
Defined.

(** X16.  A refused registration is made good by the next change of size.
    After a draw whose registration request was refused, a draw with other
    dimensions whose request is granted deletes the buffer object left over
    from the refused request (it is still the pixel-unpack binding) before it
    allocates, and leaves the window in [Bound]: the left-over buffer is not
    live afterwards unless its name was handed out again for the new one. *)
Theorem draw_recovers_from_refused_registration {T} (DG_DEBUG : bool) (x1 x2 : list T)
    (Nx Ny Nx2 Ny2 : Z) (map1 map2 : T -> Color) (this this1 this2 : DeviceWindow)
    (w w1 w2 : World) :
  names_ok w ->
  gl_next w + 2 < UINT_MOD ->
  (Nx, Ny) <> (Nx_ this, Ny_ this) ->
  registration_granted w = false ->
  draw DG_DEBUG x1 Nx Ny map1 this w = Done this1 w1 ->
  (Nx2, Ny2) <> (Nx, Ny) ->
  registration_granted w1 = true ->
  draw DG_DEBUG x2 Nx2 Ny2 map2 this1 w1 = Done this2 w2 ->
  Bound Nx2 Ny2 this2 w2 /\
  (exists rest,
     trace w2 = trace w1
                  ++ [CudaUnregister NULL cudaErrorInvalidResourceHandle;
                      Print ("Allocate resources for drawing!" ++ newline);
                      GlDeleteBuffers (bufferID this1)]
                  ++ rest) /\
  (bufferID this2 = bufferID this1 \/ gl_buffers w2 !! bufferID this1 = None).
Proof.
  intros Hok Hroom Hne Hfail Hrun1 Hne2 Hgrant Hrun2.
  pose proof (draw_resize_reallocates Nx Ny this w (dimensions_change_true _ _ _ Hne) Hok) as Hr1.
  rewrite (draw_stages _ _ _ _ _ _ _ _ _ Hr1) in Hrun1.
  pose proof (draw_frame_returns _ _ _ _ _ _ _ _ _ Hrun1) as ->.
  assert (Hq1 : quiet (allocated (umul (umul 3 Nx) Ny) (released (resource this) w)) w1)
    by (eapply draw_frame_quiet; rewrite Hrun1; reflexivity).
  destruct (refused_reallocation (umul (umul 3 Nx) Ny) (resource this) w Hok Hfail)
    as (Hnull & Hnone & Hlive).
  assert (Hok1 : names_ok w1).
  { apply (quiet_names_ok _ _ Hq1). apply reallocated_names_ok; [exact Hok | lia]. }
  assert (Hnext1 : gl_next w1 <= gl_next w + 1).
  { rewrite (quiet_gl_next _ _ Hq1). etransitivity; [apply allocated_gl_next|]. apply Z.le_refl. }
  assert (Hbind1 : gl_unpack w1 = next_buffer_name (released (resource this) w))
    by (rewrite (quiet_unpack _ _ Hq1); apply allocated_unpack).
  assert (Hnone1 : cu_resources w1 !! NULL = None)
    by (apply (quiet_keeps_released_resource _ _ _ Hq1), Hnone).
  rewrite Hnull in *.
  set (b1 := next_buffer_name (released (resource this) w)) in *. clearbody b1.
  clear Hr1 Hrun1 Hq1 Hlive Hnone.
  cbn [bufferID].
  assert (Hne2' : (Nx2, Ny2) <> (Nx_ (mkWindow b1 NULL Nx Ny), Ny_ (mkWindow b1 NULL Nx Ny)))
    by exact Hne2.
  split.
  { apply (draw_reaches_Bound DG_DEBUG x2 Nx2 Ny2 map2 (mkWindow b1 NULL Nx Ny) w1 this2 w2);
      [exact Hok1 | lia | exact Hne2' | exact Hgrant | exact Hrun2]. }
  pose proof (draw_resize_reallocates Nx2 Ny2 _ w1 (dimensions_change_true _ _ _ Hne2') Hok1) as Hr2.
  cbn [resource] in Hr2.
  rewrite (draw_stages _ _ _ _ _ _ _ _ _ Hr2) in Hrun2.
  pose proof (draw_frame_returns _ _ _ _ _ _ _ _ _ Hrun2) as ->.
  assert (Hq2 : quiet (allocated (umul (umul 3 Nx2) Ny2) (released NULL w1)) w2)
    by (eapply draw_frame_quiet; rewrite Hrun2; reflexivity).
  cbn [bufferID]. split.
  - destruct (quiet_trace _ _ Hq2) as (evs & Htrace & _).
    rewrite Htrace, reallocation_trace. unfold reallocation_calls.
    rewrite Hnone1, Hbind1. eexists. rewrite <- !app_assoc. reflexivity.
  - destruct (decide (next_buffer_name (released NULL w1) = b1)) as [Heq|Hdiff]; [left; exact Heq|].
    right. apply (quiet_keeps_released_buffer _ _ _ Hq2).
    rewrite allocated_buffers, released_buffers, Hbind1.
    rewrite lookup_insert_ne by exact Hdiff. apply lookup_delete_eq.
Qed.

(** The frame after the refused one, of 1 by 1 with one element. *)
Definition recovered_frame : Outcome DeviceWindow :=
  draw false [5] 1 1 tint (window_of refused_frame) (world_of refused_frame).

Lemma draw_recovers_from_refused_registration_witness :
  Bound 1 1 (window_of recovered_frame) (world_of recovered_frame) /\
  (exists rest,
     trace (world_of recovered_frame)
     = trace (world_of refused_frame)
         ++ [CudaUnregister NULL cudaErrorInvalidResourceHandle;
             Print ("Allocate resources for drawing!" ++ newline);
             GlDeleteBuffers (bufferID (window_of refused_frame))]
         ++ rest) /\
  (bufferID (window_of recovered_frame) = bufferID (window_of refused_frame) \/
   gl_buffers (world_of recovered_frame) !! bufferID (window_of refused_frame) = None).
Proof.
  apply (draw_recovers_from_refused_registration false ([] : list Z) [5] 0 1 1 1 tint tint
           (window_of (opened granting [cudaErrorUnknown]))
           (window_of refused_frame) (window_of recovered_frame)
           (world_of (opened granting [cudaErrorUnknown]))
           (world_of refused_frame) (world_of recovered_frame)).
  - apply (bool_decide_unpack _). vm_compute. exact I.
  - vm_compute. reflexivity.
  - vm_compute. intros H. discriminate H.
  - reflexivity.
  - vm_compute. reflexivity.
  - vm_compute. intros H. discriminate H.
  - reflexivity.
  - vm_compute. reflexivity.
Defined.

(** X17.  Each further frame of the same size shows its field.  In
    [Bound(Nx,Ny)] with a buffer of [12*Nx*Ny] bytes, the state a draw under
    its documented use leaves, a draw of a field of [Nx*Ny] elements with the
    same dimensions returns, in a debug and in a release build, keeps the
    window and the state, and leaves the buffer reading back as the colors of
    the new field; the texture is uploaded from that buffer. *)
Theorem draw_refreshes_the_field {T} (DG_DEBUG : bool) (x : list T) (Nx Ny : Z)
    (map : T -> Color) (this : DeviceWindow) (ds : DataStore) (w : World) :
  Bound Nx Ny this w ->
  gl_buffers w !! bufferID this = Some ds ->
  ds_bytes ds = 12 * Nx * Ny ->
  size_of x = Nx * Ny ->
  exists w' ds' before,
    draw DG_DEBUG x Nx Ny map this w = Done this w' /\
    Bound Nx Ny this w' /\
    gl_buffers w' !! bufferID this = Some ds' /\
    ds_bytes ds' = 12 * Nx * Ny /\
    (forall (i : nat) (v : T), x !! i = Some v -> color_at ds' (Z.of_nat i) = Some (map v)) /\
    trace w' = before ++ [GlTexImage2D (GLint_of_GLuint Nx) (GLint_of_GLuint Ny) (bufferID this);
                          GlLoadIdentity; GlQuads quad_vertices; GlfwSwapBuffers].
Proof.
  intros HB Hbuf Hbytes Hsize.
  pose proof HB as (HNx & HNy & [Hreg _] & Hbind & _).
  assert (Hc : dimensions_change Nx Ny this = false) by (apply dimensions_change_false; auto).
  assert (Hroom : has_room x ds = true).
  { unfold has_room. destruct x; [reflexivity|]. apply Z.leb_le.
    unfold sizeof_Color, sizeof_float. lia. }
  assert (Hmatch : size_matches x ds = true).
  { unfold size_matches. apply Z.eqb_eq. unfold sizeof_float.
    rewrite Hbytes, Hsize, Z.div_div by lia.
    replace (12 * Nx * Ny) with (Nx * Ny * (3 * 4)) by lia.
    symmetry. apply Z.div_mul. lia. }
  assert (Hrun : draw DG_DEBUG x Nx Ny map this w
                 = Done this (presented Nx Ny
                                (colored map x (resource this) (bufferID this) false ds w))).
  { rewrite (draw_stages _ _ _ _ _ _ _ _ _ (draw_resize_keeps Nx Ny this w Hc)).
    unfold draw_frame. unfold bind at 1.
    rewrite (mapColors_returns map DG_DEBUG x _ _ w ds Hreg Hbuf Hroom (fun _ => Hmatch)).
    unfold bind at 1. rewrite draw_present_runs. reflexivity. }
  eexists _, _, _. split; [exact Hrun|].
  split; [exact (draw_keeps_Bound DG_DEBUG x map Nx Ny this w _ _ HB Hrun)|].
  unfold presented, colored. world_simpl.
  split; [apply lookup_insert_eq|].
  split; [exact Hbytes|].
  split; [intros i v Hi; apply color_at_fill; exact Hi|].
  rewrite Hbind. reflexivity.
Qed.

Lemma draw_refreshes_the_field_witness :
  exists w' ds' before,
    draw true [9] 1 1 tint (window_of first_frame) (world_of first_frame)
    = Done (window_of first_frame) w' /\
    Bound 1 1 (window_of first_frame) w' /\
    gl_buffers w' !! bufferID (window_of first_frame) = Some ds' /\
    ds_bytes ds' = 12 * 1 * 1 /\
    (forall (i : nat) (v : Z), [9] !! i = Some v -> color_at ds' (Z.of_nat i) = Some (tint v)) /\
    trace w' = before ++ [GlTexImage2D (GLint_of_GLuint 1) (GLint_of_GLuint 1)
                            (bufferID (window_of first_frame));
                          GlLoadIdentity; GlQuads quad_vertices; GlfwSwapBuffers].
Proof.
  apply (draw_refreshes_the_field true [9] 1 1 tint (window_of first_frame)
           (mkStore 12 (fill tint [5] 0 ∅)) (world_of first_frame)).
  - exact first_frame_Bound.
  - vm_compute. reflexivity.
  - reflexivity.
  - reflexivity.
Defined.

(** ** The free functions on their own *)

(** [loadTexture(width, height)] *)
Definition loadTexture (width height : Z) : Op unit := glTexImage2D width height.

(** X18.  The free functions make a frame without a window object.  A
    buffer from [allocateCudaGlBuffer(3*width*height)], filled by [mapColors]
    with a field of [width*height] elements and handed to [loadTexture(width,
    height)]: when the runtimes grant the data store and the registration the
    three calls return, in a debug and in a release build, and the texture is
    uploaded from the buffer that was allocated, which is registered, unmapped
    and reads back as the colors of the field. *)
Theorem loadTexture_uploads_the_mapped_colors {T} (DG_DEBUG : bool) (map : T -> Color)
    (x : list T) (width height : Z) (w : World) :
  names_ok w ->
  registration_granted w = true ->
  0 <= width -> 0 <= height -> 3 * width * height < UINT_MOD ->
  gl_store_fits w (4 * (3 * width * height)) = true ->
  size_of x = width * height ->
  exists r w' ds before,
    (do r <- allocateCudaGlBuffer (3 * width * height);
     mapColors DG_DEBUG map x r ;;
     loadTexture width height ;;
     ret r) w = Done r w' /\
    cu_resources w !! r = None /\
    gl_buffers w !! gl_unpack w' = None /\
    cu_resources w' !! r = Some (mkReg (gl_unpack w') false) /\
    gl_buffers w' !! gl_unpack w' = Some ds /\
    (forall (i : nat) (v : T), x !! i = Some v -> color_at ds (Z.of_nat i) = Some (map v)) /\
    trace w' = before ++ [GlTexImage2D width height (gl_unpack w')].
Proof.
  intros Hok Hgrant Hw Hh Hsmall Hfits Hsize.
  destruct (next_buffer_name_fresh _ Hok) as [Hfresh Hrange].
  destruct (next_handle_fresh _ Hok) as [Hhfresh _].
  assert (Hrun : allocateCudaGlBuffer (3 * width * height) w
                 = Done (new_resource w) (allocated (3 * width * height) w))
    by (apply allocateCudaGlBuffer_runs; [exact Hfresh | lia]).
  unfold new_resource in Hrun. rewrite Hgrant in Hrun.
  pose proof (allocated_resources (3 * width * height) w) as Hres. rewrite Hgrant in Hres.
  pose proof (allocated_buffers (3 * width * height) w) as Hbufs.
  pose proof (allocated_unpack (3 * width * height) w) as Hbind.
  assert (Hbytes : size_mul (3 * width * height) sizeof_float = 4 * (3 * width * height)).
  { unfold size_mul, sizeof_float, SIZE_MOD, UINT_MOD in *. rewrite Z.mod_small; nia. }
  rewrite Hbytes in Hbufs. unfold new_store in Hbufs. rewrite Hfits in Hbufs.
  set (w1 := allocated (3 * width * height) w) in *. clearbody w1.
  set (r := next_handle w) in *. clearbody r.
  set (b := next_buffer_name w) in *. clearbody b.
  assert (Hreg1 : cu_resources w1 !! r = Some (mkReg b false))
    by (rewrite Hres; apply lookup_insert_eq).
  assert (Hbuf1 : gl_buffers w1 !! b = Some (mkStore (4 * (3 * width * height)) ∅))
    by (rewrite Hbufs; apply lookup_insert_eq).
  destruct (exact_field_fits x width height Hw Hh Hsmall Hsize) as [Hroom Hmatch].
  rewrite Z.mod_small in Hroom, Hmatch by (split; [nia | exact Hsmall]).
  exists r. eexists _, _, _.
  split.
  { unfold bind at 1. rewrite Hrun. unfold bind at 1.
    rewrite (mapColors_returns map DG_DEBUG x r b w1 _ Hreg1 Hbuf1 Hroom (fun _ => Hmatch)).
    unfold bind, loadTexture, glTexImage2D, ret. reflexivity. }
  unfold colored. world_simpl. rewrite Hbind.
  split; [exact Hhfresh|]. split; [exact Hfresh|].
  split; [apply lookup_insert_eq|].
  split; [apply lookup_insert_eq|].
  split; [intros i v Hi; apply color_at_fill; exact Hi|].
  reflexivity.
Qed.

Lemma loadTexture_uploads_the_mapped_colors_witness :
  exists r w' ds before,
    (do r <- allocateCudaGlBuffer (3 * 2 * 1);
     mapColors true tint [3; 4] r ;;
     loadTexture 2 1 ;;
     ret r) (power_on granting []) = Done r w' /\
    cu_resources (power_on granting []) !! r = None /\
    gl_buffers (power_on granting []) !! gl_unpack w' = None /\
    cu_resources w' !! r = Some (mkReg (gl_unpack w') false) /\
    gl_buffers w' !! gl_unpack w' = Some ds /\
    (forall (i : nat) (v : Z), [3; 4] !! i = Some v -> color_at ds (Z.of_nat i) = Some (tint v)) /\
    trace w' = before ++ [GlTexImage2D 2 1 (gl_unpack w')].
Proof.
  apply (loadTexture_uploads_the_mapped_colors true tint [3; 4] 2 1 (power_on granting [])).
  - apply (bool_decide_unpack _). vm_compute. exact I.
  - reflexivity.
  - lia.
  - lia.
  - unfold UINT_MOD. lia.
  - reflexivity.
  - reflexivity.
Defined.
